(** * finance-tracker: ledger derivations and the scheduled-payment lifecycle

    A shallow embedding of the worker routes of the finance tracker
    ([src/worker/routes/accounts.ts], [dashboard.ts], [goals.ts], [debts.ts],
    [loans.ts], [scheduled-payments.ts], [transactions.ts], [transfers.ts])
    together with the properties the specification states about them and
    further properties of the routes.

    Modelling conventions.
    - A D1 table is a [list] of rows; a [select ... where c] is a [filter],
      [COALESCE(SUM(col), 0)] is a sum over the filtered rows, an
      [update ... set ... where c] is a [map] that rewrites the rows matching
      [c], an [insert] appends a row.  The [orderBy] of a listing is not
      modelled: no derivation below depends on the order of the rows.
    - Amounts ([real] columns, JavaScript [number]s) are exact rationals [Q];
      the rounding of IEEE-754 doubles is not modelled.
    - Identifiers, timestamps and calendar dates are [string]s, as stored.
      The values drawn from [crypto.randomUUID()] and [new Date()] are
      explicit inputs of the operation that draws them.
    - A route takes the request after validation (the [zod] schema has been
      applied) and returns its JSON response together with the new store.
      That is the request run on its own.  The settlement and the
      cancellation of a scheduled payment are also given statement by
      statement ([InFlight]), since the store runs the statements of
      overlapping requests in any order.
    - The primary and foreign keys of the schema are not checked by the
      lists: the identifiers drawn are taken to be new.  A statement that
      depends on a reference the route does not look up, or that reads a
      new row back by its identifier, names what the keys need as
      hypotheses ([present], [freshKey]). *)

From Stdlib Require Import ZArith QArith Qround Qminmax Lqa Lia Bool List.
From Stdlib Require Import Ascii String DecimalString Permutation Sorted.
Import ListNotations.

Local Open Scope string_scope.
Local Open Scope list_scope.
Local Open Scope Z_scope.

(** ** JavaScript [Date], after ECMA-262 section 21.4.1

    The worker runs with the local time zone equal to UTC, so the local-time
    accessors ([getDate], [setMonth], ...) read and write UTC fields. *)
Module JsDate.

Definition msPerDay : Z := 86400000.

Definition Day (t : Z) : Z := t / msPerDay.
Definition TimeWithinDay (t : Z) : Z := t mod msPerDay.

Definition isLeap (y : Z) : bool :=
  if negb (y mod 4 =? 0) then false
  else if negb (y mod 100 =? 0) then true
  else if negb (y mod 400 =? 0) then false
  else true.

Definition DaysInYear (y : Z) : Z := if isLeap y then 366 else 365.

Definition DayFromYear (y : Z) : Z :=
  365 * (y - 1970) + (y - 1969) / 4 - (y - 1901) / 100 + (y - 1601) / 400.

(** [YearFromTime t] is the largest [y] with [DayFromYear y <= Day t]:
    a first guess from the mean length of a year, stepped down and then
    up to the exact year. *)
Fixpoint yearDown (fuel : nat) (y d : Z) : Z :=
  match fuel with
  | O => y
  | S f => if DayFromYear y <=? d then y else yearDown f (y - 1) d
  end.

Fixpoint yearUp (fuel : nat) (y d : Z) : Z :=
  match fuel with
  | O => y
  | S f => if DayFromYear (y + 1) <=? d then yearUp f (y + 1) d else y
  end.

Definition YearFromDay (d : Z) : Z :=
  let guess := 1970 + (d * 400) / 146097 in
  yearUp 4 (yearDown 4 guess d) d.

Definition YearFromTime (t : Z) : Z := YearFromDay (Day t).

Definition InLeapYear (t : Z) : bool := isLeap (YearFromTime t).

Definition DayWithinYear (t : Z) : Z := Day t - DayFromYear (YearFromTime t).

(** Days of the year before month [m] (0 = January). *)
Definition daysBeforeMonth (leap : bool) (m : Z) : Z :=
  let l := if leap then 1 else 0 in
  if m <=? 0 then 0
  else if m =? 1 then 31
  else if m =? 2 then 59 + l
  else if m =? 3 then 90 + l
  else if m =? 4 then 120 + l
  else if m =? 5 then 151 + l
  else if m =? 6 then 181 + l
  else if m =? 7 then 212 + l
  else if m =? 8 then 243 + l
  else if m =? 9 then 273 + l
  else if m =? 10 then 304 + l
  else 334 + l.

Definition monthOfYearDay (leap : bool) (d : Z) : Z :=
  let l := if leap then 1 else 0 in
  if d <? 31 then 0
  else if d <? 59 + l then 1
  else if d <? 90 + l then 2
  else if d <? 120 + l then 3
  else if d <? 151 + l then 4
  else if d <? 181 + l then 5
  else if d <? 212 + l then 6
  else if d <? 243 + l then 7
  else if d <? 273 + l then 8
  else if d <? 304 + l then 9
  else if d <? 334 + l then 10
  else 11.

Definition MonthFromTime (t : Z) : Z :=
  monthOfYearDay (InLeapYear t) (DayWithinYear t).

Definition DateFromTime (t : Z) : Z :=
  DayWithinYear t - daysBeforeMonth (InLeapYear t) (MonthFromTime t) + 1.

Definition MakeDay (year month date : Z) : Z :=
  let ym := year + month / 12 in
  let mn := month mod 12 in
  DayFromYear ym + daysBeforeMonth (isLeap ym) mn + date - 1.

Definition MakeDate (day time : Z) : Z := day * msPerDay + time.

(** [TimeClip]: a time value beyond 8.64e15 ms is not a date ([NaN]). *)
Definition TimeClip (t : Z) : option Z :=
  if Z.abs t <=? 8640000000000000 then Some t else None.

Definition getFullYear := YearFromTime.
Definition getMonth := MonthFromTime.
Definition getDate := DateFromTime.

(** [d.setDate(x)], [d.setMonth(x)], [d.setFullYear(x)] on a valid date. *)
Definition setDate (t dt : Z) : option Z :=
  TimeClip (MakeDate (MakeDay (YearFromTime t) (MonthFromTime t) dt)
                     (TimeWithinDay t)).

Definition setMonth (t m : Z) : option Z :=
  TimeClip (MakeDate (MakeDay (YearFromTime t) m (DateFromTime t))
                     (TimeWithinDay t)).

Definition setFullYear (t y : Z) : option Z :=
  TimeClip (MakeDate (MakeDay y (MonthFromTime t) (DateFromTime t))
                     (TimeWithinDay t)).

(** *** Decimal fields *)

Definition digitChar (n : Z) : ascii :=
  ascii_of_nat (48 + Z.to_nat (n mod 10)).

Fixpoint padDigits (width : nat) (n : Z) (acc : string) : string :=
  match width with
  | O => acc
  | S w => padDigits w (n / 10) (String (digitChar n) acc)
  end.

Definition pad (width : nat) (n : Z) : string := padDigits width n EmptyString.

Definition digitVal (c : ascii) : option Z :=
  let n := Z.of_nat (nat_of_ascii c) in
  if (48 <=? n) && (n <=? 57) then Some (n - 48) else None.

Fixpoint readDigits (s : string) (acc : Z) : option Z :=
  match s with
  | EmptyString => Some acc
  | String c r =>
      match digitVal c with
      | Some v => readDigits r (10 * acc + v)
      | None => None
      end
  end.

Definition DaysInMonth (y m : Z) : Z :=
  if m =? 11 then 31
  else daysBeforeMonth (isLeap y) (m + 1) - daysBeforeMonth (isLeap y) m.

(** [new Date(s)] for a date-only string [YYYY-MM-DD], the shape the
    validators enforce ([/^\d{4}-\d{2}-\d{2}$/]): midnight UTC of that day.
    As in V8, the month must lie in 1..12 and the day in 1..31, and a day
    past the end of the month rolls over into the next one; a string of
    that shape with another month or day is an invalid date, [None].
    Strings of any other shape are outside the model and yield [None] too. *)
Definition parse (s : string) : option Z :=
  if negb (String.length s =? 10)%nat then None
  else if negb (String.eqb (substring 4 1 s) "-"
                && String.eqb (substring 7 1 s) "-") then None
  else
    match readDigits (substring 0 4 s) 0,
          readDigits (substring 5 2 s) 0,
          readDigits (substring 8 2 s) 0 with
    | Some y, Some m, Some d =>
        if (1 <=? m) && (m <=? 12) && (1 <=? d) && (d <=? 31)
        then Some (MakeDate (MakeDay y (m - 1) d) 0)
        else None
    | _, _, _ => None
    end.

(** [d.toISOString().split("T")[0]]: the date part of the ISO string, with
    the expanded six-digit year outside 0..9999. *)
Definition isoYear (y : Z) : string :=
  let sign : string := if y <? 0 then "-" else "+" in
  if (0 <=? y) && (y <=? 9999) then pad 4 y
  else (sign ++ pad 6 (Z.abs y))%string.

Definition toISODate (t : Z) : string :=
  (isoYear (YearFromTime t) ++ "-" ++ pad 2 (MonthFromTime t + 1)
     ++ "-" ++ pad 2 (DateFromTime t))%string.

End JsDate.

(** ** The data model ([src/worker/db/schema.ts], migration 0000) *)

Definition Id := string.

(** [eq(column, value)] on a nullable column: [NULL] matches nothing. *)
Definition eqNullable (column : option Id) (value : Id) : bool :=
  match column with
  | Some v => String.eqb v value
  | None => false
  end.

Inductive TxType :=
  | income | expense | debt_payment | goal_contribution | loan_payment.

Definition TxType_eqb (a b : TxType) : bool :=
  match a, b with
  | income, income | expense, expense | debt_payment, debt_payment
  | goal_contribution, goal_contribution | loan_payment, loan_payment => true
  | _, _ => false
  end.

Record Account := mkAccount {
  acc_id : Id;
  acc_userId : Id;
  acc_name : string;
  acc_currency : string;
  acc_initialBalance : Q;
  acc_isActive : bool;
  acc_includeInTotal : bool
}.

Record Transaction := mkTransaction {
  tx_id : Id;
  tx_userId : Id;
  tx_accountId : Id;
  tx_categoryId : option Id;
  tx_type : TxType;
  tx_amount : Q;
  tx_description : option string;
  tx_date : string;
  tx_debtId : option Id;
  tx_loanId : option Id;
  tx_goalId : option Id;
  tx_createdAt : string;
  tx_updatedAt : string
}.

Record Transfer := mkTransfer {
  tr_id : Id;
  tr_userId : Id;
  tr_fromAccountId : Id;
  tr_toAccountId : Id;
  tr_amount : Q;
  tr_fee : option Q;
  tr_date : string
}.

Inductive DebtStatus := debt_active | debt_paid | debt_overdue | debt_partial.

Record Debt := mkDebt {
  debt_id : Id;
  debt_userId : Id;
  debt_creditor : string;
  debt_principalAmount : Q;
  debt_currency : string;
  debt_totalInstallments : option Z;
  debt_startDate : string;
  debt_dueDate : option string;
  debt_status : DebtStatus
}.

Inductive LoanStatus :=
  | loan_active | loan_paid | loan_overdue | loan_partial | loan_forgiven.

Record Loan := mkLoan {
  loan_id : Id;
  loan_userId : Id;
  loan_borrower : string;
  loan_principalAmount : Q;
  loan_status : LoanStatus
}.

Record Goal := mkGoal {
  goal_id : Id;
  goal_userId : Id;
  goal_name : string;
  goal_targetAmount : Q;
  goal_targetDate : option string;
  goal_isActive : bool;
  goal_isCompleted : bool
}.

Inductive PaymentStatus := pending | paid | cancelled | overdue.

Definition PaymentStatus_eqb (a b : PaymentStatus) : bool :=
  match a, b with
  | pending, pending | paid, paid | cancelled, cancelled | overdue, overdue => true
  | _, _ => false
  end.

Inductive Priority := low | medium | high | urgent.

Record ScheduledPayment := mkScheduledPayment {
  sp_id : Id;
  sp_userId : Id;
  sp_name : string;
  sp_description : option string;
  sp_amount : Q;
  sp_currency : string;
  sp_dueDate : string;
  sp_status : PaymentStatus;
  sp_categoryId : option Id;
  sp_accountId : option Id;
  sp_debtId : option Id;
  sp_loanId : option Id;
  sp_debtInstallmentId : option Id;
  sp_isRecurring : bool;
  sp_recurringFrequency : option string;
  sp_priority : Priority;
  sp_tags : option string;
  sp_notes : option string;
  sp_reminderDays : Z;
  sp_paidDate : option string;
  sp_paidAmount : option Q;
  sp_createdAt : string;
  sp_updatedAt : string
}.

(** The store: one list of rows per table. *)
Record Db := mkDb {
  accounts : list Account;
  transactions : list Transaction;
  transfers : list Transfer;
  debts : list Debt;
  loans : list Loan;
  goals : list Goal;
  scheduledPayments : list ScheduledPayment
}.

(** A JSON response with its HTTP status. *)
Inductive Response (A : Type) :=
  | Json200 (body : A)
  | Json201 (body : A)
  | Json400 (error : string)
  | Json404 (error : string)
  | Error500.
Arguments Json200 {A} body.
Arguments Json201 {A} body.
Arguments Json400 {A} error.
Arguments Json404 {A} error.
Arguments Error500 {A}.

(** ** Aggregation *)

(** [COALESCE(SUM(col), 0)] over the selected rows. *)
Definition sumOf {A : Type} (col : A -> Q) (rows : list A) : Q :=
  fold_right (fun r acc => (col r + acc)%Q) 0%Q rows.

(** [rows.reduce((sum, r) => sum + col(r), 0)]. *)
Definition reduceSum {A : Type} (col : A -> Q) (rows : list A) : Q :=
  fold_left (fun sum r => (sum + col r)%Q) rows 0%Q.

(** [COALESCE(fee, 0)]. *)
Definition coalesce0 (x : option Q) : Q :=
  match x with Some v => v | None => 0%Q end.

(** [x || fallback] on a number: [0] is falsy. *)
Definition orNumber (x fallback : Q) : Q :=
  if Qeq_bool x 0 then fallback else x.

(** [Math.round]: the nearest integer, ties towards plus infinity.  It is
    applied here to the exact quotient; the code applies it to the double
    nearest to the quotient, which can lie on the other side of a half
    (23 of 40 gives 57 in the code and 58 here).  The statements below use
    what both have: whole values, their sign and their order. *)
Definition MathRound (x : Q) : Z := Qfloor (x + (1 # 2)).

(** ** Accounts ([routes/accounts.ts]) *)
Module Accounts.

Definition incomeOf (db : Db) (userId accountId : Id) : Q :=
  sumOf tx_amount
    (filter (fun t => String.eqb (tx_accountId t) accountId
                      && String.eqb (tx_userId t) userId
                      && TxType_eqb (tx_type t) income)
            (transactions db)).

Definition expenseOf (db : Db) (userId accountId : Id) : Q :=
  sumOf tx_amount
    (filter (fun t => String.eqb (tx_accountId t) accountId
                      && String.eqb (tx_userId t) userId
                      && TxType_eqb (tx_type t) expense)
            (transactions db)).

Definition transfersInOf (db : Db) (userId accountId : Id) : Q :=
  sumOf tr_amount
    (filter (fun t => String.eqb (tr_toAccountId t) accountId
                      && String.eqb (tr_userId t) userId)
            (transfers db)).

Definition transfersOutOf (db : Db) (userId accountId : Id) : Q :=
  sumOf (fun t => (tr_amount t + coalesce0 (tr_fee t))%Q)
    (filter (fun t => String.eqb (tr_fromAccountId t) accountId
                      && String.eqb (tr_userId t) userId)
            (transfers db)).

Record Stats := mkStats {
  totalIncome : Q;
  totalExpense : Q;
  transfersIn : Q;
  transfersOut : Q
}.

Record AccountWithBalance := mkAccountWithBalance {
  account : Account;
  balance : Q;
  stats : Stats
}.

(** The body of [accountsList.map(async (account) => ...)]. *)
Definition withBalance (db : Db) (userId : Id) (a : Account)
  : AccountWithBalance :=
  let income := orNumber (incomeOf db userId (acc_id a)) 0 in
  let expense := orNumber (expenseOf db userId (acc_id a)) 0 in
  let transfersIn := orNumber (transfersInOf db userId (acc_id a)) 0 in
  let transfersOut := orNumber (transfersOutOf db userId (acc_id a)) 0 in
  let balance :=
    (acc_initialBalance a + income - expense + transfersIn - transfersOut)%Q in
  mkAccountWithBalance a balance
    (mkStats income expense transfersIn transfersOut).

Record ListResponse := mkListResponse {
  list_accounts : list AccountWithBalance;
  list_totalBalance : Q;
  list_count : nat
}.

(** [GET /accounts]. *)
Definition list (db : Db) (userId : Id) (includeInactive : bool)
  : ListResponse :=
  let accountsList :=
    filter (fun a => if includeInactive
                     then String.eqb (acc_userId a) userId
                     else String.eqb (acc_userId a) userId && acc_isActive a)
           (accounts db) in
  let accountsWithBalances := map (withBalance db userId) accountsList in
  let totalBalance :=
    reduceSum balance
      (filter (fun a => acc_includeInTotal (account a) && acc_isActive (account a))
              accountsWithBalances) in
  mkListResponse accountsWithBalances totalBalance
    (List.length accountsWithBalances).

(** [GET /accounts/:id]. *)
Definition get (db : Db) (userId accountId : Id) : Response (Account * Q) :=
  match find (fun a => String.eqb (acc_id a) accountId
                       && String.eqb (acc_userId a) userId)
             (accounts db) with
  | None => Json404 "Cuenta no encontrada"
  | Some account =>
      let balance :=
        (acc_initialBalance account
         + orNumber (incomeOf db userId accountId) 0
         - orNumber (expenseOf db userId accountId) 0)%Q in
      Json200 (account, balance)
  end.

End Accounts.

(** ** Dashboard ([routes/dashboard.ts]) *)
Module Dashboard.

(** The fields of the stored dashboard configuration the balance and the
    scheduled-payment widgets read.  An absent key is [None]. *)
Record Config := mkConfig {
  balanceAccountIds : option (list Id);
  showScheduledPayments : option bool;
  scheduledPaymentsDays : option Z
}.

(** The configuration used when the owner has stored none. *)
Definition defaultConfig : Config := mkConfig None (Some true) (Some 7).

Definition calculateAccountBalance
    (db : Db) (accountId userId : Id) (initialBalance : Q) : Q :=
  let incomeResult :=
    sumOf tx_amount
      (filter (fun t => String.eqb (tx_accountId t) accountId
                        && String.eqb (tx_userId t) userId
                        && TxType_eqb (tx_type t) income)
              (transactions db)) in
  let expenseResult :=
    sumOf tx_amount
      (filter (fun t => String.eqb (tx_accountId t) accountId
                        && String.eqb (tx_userId t) userId
                        && (TxType_eqb (tx_type t) expense
                            || TxType_eqb (tx_type t) debt_payment
                            || TxType_eqb (tx_type t) goal_contribution
                            || TxType_eqb (tx_type t) loan_payment))
              (transactions db)) in
  (initialBalance + orNumber incomeResult 0 - orNumber expenseResult 0)%Q.

(** [or(...ids.map(id => eq(accounts.id, id)))]. *)
Definition idAmong (ids : list Id) (x : Id) : bool :=
  existsb (fun id => String.eqb x id) ids.

(** The rows of the balance widget: the owner's active accounts, restricted
    to [balanceAccountIds] when that list is present and not empty. *)
Definition rawAccounts (db : Db) (userId : Id) (config : Config)
  : list Account :=
  filter (fun a =>
            String.eqb (acc_userId a) userId && acc_isActive a
            && match balanceAccountIds config with
               | Some (id :: ids) => idAmong (id :: ids) (acc_id a)
               | _ => true
               end)
         (accounts db).

Record AccountBalance := mkAccountBalance {
  ab_id : Id;
  ab_name : string;
  ab_balance : Q;
  ab_currency : string
}.

Definition accountsList (db : Db) (userId : Id) (config : Config)
  : list AccountBalance :=
  map (fun acc =>
         mkAccountBalance (acc_id acc) (acc_name acc)
           (calculateAccountBalance db (acc_id acc) userId
              (acc_initialBalance acc))
           (acc_currency acc))
      (rawAccounts db userId config).

(** [balance.total] of [GET /dashboard]. *)
Definition totalBalance (db : Db) (userId : Id) (config : Config) : Q :=
  reduceSum ab_balance (accountsList db userId config).

(** [balance] of [GET /dashboard/summary]: every active account of the
    owner. *)
Definition summaryBalance (db : Db) (userId : Id) : Q :=
  fold_left
    (fun total acc =>
       (total + calculateAccountBalance db (acc_id acc) userId
                  (acc_initialBalance acc))%Q)
    (filter (fun a => String.eqb (acc_userId a) userId && acc_isActive a)
            (accounts db))
    0%Q.

(** [{ total, count }] of the transactions of one type dated within
    [start, end], as in the expense and income widgets, the summary and the
    trends. *)
Definition periodTotal (db : Db) (userId : Id) (type : TxType)
    (rangeStart rangeEnd : string) : Q * nat :=
  let rows :=
    filter (fun t => String.eqb (tx_userId t) userId
                     && TxType_eqb (tx_type t) type
                     && String.leb rangeStart (tx_date t)
                     && String.leb (tx_date t) rangeEnd)
           (transactions db) in
  (orNumber (sumOf tx_amount rows) 0, List.length rows).

Record DebtsSummary := mkDebtsSummary {
  ds_total : nat;
  ds_active : nat;
  ds_totalOwed : Q
}.

(** [debtsSummary]: what is still owed on the active debts. *)
Definition debtsSummary (db : Db) (userId : Id) : DebtsSummary :=
  let debtsWithPaid :=
    map (fun debt =>
           (debt,
            orNumber
              (sumOf tx_amount
                 (filter (fun t => String.eqb (tx_userId t) userId
                                   && eqNullable (tx_debtId t) (debt_id debt)
                                   && TxType_eqb (tx_type t) debt_payment)
                         (transactions db))) 0))
        (filter (fun d => String.eqb (debt_userId d) userId) (debts db)) in
  let active :=
    filter (fun d => match debt_status (fst d) with
                     | debt_active => true
                     | _ => false
                     end) debtsWithPaid in
  mkDebtsSummary (List.length debtsWithPaid) (List.length active)
    (reduceSum (fun d => (debt_principalAmount (fst d) - snd d)%Q) active).

Record LoansSummary := mkLoansSummary {
  ls_total : nat;
  ls_active : nat;
  ls_totalToReceive : Q
}.

(** [loansSummary]: what is still to be received on the active loans. *)
Definition loansSummary (db : Db) (userId : Id) : LoansSummary :=
  let loansWithReceived :=
    map (fun loan =>
           (loan,
            orNumber
              (sumOf tx_amount
                 (filter (fun t => String.eqb (tx_userId t) userId
                                   && eqNullable (tx_loanId t) (loan_id loan)
                                   && TxType_eqb (tx_type t) loan_payment)
                         (transactions db))) 0))
        (filter (fun l => String.eqb (loan_userId l) userId) (loans db)) in
  let active :=
    filter (fun l => match loan_status (fst l) with
                     | loan_active => true
                     | _ => false
                     end) loansWithReceived in
  mkLoansSummary (List.length loansWithReceived) (List.length active)
    (reduceSum (fun l => (loan_principalAmount (fst l) - snd l)%Q) active).

(** [pendingPayments] of the summary: count and total of the pending and
    overdue payments due up to [limit]. *)
Definition pendingPayments (db : Db) (userId : Id) (limit : string) : nat * Q :=
  let rows :=
    filter (fun p => String.eqb (sp_userId p) userId
                     && (PaymentStatus_eqb (sp_status p) pending
                         || PaymentStatus_eqb (sp_status p) overdue)
                     && String.leb (sp_dueDate p) limit)
           (scheduledPayments db) in
  (List.length rows, orNumber (sumOf sp_amount rows) 0).

Record GoalProgress := mkGoalProgress {
  gp_goal : Goal;
  gp_currentAmount : Q;
  gp_progress : Z;
  gp_remaining : Q
}.

(** The body of [rawGoals.map(async (goal) => ...)]; [daysRemaining] is
    left out. *)
Definition goalWithProgress (db : Db) (userId : Id) (goal : Goal)
  : GoalProgress :=
  let currentAmount :=
    orNumber
      (sumOf tx_amount
         (filter (fun t => String.eqb (tx_userId t) userId
                           && eqNullable (tx_goalId t) (goal_id goal)
                           && TxType_eqb (tx_type t) goal_contribution)
                 (transactions db))) 0 in
  mkGoalProgress goal currentAmount
    (MathRound ((currentAmount / goal_targetAmount goal) * 100))
    (goal_targetAmount goal - currentAmount).

(** [orderBy(goals.targetDate)]: ascending, [NULL] first. *)
Definition targetDateLe (a b : Goal) : bool :=
  match goal_targetDate a, goal_targetDate b with
  | None, _ => true
  | Some _, None => false
  | Some x, Some y => String.leb x y
  end.

Fixpoint insertGoal (g : Goal) (l : list Goal) : list Goal :=
  match l with
  | [] => [g]
  | h :: t => if targetDateLe g h then g :: l else h :: insertGoal g t
  end.

Definition orderByTargetDate (l : list Goal) : list Goal :=
  fold_right insertGoal [] l.

Definition goalsWithProgress (db : Db) (userId : Id) : list GoalProgress :=
  map (goalWithProgress db userId)
      (firstn 5
         (orderByTargetDate
            (filter (fun g => String.eqb (goal_userId g) userId
                              && goal_isActive g
                              && negb (goal_isCompleted g))
                    (goals db)))).

End Dashboard.

(** ** Progress of goals, debts and loans

    A listing or a detail read answers with the entity and its derived
    [current] (contributed, paid or received amount), [remaining] and
    [progress]. *)
Record Projection (A : Type) := mkProjection {
  entity : A;
  current : Q;
  remaining : Q;
  progress : Q
}.
Arguments mkProjection {A}.
Arguments entity {A}.
Arguments current {A}.
Arguments remaining {A}.
Arguments progress {A}.

(** *** Goals ([routes/goals.ts]); [suggestedMonthlyAmount] is left out. *)
Module Goals.

Definition contributions (db : Db) (userId goalId : Id) : list Transaction :=
  filter (fun t => String.eqb (tx_userId t) userId
                    && eqNullable (tx_goalId t) goalId
                    && TxType_eqb (tx_type t) goal_contribution)
          (transactions db).

Definition withProgress (db : Db) (userId : Id) (goal : Goal)
  : Projection Goal :=
  let currentAmount :=
    orNumber (sumOf tx_amount (contributions db userId (goal_id goal))) 0 in
  let remainingAmount := (goal_targetAmount goal - currentAmount)%Q in
  let progress := ((currentAmount / goal_targetAmount goal) * 100)%Q in
  mkProjection goal currentAmount (Qmax 0 remainingAmount) (Qmin progress 100).

(** [GET /goals]. *)
Definition list (db : Db) (userId : Id) (includeCompleted : bool)
  : list (Projection Goal) :=
  map (withProgress db userId)
      (filter (fun g => String.eqb (goal_userId g) userId
                        && (includeCompleted || negb (goal_isCompleted g)))
              (goals db)).

(** [GET /goals/:id]. *)
Definition get (db : Db) (userId goalId : Id) : Response (Projection Goal) :=
  match find (fun g => String.eqb (goal_id g) goalId
                       && String.eqb (goal_userId g) userId)
             (goals db) with
  | None => Json404 "Meta no encontrada"
  | Some goal =>
      let contributionHistory := contributions db userId goalId in
      let currentAmount := reduceSum tx_amount contributionHistory in
      let remainingAmount := (goal_targetAmount goal - currentAmount)%Q in
      Json200
        (mkProjection goal currentAmount (Qmax 0 remainingAmount)
           (Qmin ((currentAmount / goal_targetAmount goal) * 100) 100))
  end.

End Goals.

(** *** Debts ([routes/debts.ts]) *)
Module Debts.

Definition payments (db : Db) (userId debtId : Id) : list Transaction :=
  filter (fun t => String.eqb (tx_userId t) userId
                    && eqNullable (tx_debtId t) debtId
                    && TxType_eqb (tx_type t) debt_payment)
          (transactions db).

Definition DebtStatus_eqb (a b : DebtStatus) : bool :=
  match a, b with
  | debt_active, debt_active | debt_paid, debt_paid
  | debt_overdue, debt_overdue | debt_partial, debt_partial => true
  | _, _ => false
  end.

Definition withPaidAmount (db : Db) (userId : Id) (debt : Debt)
  : Projection Debt :=
  let paidAmount :=
    orNumber (sumOf tx_amount (payments db userId (debt_id debt))) 0 in
  let remainingAmount := (debt_principalAmount debt - paidAmount)%Q in
  let progress := ((paidAmount / debt_principalAmount debt) * 100)%Q in
  mkProjection debt paidAmount remainingAmount (Qmin progress 100).

(** [GET /debts]. *)
Definition list (db : Db) (userId : Id) (status : option DebtStatus)
  : list (Projection Debt) :=
  map (withPaidAmount db userId)
      (filter (fun d => String.eqb (debt_userId d) userId
                        && match status with
                           | Some s => DebtStatus_eqb (debt_status d) s
                           | None => true
                           end)
              (debts db)).

(** [GET /debts/:id]. *)
Definition get (db : Db) (userId debtId : Id) : Response (Projection Debt) :=
  match find (fun d => String.eqb (debt_id d) debtId
                       && String.eqb (debt_userId d) userId)
             (debts db) with
  | None => Json404 "Deuda no encontrada"
  | Some debt =>
      let paymentHistory := payments db userId debtId in
      let paidAmount := reduceSum tx_amount paymentHistory in
      let remainingAmount := (debt_principalAmount debt - paidAmount)%Q in
      Json200
        (mkProjection debt paidAmount remainingAmount
           (Qmin ((paidAmount / debt_principalAmount debt) * 100) 100))
  end.

End Debts.

(** *** Loans ([routes/loans.ts]) *)
Module Loans.

Definition receipts (db : Db) (userId loanId : Id) : list Transaction :=
  filter (fun t => String.eqb (tx_userId t) userId
                    && eqNullable (tx_loanId t) loanId
                    && TxType_eqb (tx_type t) loan_payment)
          (transactions db).

Definition LoanStatus_eqb (a b : LoanStatus) : bool :=
  match a, b with
  | loan_active, loan_active | loan_paid, loan_paid
  | loan_overdue, loan_overdue | loan_partial, loan_partial
  | loan_forgiven, loan_forgiven => true
  | _, _ => false
  end.

Definition withReceivedAmount (db : Db) (userId : Id) (loan : Loan)
  : Projection Loan :=
  let receivedAmount :=
    orNumber (sumOf tx_amount (receipts db userId (loan_id loan))) 0 in
  let remainingAmount := (loan_principalAmount loan - receivedAmount)%Q in
  let progress := ((receivedAmount / loan_principalAmount loan) * 100)%Q in
  mkProjection loan receivedAmount remainingAmount (Qmin progress 100).

(** [GET /loans]. *)
Definition list (db : Db) (userId : Id) (status : option LoanStatus)
  : list (Projection Loan) :=
  map (withReceivedAmount db userId)
      (filter (fun l => String.eqb (loan_userId l) userId
                        && match status with
                           | Some s => LoanStatus_eqb (loan_status l) s
                           | None => true
                           end)
              (loans db)).

(** [GET /loans/:id]. *)
Definition get (db : Db) (userId loanId : Id) : Response (Projection Loan) :=
  match find (fun l => String.eqb (loan_id l) loanId
                       && String.eqb (loan_userId l) userId)
             (loans db) with
  | None => Json404 "Préstamo no encontrado"
  | Some loan =>
      let paymentHistory := receipts db userId loanId in
      let receivedAmount := reduceSum tx_amount paymentHistory in
      let remainingAmount := (loan_principalAmount loan - receivedAmount)%Q in
      Json200
        (mkProjection loan receivedAmount remainingAmount
           (Qmin ((receivedAmount / loan_principalAmount loan) * 100) 100))
  end.

End Loans.

(** ** Scheduled payments ([routes/scheduled-payments.ts]) *)
Module ScheduledPayments.

(** *** Small JavaScript idioms *)

(** [iso.split("T")[0]]. *)
Fixpoint isoDate (iso : string) : string :=
  match iso with
  | EmptyString => EmptyString
  | String c rest =>
      if Ascii.eqb c "T"%char then EmptyString else String c (isoDate rest)
  end.

(** Truthiness of a nullable string: [null] and the empty string are falsy. *)
Definition truthy (x : option string) : bool :=
  match x with
  | Some v => negb (String.eqb v EmptyString)
  | None => false
  end.

(** [x || fallback] on an optional string. *)
Definition orString (x : option string) (fallback : string) : string :=
  match x with
  | Some v => if String.eqb v EmptyString then fallback else v
  | None => fallback
  end.

Definition orElse {A : Type} (x : option A) (fallback : A) : A :=
  match x with Some v => v | None => fallback end.

(** An integer inside a template literal. *)
Definition showZ (n : Z) : string := NilZero.string_of_int (Z.to_int n).

(** *** Recurrence arithmetic *)

(** [getNextDueDate]; [None] when the date is invalid and [toISOString]
    throws. *)
Definition getNextDueDate (currentDate frequency : string) : option string :=
  match JsDate.parse currentDate with
  | None => None
  | Some date =>
      let date' :=
        if String.eqb frequency "weekly"
        then JsDate.setDate date (JsDate.getDate date + 7)
        else if String.eqb frequency "biweekly"
        then JsDate.setDate date (JsDate.getDate date + 14)
        else if String.eqb frequency "monthly"
        then JsDate.setMonth date (JsDate.getMonth date + 1)
        else if String.eqb frequency "quarterly"
        then JsDate.setMonth date (JsDate.getMonth date + 3)
        else if String.eqb frequency "yearly"
        then JsDate.setFullYear date (JsDate.getFullYear date + 1)
        else Some date in
      option_map JsDate.toISODate date'
  end.

(** *** Writes to the [scheduled_payments] table *)

(** The argument of [.set({...})]: the columns to overwrite. *)
Record Patch := mkPatch {
  p_name : option string;
  p_description : option (option string);
  p_amount : option Q;
  p_dueDate : option string;
  p_status : option PaymentStatus;
  p_paidDate : option (option string);
  p_paidAmount : option (option Q);
  p_categoryId : option (option Id);
  p_accountId : option (option Id);
  p_priority : option Priority;
  p_tags : option (option string);
  p_notes : option (option string);
  p_reminderDays : option Z;
  p_updatedAt : option string
}.

Definition emptyPatch : Patch :=
  mkPatch None None None None None None None None None None None None None
    None.

Definition applyPatch (s : Patch) (p : ScheduledPayment) : ScheduledPayment :=
  mkScheduledPayment
    (sp_id p) (sp_userId p)
    (orElse (p_name s) (sp_name p))
    (orElse (p_description s) (sp_description p))
    (orElse (p_amount s) (sp_amount p))
    (sp_currency p)
    (orElse (p_dueDate s) (sp_dueDate p))
    (orElse (p_status s) (sp_status p))
    (orElse (p_categoryId s) (sp_categoryId p))
    (orElse (p_accountId s) (sp_accountId p))
    (sp_debtId p) (sp_loanId p) (sp_debtInstallmentId p)
    (sp_isRecurring p) (sp_recurringFrequency p)
    (orElse (p_priority s) (sp_priority p))
    (orElse (p_tags s) (sp_tags p))
    (orElse (p_notes s) (sp_notes p))
    (orElse (p_reminderDays s) (sp_reminderDays p))
    (orElse (p_paidDate s) (sp_paidDate p))
    (orElse (p_paidAmount s) (sp_paidAmount p))
    (sp_createdAt p)
    (orElse (p_updatedAt s) (sp_updatedAt p)).

Definition withScheduledPayments (db : Db) (rows : list ScheduledPayment)
  : Db :=
  mkDb (accounts db) (transactions db) (transfers db) (debts db) (loans db)
    (goals db) rows.

Definition withTransactions (db : Db) (rows : list Transaction) : Db :=
  mkDb (accounts db) rows (transfers db) (debts db) (loans db) (goals db)
    (scheduledPayments db).

(** [db.update(scheduledPayments).set(s).where(cond)]. *)
Definition updateWhere (db : Db) (cond : ScheduledPayment -> bool) (s : Patch)
  : Db :=
  withScheduledPayments db
    (map (fun p => if cond p then applyPatch s p else p)
         (scheduledPayments db)).

Definition insertPayments (db : Db) (rows : list ScheduledPayment) : Db :=
  withScheduledPayments db (scheduledPayments db ++ rows).

Definition insertTransaction (db : Db) (row : Transaction) : Db :=
  withTransactions db (transactions db ++ [row]).

(** [where(and(eq(id, id), eq(userId, userId))).limit(1)]. *)
Definition findOwned (db : Db) (userId id : Id) : option ScheduledPayment :=
  find (fun p => String.eqb (sp_id p) id && String.eqb (sp_userId p) userId)
       (scheduledPayments db).

(** *** The overdue sweep *)

(** The rows the sweep rewrites. *)
Definition isDue (userId today : string) (p : ScheduledPayment) : bool :=
  String.eqb (sp_userId p) userId
  && PaymentStatus_eqb (sp_status p) pending
  && String.leb (sp_dueDate p) today.

Definition statusPatch (status : PaymentStatus) (updatedAt : string) : Patch :=
  mkPatch None None None None (Some status) None None None None None None
    None None (Some updatedAt).

(** [markOverduePayments(db, userId)]; [now] and [updatedAt] are the two
    readings of the clock. *)
Definition markOverduePayments (db : Db) (userId : Id) (now updatedAt : string)
  : Db :=
  let today := isoDate now in
  updateWhere db (isDue userId today) (statusPatch overdue updatedAt).

(** The same update as issued by [GET /dashboard], which runs it unless the
    configuration hides the scheduled-payment widget. *)
Definition dashboardMarkOverdue (db : Db) (userId : Id)
    (config : Dashboard.Config) (now updatedAt : string) : Db :=
  match Dashboard.showScheduledPayments config with
  | Some false => db
  | _ =>
      let today := isoDate now in
      updateWhere db (isDue userId today) (statusPatch overdue updatedAt)
  end.

(** *** [PATCH /scheduled-payments/:id] *)

(** The route writes [categoryId] and [accountId] as given.  The lists do
    not check the foreign keys of the two columns: the statements about
    this route either hold whether or not the write is rejected, or ask
    for references that exist. *)
Definition update (db : Db) (userId id : Id) (body : Patch) (now : string)
  : Response (option ScheduledPayment) * Db :=
  match findOwned db userId id with
  | None => (Json404 "Pago programado no encontrado", db)
  | Some _ =>
      let db' :=
        updateWhere db
          (fun p => String.eqb (sp_id p) id && String.eqb (sp_userId p) userId)
          (mkPatch (p_name body) (p_description body) (p_amount body)
             (p_dueDate body) (p_status body) (p_paidDate body)
             (p_paidAmount body) (p_categoryId body) (p_accountId body)
             (p_priority body) (p_tags body) (p_notes body)
             (p_reminderDays body) (Some now)) in
      let updated :=
        find (fun p => String.eqb (sp_id p) id) (scheduledPayments db') in
      (Json200 updated, db')
  end.

(** *** [POST /scheduled-payments/:id/pay] *)

Record PayBody := mkPayBody {
  pb_paidDate : option string;
  pb_paidAmount : option Q;
  pb_createNextRecurrence : bool
}.

Record PayResult := mkPayResult {
  pr_payment : ScheduledPayment;
  pr_nextPayment : option ScheduledPayment;
  pr_transaction : option Id
}.

Definition paidPatch (paidDate : string) (paidAmount : Q) (now : string)
  : Patch :=
  mkPatch None None None None (Some paid) (Some (Some paidDate))
    (Some (Some paidAmount)) None None None None None None (Some now).

(** [nextId] and [txId] are the two identifiers [crypto.randomUUID()]
    hands out.  This is the request run with no other request between its
    statements; [InFlight.payStep] gives the statements one by one. *)
Definition pay (db : Db) (userId id : Id) (body : PayBody) (now : string)
    (nextId txId : Id) : Response PayResult * Db :=
  match findOwned db userId id with
  | None => (Json404 "Pago programado no encontrado", db)
  | Some payment =>
      if PaymentStatus_eqb (sp_status payment) paid
      then (Json400 "Este pago ya fue marcado como pagado", db)
      else if PaymentStatus_eqb (sp_status payment) cancelled
      then (Json400 "No se puede pagar un pago cancelado", db)
      else
        let paidDate := orString (pb_paidDate body) (isoDate now) in
        let paidAmount :=
          match pb_paidAmount body with
          | Some a => orNumber a (sp_amount payment)
          | None => sp_amount payment
          end in
        let db1 :=
          updateWhere db (fun p => String.eqb (sp_id p) id)
            (paidPatch paidDate paidAmount now) in
        let next : option (option ScheduledPayment) :=
          if sp_isRecurring payment
             && truthy (sp_recurringFrequency payment)
             && pb_createNextRecurrence body
          then
            match getNextDueDate (sp_dueDate payment)
                    (orElse (sp_recurringFrequency payment) EmptyString) with
            | None => None
            | Some nextDueDate =>
                Some (Some
                  (mkScheduledPayment nextId userId (sp_name payment)
                     (sp_description payment) (sp_amount payment)
                     (sp_currency payment) nextDueDate pending
                     (sp_categoryId payment) (sp_accountId payment)
                     (sp_debtId payment) (sp_loanId payment) None true
                     (sp_recurringFrequency payment) (sp_priority payment)
                     (sp_tags payment) (sp_notes payment)
                     (sp_reminderDays payment) None None now now))
            end
          else Some None in
        match next with
        | None => (Error500, db1)
        | Some nextPayment =>
            let db2 :=
              match nextPayment with
              | Some n => insertPayments db1 [n]
              | None => db1
              end in
            let paidView :=
              applyPatch
                (mkPatch None None None None (Some paid)
                   (Some (Some paidDate)) (Some (Some paidAmount)) None None
                   None None None None None)
                payment in
            if truthy (sp_accountId payment)
            then
              let tx :=
                mkTransaction txId userId (orElse (sp_accountId payment) EmptyString)
                  (sp_categoryId payment) expense paidAmount
                  (Some ("Pago: " ++ sp_name payment)%string) paidDate
                  None None None now now in
              (Json200 (mkPayResult paidView nextPayment (Some txId)),
               insertTransaction db2 tx)
            else (Json200 (mkPayResult paidView nextPayment None), db2)
        end
  end.

(** *** [POST /scheduled-payments/:id/cancel] *)
Definition cancel (db : Db) (userId id : Id) (now : string)
  : Response string * Db :=
  match findOwned db userId id with
  | None => (Json404 "Pago programado no encontrado", db)
  | Some payment =>
      if PaymentStatus_eqb (sp_status payment) paid
      then (Json400 "No se puede cancelar un pago ya realizado", db)
      else
        (Json200 "Pago cancelado exitosamente",
         updateWhere db (fun p => String.eqb (sp_id p) id)
           (statusPatch cancelled now))
  end.

(** *** [POST /scheduled-payments/from-debt/:debtId] *)

(** The due date of instalment [i]: [startDate] with its month advanced by
    [i]. *)
Definition installmentDueDate (startDate : option Z) (i : Z) : option string :=
  match startDate with
  | None => None
  | Some t =>
      option_map JsDate.toISODate (JsDate.setMonth t (JsDate.getMonth t + i))
  end.

Fixpoint sequence {A : Type} (l : list (option A)) : option (list A) :=
  match l with
  | [] => Some []
  | None :: _ => None
  | Some x :: r =>
      match sequence r with
      | Some xs => Some (x :: xs)
      | None => None
      end
  end.

(** [uuid i] is the identifier drawn in iteration [i] of the loop. *)
Definition fromDebt (db : Db) (userId debtId : Id) (now : string)
    (uuid : nat -> Id) : Response (list ScheduledPayment) * Db :=
  match find (fun d => String.eqb (debt_id d) debtId
                       && String.eqb (debt_userId d) userId)
             (debts db) with
  | None => (Json404 "Deuda no encontrada", db)
  | Some debt =>
      let totalInstallments :=
        match debt_totalInstallments debt with
        | Some n => if n =? 0 then 1 else n
        | None => 1
        end in
      let monthlyPayment :=
        (debt_principalAmount debt / inject_Z totalInstallments)%Q in
      let startDate :=
        JsDate.parse (orString (debt_dueDate debt) (debt_startDate debt)) in
      let paymentsToCreate :=
        sequence
          (map (fun k : nat =>
                  let i := Z.of_nat k in
                  option_map
                    (fun dueDate =>
                       mkScheduledPayment (uuid k) userId
                         (debt_creditor debt ++ " - Cuota " ++ showZ (i + 1)
                            ++ "/" ++ showZ totalInstallments)%string
                         (Some ("Pago de deuda: " ++ debt_creditor debt)%string)
                         monthlyPayment (debt_currency debt) dueDate pending
                         None None (Some (debt_id debt)) None None false None
                         high None None 3 None None now now)
                    (installmentDueDate startDate i))
               (seq 0 (Z.to_nat totalInstallments))) in
      match paymentsToCreate with
      | None => (Error500, db)
      | Some rows => (Json201 rows, insertPayments db rows)
      end
  end.

End ScheduledPayments.

(** ** Requests in flight

    A handler awaits the store once per statement, and the store runs one
    statement at a time: between two statements of one request the
    statements of another request may run.  A request in flight is the
    statement it issues next, together with the row its handler holds in
    [payment]. *)
Module InFlight.
Import ScheduledPayments.

(** *** [POST /scheduled-payments/:id/pay], statement by statement *)

(** The parameters of the request, the reading of the clock and the two
    identifiers drawn. *)
Record PayRequest := mkPayRequest {
  pq_userId : Id;
  pq_id : Id;
  pq_body : PayBody;
  pq_now : string;
  pq_nextId : Id;
  pq_txId : Id
}.

Inductive PayAt : Type :=
| PaySelect
| PayUpdate (payment : ScheduledPayment)
| PayInsertNext (payment next : ScheduledPayment)
| PayInsertEntry (payment : ScheduledPayment)
    (nextPayment : option ScheduledPayment)
| PayAnswered (r : Response PayResult).

Definition paidDate (rq : PayRequest) : string :=
  orString (pb_paidDate (pq_body rq)) (isoDate (pq_now rq)).

Definition paidAmount (rq : PayRequest) (payment : ScheduledPayment) : Q :=
  match pb_paidAmount (pq_body rq) with
  | Some a => orNumber a (sp_amount payment)
  | None => sp_amount payment
  end.

(** The response [{ payment: { ...payment, status, paidDate, paidAmount },
    nextPayment, transaction }]. *)
Definition payAnswer (rq : PayRequest) (payment : ScheduledPayment)
    (nextPayment : option ScheduledPayment) (transaction : option Id)
  : Response PayResult :=
  Json200
    (mkPayResult
       (applyPatch
          (mkPatch None None None None (Some paid)
             (Some (Some (paidDate rq)))
             (Some (Some (paidAmount rq payment))) None None None None None
             None None)
          payment)
       nextPayment transaction).

(** Past the recurrence: [if (payment.accountId)]. *)
Definition afterNext (rq : PayRequest) (payment : ScheduledPayment)
    (nextPayment : option ScheduledPayment) : PayAt :=
  if truthy (sp_accountId payment)
  then PayInsertEntry payment nextPayment
  else PayAnswered (payAnswer rq payment nextPayment None).

(** One statement of the handler, and the synchronous code up to the next
    one. *)
Definition payStep (rq : PayRequest) (pc : PayAt) (db : Db) : PayAt * Db :=
  match pc with
  | PaySelect =>
      match findOwned db (pq_userId rq) (pq_id rq) with
      | None => (PayAnswered (Json404 "Pago programado no encontrado"), db)
      | Some payment =>
          if PaymentStatus_eqb (sp_status payment) paid
          then (PayAnswered (Json400 "Este pago ya fue marcado como pagado"),
                db)
          else if PaymentStatus_eqb (sp_status payment) cancelled
          then (PayAnswered (Json400 "No se puede pagar un pago cancelado"),
                db)
          else (PayUpdate payment, db)
      end
  | PayUpdate payment =>
      let db1 :=
        updateWhere db (fun p => String.eqb (sp_id p) (pq_id rq))
          (paidPatch (paidDate rq) (paidAmount rq payment) (pq_now rq)) in
      if sp_isRecurring payment
         && truthy (sp_recurringFrequency payment)
         && pb_createNextRecurrence (pq_body rq)
      then
        match getNextDueDate (sp_dueDate payment)
                (orElse (sp_recurringFrequency payment) EmptyString) with
        | None => (PayAnswered Error500, db1)
        | Some nextDueDate =>
            (PayInsertNext payment
               (mkScheduledPayment (pq_nextId rq) (pq_userId rq)
                  (sp_name payment) (sp_description payment)
                  (sp_amount payment) (sp_currency payment) nextDueDate
                  pending (sp_categoryId payment) (sp_accountId payment)
                  (sp_debtId payment) (sp_loanId payment) None true
                  (sp_recurringFrequency payment) (sp_priority payment)
                  (sp_tags payment) (sp_notes payment)
                  (sp_reminderDays payment) None None (pq_now rq)
                  (pq_now rq)),
             db1)
        end
      else (afterNext rq payment None, db1)
  | PayInsertNext payment next =>
      (afterNext rq payment (Some next), insertPayments db [next])
  | PayInsertEntry payment nextPayment =>
      (PayAnswered (payAnswer rq payment nextPayment (Some (pq_txId rq))),
       insertTransaction db
         (mkTransaction (pq_txId rq) (pq_userId rq)
            (orElse (sp_accountId payment) EmptyString)
            (sp_categoryId payment) expense (paidAmount rq payment)
            (Some ("Pago: " ++ sp_name payment)%string) (paidDate rq)
            None None None (pq_now rq) (pq_now rq)))
  | PayAnswered r => (PayAnswered r, db)
  end.

(** *** [POST /scheduled-payments/:id/cancel], statement by statement *)

Record CancelRequest := mkCancelRequest {
  cq_userId : Id;
  cq_id : Id;
  cq_now : string
}.

Inductive CancelAt : Type :=
| CancelSelect
| CancelUpdate
| CancelAnswered (r : Response string).

Definition cancelStep (rq : CancelRequest) (pc : CancelAt) (db : Db)
  : CancelAt * Db :=
  match pc with
  | CancelSelect =>
      match findOwned db (cq_userId rq) (cq_id rq) with
      | None => (CancelAnswered (Json404 "Pago programado no encontrado"), db)
      | Some payment =>
          if PaymentStatus_eqb (sp_status payment) paid
          then (CancelAnswered
                  (Json400 "No se puede cancelar un pago ya realizado"), db)
          else (CancelUpdate, db)
      end
  | CancelUpdate =>
      (CancelAnswered (Json200 "Pago cancelado exitosamente"),
       updateWhere db (fun p => String.eqb (sp_id p) (cq_id rq))
         (statusPatch cancelled (cq_now rq)))
  | CancelAnswered r => (CancelAnswered r, db)
  end.

(** *** Schedules *)

(** A request run on its own for [n] statements. *)
Fixpoint run {St : Type} (step : St -> Db -> St * Db) (n : nat) (s : St)
    (db : Db)
  : St * Db :=
  match n with
  | O => (s, db)
  | S k => let (s', db') := step s db in run step k s' db'
  end.

(** Which of two requests in flight issues the next statement. *)
Inductive Turn : Type := First | Second.

Fixpoint interleave {S1 S2 : Type} (step1 : S1 -> Db -> S1 * Db)
    (step2 : S2 -> Db -> S2 * Db) (schedule : list Turn) (s1 : S1) (s2 : S2)
    (db : Db) : S1 * S2 * Db :=
  match schedule with
  | [] => (s1, s2, db)
  | First :: rest =>
      let (s1', db') := step1 s1 db in
      interleave step1 step2 rest s1' s2 db'
  | Second :: rest =>
      let (s2', db') := step2 s2 db in
      interleave step1 step2 rest s1 s2' db'
  end.

(** The settlement as a whole, run on its own. *)
Definition payAlone (rq : PayRequest) (db : Db) : Response PayResult * Db :=
  pay db (pq_userId rq) (pq_id rq) (pq_body rq) (pq_now rq) (pq_nextId rq)
    (pq_txId rq).

(** Two settlements in flight. *)
Definition payTwice (schedule : list Turn) (rq1 rq2 : PayRequest) (db : Db)
  : PayAt * PayAt * Db :=
  interleave (payStep rq1) (payStep rq2) schedule PaySelect PaySelect db.

(** A settlement in flight next to a cancellation in flight. *)
Definition payAndCancel (schedule : list Turn) (rq : PayRequest)
    (cq : CancelRequest) (db : Db) : PayAt * CancelAt * Db :=
  interleave (payStep rq) (cancelStep cq) schedule PaySelect CancelSelect db.

End InFlight.

(** ** Validators ([lib/validators.ts]) *)
Module Validators.

Definition isDigit (c : ascii) : bool :=
  let n := nat_of_ascii c in (48 <=? n)%nat && (n <=? 57)%nat.

(** [/^\d{4}-\d{2}-\d{2}$/], the shape of every date the schemas accept. *)
Definition dateRegex (s : string) : bool :=
  match s with
  | String y1 (String y2 (String y3 (String y4 (String s1
      (String m1 (String m2 (String s2 (String d1 (String d2 EmptyString)))))))))
    => isDigit y1 && isDigit y2 && isDigit y3 && isDigit y4
       && Ascii.eqb s1 "-"%char
       && isDigit m1 && isDigit m2
       && Ascii.eqb s2 "-"%char
       && isDigit d1 && isDigit d2
  | _ => false
  end.

End Validators.

(** ** Periods and trends of the dashboard ([routes/dashboard.ts]) *)
Module Periods.

(** [d.setHours(0, 0, 0, 0)]. *)
Definition setHours0 (t : Z) : option Z :=
  JsDate.TimeClip (JsDate.MakeDate (JsDate.Day t) 0).

(** [new Date(year, month, date)]: a year in 0..99 counts from 1900. *)
Definition MakeFullYear (y : Z) : Z :=
  if (0 <=? y) && (y <=? 99) then 1900 + y else y.

Definition newDate (year month date : Z) : option Z :=
  JsDate.TimeClip
    (JsDate.MakeDate (JsDate.MakeDay (MakeFullYear year) month date) 0).

Record DateRange := mkDateRange {
  range_start : string;
  range_end : string
}.

(** [getDateRange(period)]; [now] is the time value of [new Date()].  The
    result is [None] when the start is not a date and [toISOString]
    throws. *)
Definition getDateRange (period : string) (now : Z) : option DateRange :=
  let rangeEnd := JsDate.toISODate now in
  let firstOfMonth :=
    newDate (JsDate.getFullYear now) (JsDate.getMonth now) 1 in
  let start :=
    if String.eqb period "today" then setHours0 now
    else if String.eqb period "week"
    then JsDate.setDate now (JsDate.getDate now - 7)
    else if String.eqb period "month" then firstOfMonth
    else if String.eqb period "quarter"
    then JsDate.setMonth now (JsDate.getMonth now - 3)
    else if String.eqb period "year"
    then newDate (JsDate.getFullYear now) 0 1
    else firstOfMonth in
  option_map (fun t => mkDateRange (JsDate.toISODate t) rangeEnd) start.

(** [new Date(ms)]. *)
Definition dateOfTime (ms : Z) : option Z := JsDate.TimeClip ms.

(** The range before [currentRange], as [GET /dashboard/trends] computes
    it. *)
Definition previousRange (currentRange : DateRange) : option DateRange :=
  match JsDate.parse (range_start currentRange),
        JsDate.parse (range_end currentRange) with
  | Some currentStart, Some currentEnd =>
      let periodLength := currentEnd - currentStart in
      match dateOfTime (currentStart - periodLength),
            dateOfTime (currentStart - 1) with
      | Some previousStart, Some previousEnd =>
          Some (mkDateRange (JsDate.toISODate previousStart)
                            (JsDate.toISODate previousEnd))
      | _, _ => None
      end
  | _, _ => None
  end.

(** [expensesChange] and [incomeChange]: the whole percentage by which the
    total moved against the previous period, 0 when there is nothing to
    compare with. *)
Definition change (current previous : Q) : Z :=
  if negb (Qeq_bool previous 0) && negb (Qle_bool previous 0)
  then MathRound ((orNumber current 0 - previous) / previous * 100)
  else 0.

Inductive Trend := up | down | stable.

Definition trend (change : Z) : Trend :=
  if change >? 0 then up else if change <? 0 then down else stable.

(** [COALESCE(SUM(amount), 0)] of the owner's transactions of one type
    dated within a range. *)
Definition rangeTotal (db : Db) (userId : Id) (type : TxType) (r : DateRange)
  : Q :=
  sumOf tx_amount
    (filter (fun t => String.eqb (tx_userId t) userId
                      && TxType_eqb (tx_type t) type
                      && String.leb (range_start r) (tx_date t)
                      && String.leb (tx_date t) (range_end r))
            (transactions db)).

Record TrendLine := mkTrendLine {
  tl_current : Q;
  tl_previous : Q;
  tl_change : Z;
  tl_trend : Trend
}.

Record Trends := mkTrends {
  tn_expenses : TrendLine;
  tn_income : TrendLine;
  tn_savingsCurrent : Q;
  tn_savingsPrevious : Q;
  tn_currentRange : DateRange;
  tn_previousRange : DateRange
}.

(** [GET /dashboard/trends]; [period] is the query parameter, or [month]
    when there is none, and [now] the time value of [new Date()].  The
    answer is [None] when one of the four dates is not a date. *)
Definition trends (db : Db) (userId : Id) (period : string) (now : Z)
  : option Trends :=
  match getDateRange period now with
  | None => None
  | Some currentRange =>
      match previousRange currentRange with
      | None => None
      | Some previous =>
          let currentExpenses := rangeTotal db userId expense currentRange in
          let previousExpenses := rangeTotal db userId expense previous in
          let currentIncome := rangeTotal db userId income currentRange in
          let previousIncome := rangeTotal db userId income previous in
          let expensesChange := change currentExpenses previousExpenses in
          let incomeChange := change currentIncome previousIncome in
          Some (mkTrends
                  (mkTrendLine (orNumber currentExpenses 0)
                     (orNumber previousExpenses 0) expensesChange
                     (trend expensesChange))
                  (mkTrendLine (orNumber currentIncome 0)
                     (orNumber previousIncome 0) incomeChange
                     (trend incomeChange))
                  (orNumber currentIncome 0 - orNumber currentExpenses 0)%Q
                  (orNumber previousIncome 0 - orNumber previousExpenses 0)%Q
                  currentRange previous)
      end
  end.

End Periods.

(** ** Reading, creating and deleting scheduled payments
    ([routes/scheduled-payments.ts])

    The joined [category] and [account] objects of the answers are left
    out. *)
Module PaymentRoutes.

Definition Priority_eqb (a b : Priority) : bool :=
  match a, b with
  | low, low | medium, medium | high, high | urgent, urgent => true
  | _, _ => false
  end.

(** The query of [GET /scheduled-payments] after
    [scheduledPaymentFiltersSchema]. *)
Record Filters := mkFilters {
  f_status : option PaymentStatus;
  f_priority : option Priority;
  f_startDate : option string;
  f_endDate : option string;
  f_includeOverdue : bool
}.

Definition isSome {A : Type} (x : option A) : bool :=
  match x with Some _ => true | None => false end.

(** The [conditions] of the listing; [filters] is [None] when the query did
    not pass the schema, and then only the owner is filtered on. *)
Definition listCondition (userId : Id) (filters : option Filters)
    (p : ScheduledPayment) : bool :=
  String.eqb (sp_userId p) userId
  && match filters with
     | None => true
     | Some f =>
         match f_status f with
         | Some s => PaymentStatus_eqb (sp_status p) s
         | None => true
         end
         && match f_priority f with
            | Some pr => Priority_eqb (sp_priority p) pr
            | None => true
            end
         && (if ScheduledPayments.truthy (f_startDate f)
             then String.leb (ScheduledPayments.orElse (f_startDate f) EmptyString)
                             (sp_dueDate p)
             else true)
         && (if ScheduledPayments.truthy (f_endDate f)
             then String.leb (sp_dueDate p)
                             (ScheduledPayments.orElse (f_endDate f) EmptyString)
             else true)
         && (if negb (f_includeOverdue f) && negb (isSome (f_status f))
             then PaymentStatus_eqb (sp_status p) pending
                  || PaymentStatus_eqb (sp_status p) paid
             else true)
     end.

(** [GET /scheduled-payments]: the sweep, then the selection. *)
Definition listPayments (db : Db) (userId : Id) (filters : option Filters)
    (now updatedAt : string) : list ScheduledPayment * Db :=
  let db' := ScheduledPayments.markOverduePayments db userId now updatedAt in
  (filter (listCondition userId filters) (scheduledPayments db'), db').

Record Upcoming := mkUpcoming {
  up_payment : ScheduledPayment;
  up_isOverdue : bool;
  up_daysUntilDue : option Z
}.

Record ByPriority := mkByPriority {
  bp_urgent : nat;
  bp_high : nat;
  bp_medium : nat;
  bp_low : nat
}.

Record Summary := mkSummary {
  sm_total : nat;
  sm_totalAmount : Q;
  sm_overdue : nat;
  sm_overdueAmount : Q;
  sm_dueToday : nat;
  sm_byPriority : ByPriority
}.

(** [Math.ceil(ms / (1000 * 60 * 60 * 24))] on whole milliseconds. *)
Definition ceilDays (ms : Z) : Z := - ((- ms) / JsDate.msPerDay).

Definition countIf {A : Type} (f : A -> bool) (l : list A) : nat :=
  List.length (filter f l).

(** [GET /scheduled-payments/upcoming?days=n]; [today] is the time value of
    the route's [new Date()], [now] and [updatedAt] are the clock readings
    of the sweep.  The answer is [None] when the end date is not a date. *)
Definition upcoming (db : Db) (userId : Id) (days : Z) (today : Z)
    (now updatedAt : string) : option (list Upcoming * Summary) * Db :=
  let db' := ScheduledPayments.markOverduePayments db userId now updatedAt in
  match JsDate.setDate today (JsDate.getDate today + days) with
  | None => (None, db')
  | Some endDate =>
      let payments :=
        filter (fun p => String.eqb (sp_userId p) userId
                         && (PaymentStatus_eqb (sp_status p) pending
                             || PaymentStatus_eqb (sp_status p) overdue)
                         && String.leb (sp_dueDate p) (JsDate.toISODate endDate))
               (scheduledPayments db') in
      let result :=
        map (fun p =>
               mkUpcoming p (PaymentStatus_eqb (sp_status p) overdue)
                 (option_map (fun due => ceilDays (due - today))
                    (JsDate.parse (sp_dueDate p))))
            payments in
      let isPriority pr (r : Upcoming) :=
        Priority_eqb (sp_priority (up_payment r)) pr in
      let summary :=
        mkSummary
          (List.length result)
          (reduceSum (fun r => sp_amount (up_payment r)) result)
          (countIf up_isOverdue result)
          (reduceSum (fun r => sp_amount (up_payment r))
             (filter up_isOverdue result))
          (countIf (fun r => match up_daysUntilDue r with
                             | Some 0%Z => true
                             | _ => false
                             end) result)
          (mkByPriority (countIf (isPriority urgent) result)
             (countIf (isPriority high) result)
             (countIf (isPriority medium) result)
             (countIf (isPriority low) result)) in
      (Some (result, summary), db')
  end.

(** The body of [POST /scheduled-payments] after
    [createScheduledPaymentSchema]. *)
Record CreateBody := mkCreateBody {
  cb_name : string;
  cb_description : option string;
  cb_amount : Q;
  cb_currency : string;
  cb_dueDate : string;
  cb_categoryId : option Id;
  cb_accountId : option Id;
  cb_debtId : option Id;
  cb_loanId : option Id;
  cb_debtInstallmentId : option Id;
  cb_isRecurring : bool;
  cb_recurringFrequency : option string;
  cb_priority : Priority;
  cb_tags : option string;
  cb_notes : option string;
  cb_reminderDays : Z
}.

(** [x || null]. *)
Definition orNull (x : option Id) : option Id :=
  if ScheduledPayments.truthy x then x else None.

(** A row of the [categories] table, which the store of the embedding does
    not hold: its id and its owner. *)
Definition CategoryRow : Type := (Id * Id)%type.

Definition ownsCategory (categories : list CategoryRow) (userId id : Id)
  : bool :=
  existsb (fun c => String.eqb (fst c) id && String.eqb (snd c) userId)
          categories.

Definition ownsAccount (db : Db) (userId id : Id) : bool :=
  existsb (fun a => String.eqb (acc_id a) id && String.eqb (acc_userId a) userId)
          (accounts db).

Definition ownsDebt (db : Db) (userId id : Id) : bool :=
  existsb (fun d => String.eqb (debt_id d) id && String.eqb (debt_userId d) userId)
          (debts db).

Definition ownsLoan (db : Db) (userId id : Id) : bool :=
  existsb (fun l => String.eqb (loan_id l) id && String.eqb (loan_userId l) userId)
          (loans db).

(** A reference is checked only when it is given. *)
Definition referenceOk (given : option Id) (owns : Id -> bool) : bool :=
  if ScheduledPayments.truthy given
  then owns (ScheduledPayments.orElse given EmptyString)
  else true.

(** [POST /scheduled-payments]; [newId] is the identifier
    [crypto.randomUUID()] hands out. *)
Definition create (db : Db) (categories : list CategoryRow) (userId : Id)
    (body : CreateBody) (now : string) (newId : Id)
  : Response ScheduledPayment * Db :=
  if negb (referenceOk (cb_categoryId body) (ownsCategory categories userId))
  then (Json404 "Categoría no encontrada", db)
  else if negb (referenceOk (cb_accountId body) (ownsAccount db userId))
  then (Json404 "Cuenta no encontrada", db)
  else if negb (referenceOk (cb_debtId body) (ownsDebt db userId))
  then (Json404 "Deuda no encontrada", db)
  else if negb (referenceOk (cb_loanId body) (ownsLoan db userId))
  then (Json404 "Préstamo no encontrado", db)
  else
    let newPayment :=
      mkScheduledPayment newId userId (cb_name body) (cb_description body)
        (cb_amount body) (cb_currency body) (cb_dueDate body) pending
        (orNull (cb_categoryId body)) (orNull (cb_accountId body))
        (orNull (cb_debtId body)) (orNull (cb_loanId body))
        (orNull (cb_debtInstallmentId body)) (cb_isRecurring body)
        (cb_recurringFrequency body) (cb_priority body) (cb_tags body)
        (cb_notes body) (cb_reminderDays body) None None now now in
    (Json201 newPayment, ScheduledPayments.insertPayments db [newPayment]).

(** [GET /scheduled-payments/:id]. *)
Definition get (db : Db) (userId id : Id) : Response ScheduledPayment :=
  match ScheduledPayments.findOwned db userId id with
  | None => Json404 "Pago programado no encontrado"
  | Some payment => Json200 payment
  end.

(** [DELETE /scheduled-payments/:id]. *)
Definition remove (db : Db) (userId id : Id) : Response string * Db :=
  match ScheduledPayments.findOwned db userId id with
  | None => (Json404 "Pago programado no encontrado", db)
  | Some _ =>
      (Json200 "Pago programado eliminado",
       ScheduledPayments.withScheduledPayments db
         (filter (fun p => negb (String.eqb (sp_id p) id
                                 && String.eqb (sp_userId p) userId))
                 (scheduledPayments db)))
  end.

End PaymentRoutes.

(** ** Transfers ([routes/transfers.ts]); the [description] of a transfer is
    not a column of the embedding. *)
Module Transfers.

(** The body of [POST /transfers] after [createTransferSchema], which gives
    [fee] its default of 0 and refuses equal accounts. *)
Record Body := mkBody {
  b_fromAccountId : Id;
  b_toAccountId : Id;
  b_amount : Q;
  b_fee : Q;
  b_date : string
}.

Definition withTransfers (db : Db) (rows : list Transfer) : Db :=
  mkDb (accounts db) (transactions db) rows (debts db) (loans db) (goals db)
    (scheduledPayments db).

Definition findOwned (db : Db) (userId id : Id) : option Transfer :=
  find (fun t => String.eqb (tr_id t) id && String.eqb (tr_userId t) userId)
       (transfers db).

(** [POST /transfers]; [transferId] is the value of [generateId()]. *)
Definition create (db : Db) (userId : Id) (body : Body) (transferId : Id)
  : Response (option Transfer) * Db :=
  if negb (PaymentRoutes.ownsAccount db userId (b_fromAccountId body))
  then (Json404 "Cuenta de origen no encontrada", db)
  else if negb (PaymentRoutes.ownsAccount db userId (b_toAccountId body))
  then (Json404 "Cuenta de destino no encontrada", db)
  else
    let db' :=
      withTransfers db
        (transfers db
         ++ [mkTransfer transferId userId (b_fromAccountId body)
               (b_toAccountId body) (b_amount body) (Some (b_fee body))
               (b_date body)]) in
    (Json201 (find (fun t => String.eqb (tr_id t) transferId) (transfers db')),
     db').

(** [GET /transfers/:id]. *)
Definition get (db : Db) (userId id : Id) : Response Transfer :=
  match findOwned db userId id with
  | None => Json404 "Transferencia no encontrada"
  | Some transfer => Json200 transfer
  end.

(** [DELETE /transfers/:id]. *)
Definition remove (db : Db) (userId id : Id) : Response string * Db :=
  match findOwned db userId id with
  | None => (Json404 "Transferencia no encontrada", db)
  | Some _ =>
      (Json200 "Transferencia eliminada exitosamente",
       withTransfers db
         (filter (fun t => negb (String.eqb (tr_id t) id
                                 && String.eqb (tr_userId t) userId))
                 (transfers db)))
  end.

End Transfers.

(** ** Transactions ([routes/transactions.ts]); [notes] is not a column of
    the embedding. *)
Module Transactions.

(** The body of [POST /transactions] after [createTransactionSchema]. *)
Record Body := mkBody {
  b_accountId : Id;
  b_categoryId : option Id;
  b_type : TxType;
  b_amount : Q;
  b_description : option string;
  b_date : string;
  b_debtId : option Id;
  b_loanId : option Id;
  b_goalId : option Id
}.

Definition findOwned (db : Db) (userId id : Id) : option Transaction :=
  find (fun t => String.eqb (tx_id t) id && String.eqb (tx_userId t) userId)
       (transactions db).

(** [POST /transactions]; [transactionId] is the value of [generateId()]
    and [sqlNow] the [datetime('now')] the table defaults [createdAt] and
    [updatedAt] to. *)
Definition create (db : Db) (categories : list PaymentRoutes.CategoryRow)
    (userId : Id) (body : Body) (transactionId : Id) (sqlNow : string)
  : Response (option Transaction) * Db :=
  if negb (PaymentRoutes.ownsAccount db userId (b_accountId body))
  then (Json404 "Cuenta no encontrada", db)
  else if negb (PaymentRoutes.referenceOk (b_categoryId body)
                  (PaymentRoutes.ownsCategory categories userId))
  then (Json404 "Categoría no encontrada", db)
  else
    let db' :=
      ScheduledPayments.insertTransaction db
        (mkTransaction transactionId userId (b_accountId body)
           (PaymentRoutes.orNull (b_categoryId body)) (b_type body)
           (b_amount body) (b_description body) (b_date body)
           (b_debtId body) (b_loanId body) (b_goalId body) sqlNow sqlNow) in
    (Json201 (find (fun t => String.eqb (tx_id t) transactionId)
                   (transactions db')),
     db').

(** [GET /transactions/:id]. *)
Definition get (db : Db) (userId id : Id) : Response Transaction :=
  match findOwned db userId id with
  | None => Json404 "Transacción no encontrada"
  | Some transaction => Json200 transaction
  end.

(** [DELETE /transactions/:id]. *)
Definition remove (db : Db) (userId id : Id) : Response string * Db :=
  match findOwned db userId id with
  | None => (Json404 "Transacción no encontrada", db)
  | Some _ =>
      (Json200 "Transacción eliminada exitosamente",
       ScheduledPayments.withTransactions db
         (filter (fun t => negb (String.eqb (tx_id t) id
                                 && String.eqb (tx_userId t) userId))
                 (transactions db)))
  end.

(** The query of [GET /transactions] after [transactionFiltersSchema]. *)
Record Filters := mkFilters {
  f_accountId : option Id;
  f_categoryId : option Id;
  f_type : option TxType;
  f_startDate : option string;
  f_endDate : option string;
  f_page : Z;
  f_limit : Z
}.

Definition conditions (userId : Id) (f : Filters) (t : Transaction) : bool :=
  String.eqb (tx_userId t) userId
  && (if ScheduledPayments.truthy (f_accountId f)
      then String.eqb (tx_accountId t)
             (ScheduledPayments.orElse (f_accountId f) EmptyString)
      else true)
  && (if ScheduledPayments.truthy (f_categoryId f)
      then eqNullable (tx_categoryId t)
             (ScheduledPayments.orElse (f_categoryId f) EmptyString)
      else true)
  && match f_type f with
     | Some ty => TxType_eqb (tx_type t) ty
     | None => true
     end
  && (if ScheduledPayments.truthy (f_startDate f)
      then String.leb (ScheduledPayments.orElse (f_startDate f) EmptyString)
                      (tx_date t)
      else true)
  && (if ScheduledPayments.truthy (f_endDate f)
      then String.leb (tx_date t)
                      (ScheduledPayments.orElse (f_endDate f) EmptyString)
      else true).

Record Pagination := mkPagination {
  pg_page : Z;
  pg_limit : Z;
  pg_totalCount : Z;
  pg_totalPages : Z;
  pg_hasMore : bool
}.

Record ListSummary := mkListSummary {
  ls_totalIncome : Q;
  ls_totalExpense : Q;
  ls_netBalance : Q
}.

(** [Math.ceil(totalCount / limit)] on integers, [limit] not 0. *)
Definition ceilDiv (n d : Z) : Z := - ((- n) / d).

(** The [pagination] and [summary] of [GET /transactions]; the page of rows
    itself, which depends on the order of the listing, is left out. *)
Definition listMeta (db : Db) (userId : Id) (f : Filters)
  : Pagination * ListSummary :=
  let totalCount :=
    Z.of_nat (List.length (filter (conditions userId f) (transactions db))) in
  let totalPages := ceilDiv totalCount (f_limit f) in
  let incomeTotal :=
    orNumber
      (sumOf tx_amount
         (filter (fun t => conditions userId f t && TxType_eqb (tx_type t) income)
                 (transactions db))) 0 in
  let expenseTotal :=
    orNumber
      (sumOf tx_amount
         (filter (fun t => conditions userId f t && TxType_eqb (tx_type t) expense)
                 (transactions db))) 0 in
  (mkPagination (f_page f) (f_limit f) totalCount totalPages
     (f_page f <? totalPages),
   mkListSummary incomeTotal expenseTotal (incomeTotal - expenseTotal)%Q).

End Transactions.

(** ** Creating a debt with its instalment plan ([routes/debts.ts]); the
    [debt_installments] table is a list of its own. *)
Module DebtPlan.

Inductive InstallmentStatus := inst_pending | inst_paid.

Record DebtInstallment := mkDebtInstallment {
  inst_id : Id;
  inst_debtId : Id;
  inst_userId : Id;
  inst_installmentNumber : Z;
  inst_amount : Q;
  inst_dueDate : string;
  inst_paidDate : option string;
  inst_status : InstallmentStatus
}.

(** The body of [POST /debts] after [createDebtSchema]; [description],
    [interestRate] and [notes] are not columns of the embedding. *)
Record Body := mkBody {
  b_creditor : string;
  b_principalAmount : Q;
  b_currency : string;
  b_totalInstallments : option Z;
  b_startDate : string;
  b_dueDate : option string
}.

Definition withDebts (db : Db) (rows : list Debt) : Db :=
  mkDb (accounts db) (transactions db) (transfers db) rows (loans db)
    (goals db) (scheduledPayments db).

(** The instalments of the plan: instalment [i] (from 0) is due [i + 1]
    months after the start date. *)
Definition plan (userId debtId : Id) (body : Body) (uuid : nat -> Id)
    (n : Z) : option (list DebtInstallment) :=
  let installmentAmount := (b_principalAmount body / inject_Z n)%Q in
  let startDate := JsDate.parse (b_startDate body) in
  ScheduledPayments.sequence
    (map (fun k : nat =>
            let i := Z.of_nat k in
            option_map
              (fun dueDate =>
                 mkDebtInstallment (uuid k) debtId userId (i + 1)
                   installmentAmount dueDate None inst_pending)
              (ScheduledPayments.installmentDueDate startDate (i + 1)))
         (seq 0 (Z.to_nat n))).

(** [POST /debts]; [debtId] and [uuid] are the values of [generateId()].
    The debt is stored before the plan is computed: when the start date is
    not a date the route fails with the debt stored and no instalment. *)
Definition create (db : Db) (installments : list DebtInstallment)
    (userId : Id) (body : Body) (debtId : Id) (uuid : nat -> Id)
  : Response (option Debt * list DebtInstallment)
    * (Db * list DebtInstallment) :=
  let db1 :=
    withDebts db
      (debts db
       ++ [mkDebt debtId userId (b_creditor body) (b_principalAmount body)
             (b_currency body) (b_totalInstallments body) (b_startDate body)
             (b_dueDate body) debt_active]) in
  let planned : option (list DebtInstallment) :=
    match b_totalInstallments body with
    | Some n =>
        if negb (n =? 0) && (n >? 0) then plan userId debtId body uuid n
        else Some []
    | None => Some []
    end in
  match planned with
  | None => (Error500, (db1, installments))
  | Some rows =>
      let installments' := installments ++ rows in
      (Json201
         (find (fun d => String.eqb (debt_id d) debtId) (debts db1),
          filter (fun i => String.eqb (inst_debtId i) debtId) installments'),
       (db1, installments'))
  end.

End DebtPlan.

(** ** Retiring accounts and goals ([routes/accounts.ts], [routes/goals.ts]);
    the [updatedAt] and [completedAt] stamps are not columns of the
    embedding. *)
Module Retire.

Definition withAccounts (db : Db) (rows : list Account) : Db :=
  mkDb rows (transactions db) (transfers db) (debts db) (loans db) (goals db)
    (scheduledPayments db).

Definition withGoals (db : Db) (rows : list Goal) : Db :=
  mkDb (accounts db) (transactions db) (transfers db) (debts db) (loans db)
    rows (scheduledPayments db).

(** [DELETE /accounts/:id]: a soft delete. *)
Definition deleteAccount (db : Db) (userId accountId : Id)
  : Response string * Db :=
  let owned a :=
    String.eqb (acc_id a) accountId && String.eqb (acc_userId a) userId in
  match find owned (accounts db) with
  | None => (Json404 "Cuenta no encontrada", db)
  | Some _ =>
      (Json200 "Cuenta eliminada exitosamente",
       withAccounts db
         (map (fun a =>
                 if owned a
                 then mkAccount (acc_id a) (acc_userId a) (acc_name a)
                        (acc_currency a) (acc_initialBalance a) false
                        (acc_includeInTotal a)
                 else a)
              (accounts db)))
  end.

(** [POST /goals/:id/complete]. *)
Definition completeGoal (db : Db) (userId goalId : Id)
  : Response string * Db :=
  let owned g :=
    String.eqb (goal_id g) goalId && String.eqb (goal_userId g) userId in
  match find owned (goals db) with
  | None => (Json404 "Meta no encontrada", db)
  | Some _ =>
      (Json200 "¡Felicidades! Meta completada exitosamente",
       withGoals db
         (map (fun g =>
                 if owned g
                 then mkGoal (goal_id g) (goal_userId g) (goal_name g)
                        (goal_targetAmount g) (goal_targetDate g)
                        (goal_isActive g) true
                 else g)
              (goals db)))
  end.

(** [DELETE /goals/:id]: a hard delete that does not touch the ledger.  The
    lists do not check the foreign key of [transactions.goal_id]: the
    statements about this route either hold whether or not the delete is
    rejected, or ask for a goal that no ledger entry refers to. *)
Definition deleteGoal (db : Db) (userId goalId : Id) : Response string * Db :=
  let owned g :=
    String.eqb (goal_id g) goalId && String.eqb (goal_userId g) userId in
  match find owned (goals db) with
  | None => (Json404 "Meta no encontrada", db)
  | Some _ =>
      (Json200 "Meta eliminada exitosamente",
       withGoals db (filter (fun g => negb (owned g)) (goals db)))
  end.

End Retire.

(** ** Sample stores used by the worked scenarios *)
Module Examples.

Definition accountA : Account := mkAccount "A" "u1" "Cash" "PEN" 1000 true true.
Definition accountB : Account := mkAccount "B" "u1" "Bank" "PEN" 0 true true.

(** The transfer scenario: 200 from A to B with a fee of 5. *)
Definition transfer1 : Transfer :=
  mkTransfer "t1" "u1" "A" "B" 200 (Some 5%Q) "2025-01-10".

Definition transferDb : Db :=
  mkDb [accountA; accountB] [] [transfer1] [] [] [] [].

(** An active account kept out of the total. *)
Definition accountC : Account :=
  mkAccount "C" "u1" "Wallet" "PEN" 100 true false.

Definition excludedDb : Db := mkDb [accountC] [] [] [] [] [] [].

(** A settled payment, and the request that sets its status back. *)
Definition rentPaid : ScheduledPayment :=
  mkScheduledPayment "sp1" "u1" "Rent" None 500 "PEN" "2025-01-05" paid
    None None None None None false None medium None None 3
    (Some "2025-01-04") (Some 500%Q)
    "2025-01-01T09:00:00.000Z" "2025-01-04T09:00:00.000Z".

Definition paidDb : Db := mkDb [] [] [] [] [] [] [rentPaid].

Definition reopen : ScheduledPayments.Patch :=
  ScheduledPayments.mkPatch None None None None (Some pending) None None
    None None None None None None None.

(** A pending monthly payment that is not linked to an account. *)
Definition gymPending : ScheduledPayment :=
  mkScheduledPayment "sp2" "u1" "Gym" None 80 "PEN" "2025-02-01" pending
    None None None None None true (Some "monthly") medium None None 3
    None None "2025-01-01T09:00:00.000Z" "2025-01-01T09:00:00.000Z".

Definition pendingDb : Db := mkDb [] [] [] [] [] [] [gymPending].

Definition payNow : ScheduledPayments.PayBody :=
  ScheduledPayments.mkPayBody None None true.

(** A pending monthly payment drawn from account A, next to the settled
    one. *)
Definition billPending : ScheduledPayment :=
  mkScheduledPayment "sp3" "u1" "Power" None 120 "PEN" "2025-02-10" pending
    None (Some "A") None None None true (Some "monthly") high None None 3
    None None "2025-01-01T09:00:00.000Z" "2025-01-01T09:00:00.000Z".

Definition billsDb : Db :=
  mkDb [accountA] [] [] [] [] [] [rentPaid; billPending].

(** The instalment scenario: 1200 in 12 instalments from 2025-01-01. *)
Definition carLoan : Debt :=
  mkDebt "d1" "u1" "Banco" 1200 "PEN" (Some 12%Z) "2025-01-01" None
    debt_active.

Definition debtDb : Db := mkDb [] [] [] [carLoan] [] [] [].

Definition uuids (k : nat) : Id :=
  ("sp-" ++ ScheduledPayments.showZ (Z.of_nat k))%string.

(** A goal of 1000 with contributions of 996, and one of 100 with 250. *)
Definition goalNear : Goal := mkGoal "g1" "u1" "Trip" 1000 None true false.
Definition goalOver : Goal := mkGoal "g2" "u1" "Bike" 100 None true false.

Definition contribution (id goalId : Id) (amount : Q) : Transaction :=
  mkTransaction id "u1" "A" None goal_contribution amount None "2025-03-01"
    None None (Some goalId) "2025-03-01T09:00:00.000Z"
    "2025-03-01T09:00:00.000Z".

(** Two stores that hold the same rows of owner [u1] and different rows of
    owner [u2]. *)
Definition foreignAccount : Account :=
  mkAccount "Z" "u2" "Other" "PEN" 50 true true.

Definition foreignIncome : Transaction :=
  mkTransaction "x9" "u2" "A" None income 999 None "2025-03-02" None None
    (Some "g1") "2025-03-02T09:00:00.000Z" "2025-03-02T09:00:00.000Z".

Definition sharedDb : Db :=
  mkDb [accountA; accountB; foreignAccount] [foreignIncome] [transfer1]
    [] [] [] [].

Definition goalDb : Db :=
  mkDb [accountA] [contribution "c1" "g1" 996; contribution "c2" "g2" 250]
    [] [] [] [goalNear; goalOver] [].

(** The owner of account A owes the car loan. *)
Definition owingDb : Db := mkDb [accountA] [] [] [carLoan] [] [] [].

End Examples.

(** ** Vocabulary of the statements *)

(** [p'] is [p] up to its status and its modification stamp. *)
Definition sameButStatus (p p' : ScheduledPayment) : Prop :=
  sp_id p' = sp_id p /\ sp_userId p' = sp_userId p /\ sp_name p' = sp_name p
  /\ sp_description p' = sp_description p /\ sp_amount p' = sp_amount p
  /\ sp_currency p' = sp_currency p /\ sp_dueDate p' = sp_dueDate p
  /\ sp_categoryId p' = sp_categoryId p /\ sp_accountId p' = sp_accountId p
  /\ sp_debtId p' = sp_debtId p /\ sp_loanId p' = sp_loanId p
  /\ sp_debtInstallmentId p' = sp_debtInstallmentId p
  /\ sp_isRecurring p' = sp_isRecurring p
  /\ sp_recurringFrequency p' = sp_recurringFrequency p
  /\ sp_priority p' = sp_priority p /\ sp_tags p' = sp_tags p
  /\ sp_notes p' = sp_notes p /\ sp_reminderDays p' = sp_reminderDays p
  /\ sp_paidDate p' = sp_paidDate p /\ sp_paidAmount p' = sp_paidAmount p
  /\ sp_createdAt p' = sp_createdAt p.

(** The progress of a projection is a percentage between 0 and 100 that is
    100 exactly when the accumulated amount has reached the target. *)
Definition clamped {A : Type} (target : Q) (v : Projection A) : Prop :=
  (0 <= progress v /\ progress v <= 100
   /\ (progress v == 100 <-> target <= current v))%Q.

(** The tables other than [scheduled_payments] are the same in both stores. *)
Definition sameOtherTables (db db' : Db) : Prop :=
  accounts db' = accounts db /\ transactions db' = transactions db
  /\ transfers db' = transfers db /\ debts db' = debts db
  /\ loans db' = loans db /\ goals db' = goals db.

(** The rows of the store that belong to one owner. *)
Definition ownerRows (userId : Id) (db : Db) : Db :=
  mkDb (filter (fun r => String.eqb (acc_userId r) userId) (accounts db))
       (filter (fun r => String.eqb (tx_userId r) userId) (transactions db))
       (filter (fun r => String.eqb (tr_userId r) userId) (transfers db))
       (filter (fun r => String.eqb (debt_userId r) userId) (debts db))
       (filter (fun r => String.eqb (loan_userId r) userId) (loans db))
       (filter (fun r => String.eqb (goal_userId r) userId) (goals db))
       (filter (fun r => String.eqb (sp_userId r) userId)
               (scheduledPayments db)).

(** A payment is settled for good once it is paid or cancelled. *)
Definition terminal (s : PaymentStatus) : Prop := s = paid \/ s = cancelled.

(** Every payment of [db] is still in [db'], at the same place, and those
    in a terminal state kept their status; [db'] may hold new rows after
    them. *)
Definition terminalKept (db db' : Db) : Prop :=
  exists rows extra,
    scheduledPayments db' = rows ++ extra
    /\ Forall2 (fun p p' => sp_id p' = sp_id p
                            /\ (terminal (sp_status p) ->
                                sp_status p' = sp_status p))
         (scheduledPayments db) rows.

(** [db'] is [db] after a sweep for [userId] on the day [today], stamped
    [updatedAt]: each payment of [userId] that was pending with a due date
    not after [today] is overdue, with the new stamp and nothing else
    changed; every other payment and every other table is as it was. *)
Definition sweptFrom (userId today updatedAt : string) (db db' : Db) : Prop :=
  sameOtherTables db db'
  /\ Forall2
       (fun p p' =>
          (sp_userId p = userId /\ sp_status p = pending
           /\ String.leb (sp_dueDate p) today = true
           /\ sp_status p' = overdue /\ sp_updatedAt p' = updatedAt
           /\ sameButStatus p p')
          \/ (~ (sp_userId p = userId /\ sp_status p = pending
                 /\ String.leb (sp_dueDate p) today = true)
              /\ p' = p))
       (scheduledPayments db) (scheduledPayments db').

(** The identifier a patch field names: none when the field is left out
    or [null]. *)
Definition named (x : option (option Id)) : option Id :=
  match x with
  | Some (Some id) => Some id
  | _ => None
  end.

(** No stored row carries the key [id]: an [insert] under [id] does not
    collide with the primary key of the table. *)
Definition freshKey {A : Type} (key : A -> Id) (rows : list A) (id : Id) : Prop :=
  forall r, In r rows -> key r <> id.

(** An optional reference is absent or names a stored row: the foreign key
    of the column is satisfied. *)
Definition present {A : Type} (key : A -> Id) (rows : list A)
    (ref : option Id) : Prop :=
  forall id, ref = Some id -> exists r, In r rows /\ key r = id.

(** * Properties *)

Local Open Scope Q_scope.

(** ** Sums *)

(** [total || 0] is [total]. *)
Lemma orNumber_zero (x : Q) : orNumber x 0 == x.
Proof.
  unfold orNumber. destruct (Qeq_bool x 0) eqn:E.
  - apply Qeq_bool_iff in E. symmetry. exact E.
  - reflexivity.
Qed.

Section Sums.
Context {A : Type}.
Variable col : A -> Q.

Lemma sumOf_app (l1 l2 : list A) :
  sumOf col (l1 ++ l2) == sumOf col l1 + sumOf col l2.
Proof.
  induction l1 as [|r l1 IH]; simpl.
  - ring.
  - rewrite IH. ring.
Qed.

Lemma sumOf_Permutation (l1 l2 : list A) :
  Permutation l1 l2 -> sumOf col l1 == sumOf col l2.
Proof.
  induction 1 as [|x l l' _ IH|x y l|l l' l'' _ IH1 _ IH2]; simpl.
  - reflexivity.
  - rewrite IH. reflexivity.
  - ring.
  - rewrite IH1. exact IH2.
Qed.

Lemma fold_left_sum (rows : list A) (start : Q) :
  fold_left (fun sum r => sum + col r) rows start == start + sumOf col rows.
Proof.
  revert start. induction rows as [|r rows IH]; intros start; simpl.
  - ring.
  - rewrite IH. ring.
Qed.

Lemma reduceSum_sumOf (rows : list A) : reduceSum col rows == sumOf col rows.
Proof. unfold reduceSum. rewrite fold_left_sum. ring. Qed.

Lemma sumOf_nonneg (rows : list A) :
  Forall (fun r => 0 <= col r) rows -> 0 <= sumOf col rows.
Proof.
  induction 1 as [|r rows Hr _ IH]; simpl.
  - apply Qle_refl.
  - lra.
Qed.

End Sums.

Lemma sumOf_map {A B : Type} (f : A -> B) (col : B -> Q) (rows : list A) :
  sumOf col (map f rows) = sumOf (fun r => col (f r)) rows.
Proof.
  induction rows as [|r rows IH]; simpl; [reflexivity|].
  rewrite IH. reflexivity.
Qed.

(** ** Selections *)
Section Selections.
Context {A : Type}.

Lemma filter_filter_implies (p q : A -> bool) (l : list A) :
  (forall x, p x = true -> q x = true) ->
  filter p (filter q l) = filter p l.
Proof.
  intros H. induction l as [|x l IH]; simpl; [reflexivity|].
  destruct (q x) eqn:Q; simpl.
  - rewrite IH. reflexivity.
  - destruct (p x) eqn:P; [|exact IH].
    apply H in P. congruence.
Qed.

Lemma find_filter_implies (p q : A -> bool) (l : list A) :
  (forall x, p x = true -> q x = true) ->
  find p (filter q l) = find p l.
Proof.
  intros H. induction l as [|x l IH]; simpl; [reflexivity|].
  destruct (q x) eqn:Q; simpl.
  - rewrite IH. reflexivity.
  - destruct (p x) eqn:P; [|exact IH].
    apply H in P. congruence.
Qed.

Lemma filter_Permutation (p : A -> bool) (l1 l2 : list A) :
  Permutation l1 l2 -> Permutation (filter p l1) (filter p l2).
Proof.
  induction 1 as [|x l l' _ IH|x y l|l l' l'' _ IH1 _ IH2]; simpl.
  - constructor.
  - destruct (p x); [constructor|]; exact IH.
  - destruct (p x), (p y); try reflexivity. constructor.
  - etransitivity; eassumption.
Qed.

End Selections.

(** ** Balance of an account *)

(** The balance of the account listing is the balance identity of the
    specification, term by term. *)
Lemma list_balance_identity (db : Db) (userId : Id) (a : Account) :
  Accounts.balance (Accounts.withBalance db userId a)
  == acc_initialBalance a
     + Accounts.incomeOf db userId (acc_id a)
     - Accounts.expenseOf db userId (acc_id a)
     + Accounts.transfersInOf db userId (acc_id a)
     - Accounts.transfersOutOf db userId (acc_id a).
Proof.
  unfold Accounts.withBalance. cbn [Accounts.balance].
  rewrite !orNumber_zero. reflexivity.
Qed.

(** It does not depend on the order in which the ledger rows were inserted. *)
Lemma list_balance_order_independent (db db' : Db) (userId : Id) (a : Account) :
  Permutation (transactions db) (transactions db') ->
  Permutation (transfers db) (transfers db') ->
  Accounts.balance (Accounts.withBalance db userId a)
  == Accounts.balance (Accounts.withBalance db' userId a).
Proof.
  intros Htx Htr. rewrite !list_balance_identity.
  unfold Accounts.incomeOf, Accounts.expenseOf, Accounts.transfersInOf,
    Accounts.transfersOutOf.
  rewrite (sumOf_Permutation tx_amount _ _ (filter_Permutation _ _ _ Htx)).
  rewrite (sumOf_Permutation tx_amount _ _ (filter_Permutation _ _ _ Htx)).
  rewrite (sumOf_Permutation tr_amount _ _ (filter_Permutation _ _ _ Htr)).
  rewrite (sumOf_Permutation _ _ _ (filter_Permutation _ _ _ Htr)).
  reflexivity.
Qed.

Lemma filter_none {A : Type} (p : A -> bool) (l : list A) :
  (forall x, In x l -> p x = false) -> filter p l = [].
Proof.
  induction l as [|x l IH]; intros H; simpl; [reflexivity|].
  rewrite (H x (or_introl eq_refl)). apply IH.
  intros y Hy. apply H. right. exact Hy.
Qed.

(** An account no ledger row refers to reports its initial balance. *)
Lemma list_balance_no_entries (db : Db) (userId : Id) (a : Account) :
  (forall t, In t (transactions db) -> tx_accountId t <> acc_id a) ->
  (forall t, In t (transfers db) ->
             tr_fromAccountId t <> acc_id a /\ tr_toAccountId t <> acc_id a) ->
  Accounts.balance (Accounts.withBalance db userId a) == acc_initialBalance a.
Proof.
  intros Htx Htr. rewrite list_balance_identity.
  unfold Accounts.incomeOf, Accounts.expenseOf, Accounts.transfersInOf,
    Accounts.transfersOutOf.
  rewrite !filter_none; simpl; try ring.
  - intros t Ht. destruct (Htr t Ht) as [H _].
    apply String.eqb_neq in H. rewrite H. reflexivity.
  - intros t Ht. destruct (Htr t Ht) as [_ H].
    apply String.eqb_neq in H. rewrite H. reflexivity.
  - intros t Ht. apply Htx, String.eqb_neq in Ht. rewrite Ht. reflexivity.
  - intros t Ht. apply Htx, String.eqb_neq in Ht. rewrite Ht. reflexivity.
Qed.

(** C1. The single-account read ([GET /accounts/:id]) leaves the transfer
    terms out of the balance: with an initial balance of 1000 and one
    outgoing transfer of 200 with a fee of 5 it reports 1000, where the
    balance identity, and the account listing on the same store, give 795. *)
Theorem get_account_ignores_transfers :
  exists b : Q,
    Accounts.get Examples.transferDb "u1" "A" = Json200 (Examples.accountA, b)
    /\ b == 1000
    /\ ~ b == acc_initialBalance Examples.accountA
              + Accounts.incomeOf Examples.transferDb "u1" "A"
              - Accounts.expenseOf Examples.transferDb "u1" "A"
              + Accounts.transfersInOf Examples.transferDb "u1" "A"
              - Accounts.transfersOutOf Examples.transferDb "u1" "A"
    /\ Forall2 Qeq
         (map Accounts.balance
            (Accounts.list_accounts (Accounts.list Examples.transferDb "u1" false)))
         [795; 200].
Proof.
  eexists. split; [reflexivity|].
  split; [reflexivity|].
  split; [intros H; vm_compute in H; discriminate|].
  repeat constructor.
Qed.

(** The dashboard balance debits every row of the account that is not an
    income: expenses, debt payments, goal contributions and loan payments. *)
Lemma dashboard_balance_identity (db : Db) (accountId userId : Id) (b : Q) :
  Dashboard.calculateAccountBalance db accountId userId b
  == b + Accounts.incomeOf db userId accountId
     - sumOf tx_amount
         (filter (fun t => String.eqb (tx_accountId t) accountId
                           && String.eqb (tx_userId t) userId
                           && negb (TxType_eqb (tx_type t) income))
                 (transactions db)).
Proof.
  unfold Dashboard.calculateAccountBalance, Accounts.incomeOf.
  rewrite !orNumber_zero.
  rewrite (filter_ext
             (fun t => String.eqb (tx_accountId t) accountId
                       && String.eqb (tx_userId t) userId
                       && (TxType_eqb (tx_type t) expense
                           || TxType_eqb (tx_type t) debt_payment
                           || TxType_eqb (tx_type t) goal_contribution
                           || TxType_eqb (tx_type t) loan_payment))
             (fun t => String.eqb (tx_accountId t) accountId
                       && String.eqb (tx_userId t) userId
                       && negb (TxType_eqb (tx_type t) income))).
  - reflexivity.
  - intros t. destruct (tx_type t); reflexivity.
Qed.

(** C2. The dashboard balance ([calculateAccountBalance]) has no transfer
    terms: for the account with initial balance 1000 and an outgoing transfer
    of 200 with fee 5 it computes 1000, not the 795 of the balance formula,
    and for the receiving account it computes 0, not 200. *)
Theorem dashboard_balance_ignores_transfers :
  Dashboard.calculateAccountBalance Examples.transferDb "A" "u1" 1000 == 1000
  /\ ~ Dashboard.calculateAccountBalance Examples.transferDb "A" "u1" 1000
       == 1000
          + Accounts.incomeOf Examples.transferDb "u1" "A"
          - sumOf tx_amount
              (filter (fun t => String.eqb (tx_accountId t) "A"
                                && String.eqb (tx_userId t) "u1"
                                && negb (TxType_eqb (tx_type t) income))
                      (transactions Examples.transferDb))
          + Accounts.transfersInOf Examples.transferDb "u1" "A"
          - Accounts.transfersOutOf Examples.transferDb "u1" "A"
  /\ Dashboard.calculateAccountBalance Examples.transferDb "B" "u1" 0 == 0
  /\ Accounts.transfersInOf Examples.transferDb "u1" "B" == 200.
Proof.
  split; [reflexivity|].
  split; [intros H; vm_compute in H; discriminate|].
  split; reflexivity.
Qed.

(** ** Total balance *)

Lemma filter_map_comm {A B : Type} (f : A -> B) (p : B -> bool) (l : list A) :
  filter p (map f l) = map f (filter (fun x => p (f x)) l).
Proof.
  induction l as [|x l IH]; simpl; [reflexivity|].
  rewrite IH. destruct (p (f x)); reflexivity.
Qed.

Lemma filter_filter_and {A : Type} (p q : A -> bool) (l : list A) :
  filter p (filter q l) = filter (fun x => q x && p x) l.
Proof.
  induction l as [|x l IH]; simpl; [reflexivity|].
  destruct (q x); simpl; rewrite IH; reflexivity.
Qed.

Lemma idAmong_In (ids : list Id) (x : Id) :
  Dashboard.idAmong ids x = true <-> In x ids.
Proof.
  unfold Dashboard.idAmong. rewrite existsb_exists. split.
  - intros [y [Hy E]]. apply String.eqb_eq in E. subst. exact Hy.
  - intros H. exists x. split; [exact H|apply String.eqb_refl].
Qed.

(** C9. The dashboard total counts an active account whose [includeInTotal]
    flag is off: on the sample store it is 100, where the sum over the
    accounts with [isActive] and [includeInTotal] is 0, the total that the
    account listing reports for the same store. *)
Theorem dashboard_total_counts_excluded_account :
  Dashboard.totalBalance Examples.excludedDb "u1" Dashboard.defaultConfig == 100
  /\ Dashboard.summaryBalance Examples.excludedDb "u1" == 100
  /\ Accounts.list_totalBalance (Accounts.list Examples.excludedDb "u1" false)
     == 0
  /\ ~ Dashboard.totalBalance Examples.excludedDb "u1" Dashboard.defaultConfig
       == sumOf (fun a => Dashboard.calculateAccountBalance Examples.excludedDb
                            (acc_id a) "u1" (acc_initialBalance a))
            (filter (fun a => String.eqb (acc_userId a) "u1"
                              && acc_isActive a && acc_includeInTotal a)
                    (accounts Examples.excludedDb)).
Proof.
  split; [reflexivity|]. split; [reflexivity|]. split; [reflexivity|].
  intros H. vm_compute in H. discriminate.
Qed.

(** Which accounts each total sums.  The dashboard total is the sum of the
    dashboard balances of the owner's active accounts, restricted to
    [balanceAccountIds] when that list is present and not empty; the total
    of the account listing is the sum of the listing balances of the owner's
    accounts with [isActive] and [includeInTotal]; the balance of the
    dashboard summary is the sum over the owner's active accounts. *)
Lemma total_balance_selection
    (db : Db) (userId : Id) (config : Dashboard.Config) (includeInactive : bool) :
  (exists selected : Account -> bool,
     (forall a, selected a = true <->
                acc_userId a = userId /\ acc_isActive a = true
                /\ forall ids, Dashboard.balanceAccountIds config = Some ids ->
                               ids <> [] -> In (acc_id a) ids)
     /\ Dashboard.totalBalance db userId config
        == sumOf (fun a => Dashboard.calculateAccountBalance db (acc_id a) userId
                             (acc_initialBalance a))
             (filter selected (accounts db)))
  /\ (exists selected : Account -> bool,
        (forall a, selected a = true <->
                   acc_userId a = userId /\ acc_isActive a = true
                   /\ acc_includeInTotal a = true)
        /\ Accounts.list_totalBalance (Accounts.list db userId includeInactive)
           == sumOf (fun a => Accounts.balance (Accounts.withBalance db userId a))
                (filter selected (accounts db)))
  /\ (exists selected : Account -> bool,
        (forall a, selected a = true <->
                   acc_userId a = userId /\ acc_isActive a = true)
        /\ Dashboard.summaryBalance db userId
           == sumOf (fun a => Dashboard.calculateAccountBalance db (acc_id a)
                                userId (acc_initialBalance a))
                (filter selected (accounts db))).
Proof.
  split; [|split].
  - eexists. split; [|unfold Dashboard.totalBalance, Dashboard.accountsList,
                        Dashboard.rawAccounts;
                      rewrite reduceSum_sumOf, sumOf_map; reflexivity].
    intros a. cbn beta. rewrite !andb_true_iff, String.eqb_eq.
    destruct (Dashboard.balanceAccountIds config) as [[|id ids]|].
    + split.
      * intros [[-> ->] _]. repeat split. intros ids [= <-] H. congruence.
      * intros (-> & -> & _). auto.
    + rewrite idAmong_In. split.
      * intros [[-> ->] H]. repeat split. intros ids' [= <-] _. exact H.
      * intros (-> & -> & H). repeat split. apply H; [reflexivity|discriminate].
    + split.
      * intros [[-> ->] _]. repeat split. intros ids [=].
      * intros (-> & -> & _). auto.
  - exists (fun a => String.eqb (acc_userId a) userId
                     && acc_isActive a && acc_includeInTotal a).
    split.
    + intros a. rewrite !andb_true_iff, String.eqb_eq. tauto.
    + unfold Accounts.list. cbn [Accounts.list_totalBalance].
      rewrite reduceSum_sumOf, filter_map_comm, sumOf_map, filter_filter_and.
      cbn [Accounts.account Accounts.withBalance].
      erewrite filter_ext; [reflexivity|].
      intros a. cbn beta.
      destruct includeInactive, (String.eqb (acc_userId a) userId),
        (acc_isActive a), (acc_includeInTotal a); reflexivity.
  - exists (fun a => String.eqb (acc_userId a) userId && acc_isActive a).
    split.
    + intros a. rewrite !andb_true_iff, String.eqb_eq. tauto.
    + unfold Dashboard.summaryBalance.
      rewrite (fold_left_sum
                 (fun a => Dashboard.calculateAccountBalance db (acc_id a)
                             userId (acc_initialBalance a))).
      ring.
Qed.

(** ** The overdue sweep *)

Lemma PaymentStatus_eqb_eq (a b : PaymentStatus) :
  PaymentStatus_eqb a b = true <-> a = b.
Proof. destruct a, b; simpl; split; intros H; congruence. Qed.

Lemma isDue_spec (userId today : string) (p : ScheduledPayment) :
  ScheduledPayments.isDue userId today p = true
  <-> sp_userId p = userId /\ sp_status p = pending
      /\ String.leb (sp_dueDate p) today = true.
Proof.
  unfold ScheduledPayments.isDue.
  rewrite !andb_true_iff, String.eqb_eq, PaymentStatus_eqb_eq. tauto.
Qed.

Lemma statusPatch_same (s : PaymentStatus) (t : string) (p : ScheduledPayment) :
  sameButStatus p
    (ScheduledPayments.applyPatch (ScheduledPayments.statusPatch s t) p).
Proof. repeat split. Qed.

Lemma isDue_after_sweep (userId today t : string) (p : ScheduledPayment) :
  ScheduledPayments.isDue userId today
    (ScheduledPayments.applyPatch (ScheduledPayments.statusPatch overdue t) p)
  = false.
Proof.
  unfold ScheduledPayments.isDue. cbn.
  rewrite andb_false_r. reflexivity.
Qed.

Lemma Forall2_map_self {A : Type} (R : A -> A -> Prop) (f : A -> A) (l : list A) :
  (forall x, R x (f x)) -> Forall2 R l (map f l).
Proof.
  intros H. induction l as [|x l IH]; simpl; constructor; auto.
Qed.

Lemma sweep_update_exact (db : Db) (userId today updatedAt : string) :
  sweptFrom userId today updatedAt db
    (ScheduledPayments.updateWhere db (ScheduledPayments.isDue userId today)
       (ScheduledPayments.statusPatch overdue updatedAt)).
Proof.
  split; [repeat split|].
  unfold ScheduledPayments.updateWhere.
  cbn [scheduledPayments ScheduledPayments.withScheduledPayments].
  apply Forall2_map_self. intros p.
  destruct (ScheduledPayments.isDue userId today p) eqn:E.
  - left. apply isDue_spec in E. destruct E as (H1 & H2 & H3).
    split; [exact H1|]. split; [exact H2|]. split; [exact H3|].
    split; [reflexivity|]. split; [reflexivity|]. apply statusPatch_same.
  - right. split; [|reflexivity].
    intros H. apply isDue_spec in H. congruence.
Qed.

Lemma sweep_update_again (db : Db) (userId today updatedAt updatedAt' : string) :
  ScheduledPayments.updateWhere
    (ScheduledPayments.updateWhere db (ScheduledPayments.isDue userId today)
       (ScheduledPayments.statusPatch overdue updatedAt))
    (ScheduledPayments.isDue userId today)
    (ScheduledPayments.statusPatch overdue updatedAt')
  = ScheduledPayments.updateWhere db (ScheduledPayments.isDue userId today)
      (ScheduledPayments.statusPatch overdue updatedAt).
Proof.
  unfold ScheduledPayments.updateWhere, ScheduledPayments.withScheduledPayments.
  cbn [accounts transactions transfers debts loans goals scheduledPayments].
  f_equal. rewrite map_map. apply map_ext. intros p.
  destruct (ScheduledPayments.isDue userId today p) eqn:E.
  - rewrite isDue_after_sweep. reflexivity.
  - rewrite E. reflexivity.
Qed.

(** C4. The sweep rewrites exactly the payments of the requesting owner that
    are pending with a due date not after today: each becomes overdue (with a
    fresh modification stamp and nothing else changed), every other payment
    and every other table is left as it was, and sweeping again changes
    nothing.  This holds of the sweep of the scheduled-payment routes and
    of the one [GET /dashboard] issues when the widget is shown, and of
    one run after the other; with the widget hidden the dashboard does not
    sweep. *)
Theorem overdue_sweep_exact_and_idempotent
    (db : Db) (userId : Id) (config : Dashboard.Config)
    (now updatedAt updatedAt' : string) :
  let today := ScheduledPayments.isoDate now in
  let swept := ScheduledPayments.markOverduePayments db userId now updatedAt in
  let shown :=
    ScheduledPayments.dashboardMarkOverdue db userId config now updatedAt in
  (sweptFrom userId today updatedAt db swept
   /\ ScheduledPayments.markOverduePayments swept userId now updatedAt' = swept
   /\ ScheduledPayments.dashboardMarkOverdue swept userId config now updatedAt'
      = swept)
  /\ (Dashboard.showScheduledPayments config <> Some false ->
      sweptFrom userId today updatedAt db shown
      /\ ScheduledPayments.dashboardMarkOverdue shown userId config now
           updatedAt' = shown
      /\ ScheduledPayments.markOverduePayments shown userId now updatedAt'
         = shown)
  /\ (Dashboard.showScheduledPayments config = Some false -> shown = db).
Proof.
  cbv zeta.
  unfold ScheduledPayments.markOverduePayments,
    ScheduledPayments.dashboardMarkOverdue. cbv zeta.
  split; [|split].
  - split; [apply sweep_update_exact|]. split; [apply sweep_update_again|].
    destruct (Dashboard.showScheduledPayments config) as [[|]|];
      first [apply sweep_update_again | reflexivity].
  - intros H.
    destruct (Dashboard.showScheduledPayments config) as [[|]|];
      try (exfalso; apply H; reflexivity);
      (split; [apply sweep_update_exact|]);
      split; apply sweep_update_again.
  - intros ->. reflexivity.
Qed.

(** The dashboard issues the same update, unless the widget is hidden. *)
Lemma dashboard_sweep_is_the_sweep
    (db : Db) (userId : Id) (config : Dashboard.Config) (now updatedAt : string) :
  ScheduledPayments.dashboardMarkOverdue db userId config now updatedAt
  = match Dashboard.showScheduledPayments config with
    | Some false => db
    | _ => ScheduledPayments.markOverduePayments db userId now updatedAt
    end.
Proof.
  unfold ScheduledPayments.dashboardMarkOverdue.
  destruct (Dashboard.showScheduledPayments config) as [[|]|]; reflexivity.
Qed.

(** ** The lifecycle of a scheduled payment *)

Lemma findOwned_Some (db : Db) (userId id : Id) (p : ScheduledPayment) :
  ScheduledPayments.findOwned db userId id = Some p ->
  In p (scheduledPayments db) /\ sp_id p = id /\ sp_userId p = userId.
Proof.
  unfold ScheduledPayments.findOwned. intros H.
  apply find_some in H. destruct H as [Hin H].
  apply andb_true_iff in H. destruct H as [H1 H2].
  apply String.eqb_eq in H1, H2. auto.
Qed.

(** [id] is the primary key of the table. *)
Lemma primary_key_unique (rows : list ScheduledPayment) (p q : ScheduledPayment) :
  NoDup (map sp_id rows) -> In p rows -> In q rows -> sp_id p = sp_id q -> p = q.
Proof.
  induction rows as [|r rows IH]; intros Hnd Hp Hq E; [contradiction|].
  simpl in Hnd. inversion Hnd as [|? ? Hnotin Hnd']; subst.
  destruct Hp as [->|Hp], Hq as [->|Hq].
  - reflexivity.
  - exfalso. apply Hnotin. rewrite E. apply in_map. exact Hq.
  - exfalso. apply Hnotin. rewrite <- E. apply in_map. exact Hp.
  - apply IH; assumption.
Qed.

Lemma Forall2_map_in {A : Type} (R : A -> A -> Prop) (f : A -> A) (l : list A) :
  (forall x, In x l -> R x (f x)) -> Forall2 R l (map f l).
Proof.
  induction l as [|x l IH]; intros H; simpl; constructor.
  - apply H. left. reflexivity.
  - apply IH. intros y Hy. apply H. right. exact Hy.
Qed.

Lemma terminalKept_refl (db : Db) : terminalKept db db.
Proof.
  exists (scheduledPayments db), []. split; [symmetry; apply app_nil_r|].
  rewrite <- (map_id (scheduledPayments db)) at 2.
  apply Forall2_map_self. intros p. auto.
Qed.

Lemma terminalKept_updateWhere
    (db : Db) (cond : ScheduledPayment -> bool) (s : ScheduledPayments.Patch) :
  (forall p, In p (scheduledPayments db) -> cond p = true ->
             terminal (sp_status p) ->
             sp_status (ScheduledPayments.applyPatch s p) = sp_status p) ->
  terminalKept db (ScheduledPayments.updateWhere db cond s).
Proof.
  intros H. eexists _, []. split; [symmetry; apply app_nil_r|].
  apply Forall2_map_in. intros p Hp.
  destruct (cond p) eqn:E; [|auto].
  split; [reflexivity|]. intros Ht. apply H; assumption.
Qed.

Lemma terminalKept_more (db db1 db2 : Db) (extra : list ScheduledPayment) :
  terminalKept db db1 ->
  scheduledPayments db2 = scheduledPayments db1 ++ extra ->
  terminalKept db db2.
Proof.
  intros (rows & extra1 & E & H) E2.
  exists rows, (extra1 ++ extra). split; [|exact H].
  rewrite E2, E, app_assoc. reflexivity.
Qed.

Lemma not_terminal_pending_overdue (s : PaymentStatus) :
  PaymentStatus_eqb s paid = false -> PaymentStatus_eqb s cancelled = false ->
  ~ terminal s.
Proof. destruct s; simpl; intros H1 H2 [H|H]; congruence. Qed.

(** C5, counterexample.  An update request that carries a status moves a
    paid payment back to pending. *)
Lemma update_reopens_paid_payment :
  sp_status Examples.rentPaid = paid
  /\ map sp_status
       (scheduledPayments
          (snd (ScheduledPayments.update Examples.paidDb "u1" "sp1"
                  Examples.reopen "2025-01-06T09:00:00.000Z")))
     = [pending]
  /\ ~ terminalKept Examples.paidDb
         (snd (ScheduledPayments.update Examples.paidDb "u1" "sp1"
                 Examples.reopen "2025-01-06T09:00:00.000Z")).
Proof.
  split; [reflexivity|]. split; [reflexivity|].
  intros (rows & extra & E & H).
  cbn in E, H. inversion H as [|p p' l l' [_ Hp] Hl]; subst.
  inversion Hl; subst. cbn in E. injection E as E _.
  specialize (Hp (or_introl eq_refl)). rewrite <- E in Hp. discriminate.
Qed.

(** The row [id] after two updates by [id], with rows appended in
    between. *)
Lemma row_after_two_updates
    (rows extra : list ScheduledPayment) (id : Id)
    (s1 s2 : ScheduledPayments.Patch) (p : ScheduledPayment) :
  In p rows -> sp_id p = id ->
  In (ScheduledPayments.applyPatch s2 (ScheduledPayments.applyPatch s1 p))
     (map (fun q => if String.eqb (sp_id q) id
                    then ScheduledPayments.applyPatch s2 q else q)
          (map (fun q => if String.eqb (sp_id q) id
                         then ScheduledPayments.applyPatch s1 q else q)
               rows ++ extra)).
Proof.
  intros Hin Hid. apply in_map_iff.
  exists (ScheduledPayments.applyPatch s1 p). split.
  - cbn [ScheduledPayments.applyPatch sp_id]. rewrite Hid, String.eqb_refl.
    reflexivity.
  - apply in_or_app. left. apply in_map_iff. exists p. split; [|exact Hin].
    rewrite Hid, String.eqb_refl. reflexivity.
Qed.

(** A cancellation that read the payment before a settlement finished
    turns the paid payment into a cancelled one; the ledger entry of the
    settlement stays. *)
Lemma cancel_overlapped_by_settlement
    (db : Db) (userId id : Id) (body : ScheduledPayments.PayBody)
    (now now' : string) (nextId txId : Id) (p : ScheduledPayment) :
  ScheduledPayments.findOwned db userId id = Some p ->
  ~ terminal (sp_status p) ->
  let '(a, c, db') :=
    InFlight.payAndCancel
      [InFlight.Second; InFlight.First; InFlight.First; InFlight.First;
       InFlight.First; InFlight.Second]
      (InFlight.mkPayRequest userId id body now nextId txId)
      (InFlight.mkCancelRequest userId id now') db in
  a = InFlight.PayAnswered
        (fst (ScheduledPayments.pay db userId id body now nextId txId))
  /\ c = InFlight.CancelAnswered (Json200 "Pago cancelado exitosamente")
  /\ transactions db'
     = transactions (snd (ScheduledPayments.pay db userId id body now nextId txId))
  /\ exists q q',
       In q (scheduledPayments
               (snd (ScheduledPayments.pay db userId id body now nextId txId)))
       /\ sp_id q = id /\ sp_status q = paid
       /\ In q' (scheduledPayments db')
       /\ sp_id q' = id /\ sp_status q' = cancelled.
Proof.
  intros F NT.
  assert (E1 : PaymentStatus_eqb (sp_status p) paid = false).
  { destruct (PaymentStatus_eqb (sp_status p) paid) eqn:E; [|reflexivity].
    apply PaymentStatus_eqb_eq in E. exfalso. apply NT. left. exact E. }
  assert (E2 : PaymentStatus_eqb (sp_status p) cancelled = false).
  { destruct (PaymentStatus_eqb (sp_status p) cancelled) eqn:E; [|reflexivity].
    apply PaymentStatus_eqb_eq in E. exfalso. apply NT. right. exact E. }
  destruct (findOwned_Some db userId id p F) as (Hin & Hid & _).
  unfold InFlight.payAndCancel, ScheduledPayments.pay.
  rewrite F, E1, E2. cbv zeta.
  destruct (ScheduledPayments.getNextDueDate (sp_dueDate p)
              (ScheduledPayments.orElse (sp_recurringFrequency p) EmptyString))
    as [due|] eqn:N;
    destruct (ScheduledPayments.truthy (sp_accountId p)) eqn:T;
    destruct (sp_isRecurring p
              && ScheduledPayments.truthy (sp_recurringFrequency p)) eqn:R;
    destruct (ScheduledPayments.pb_createNextRecurrence body) eqn:CA;
    repeat (cbn [andb InFlight.interleave InFlight.payStep InFlight.cancelStep
                 fst snd InFlight.pq_userId InFlight.pq_id InFlight.pq_body
                 InFlight.pq_now InFlight.pq_nextId InFlight.pq_txId
                 InFlight.cq_userId InFlight.cq_id InFlight.cq_now];
            unfold InFlight.afterNext, InFlight.payAnswer, InFlight.paidDate,
              InFlight.paidAmount;
            rewrite ?F, ?E1, ?E2, ?N, ?T, ?R, ?CA).
  all: split; [reflexivity|]; split; [reflexivity|]; split; [reflexivity|].
  all: unfold ScheduledPayments.insertTransaction,
         ScheduledPayments.insertPayments, ScheduledPayments.updateWhere,
         ScheduledPayments.withTransactions,
         ScheduledPayments.withScheduledPayments;
       cbn [transactions scheduledPayments].
  all: eexists _, _.
  all: split;
    [first [ apply in_or_app; left; apply in_map_iff; exists p;
             split; [rewrite Hid, String.eqb_refl; reflexivity|exact Hin]
           | apply in_map_iff; exists p;
             split; [rewrite Hid, String.eqb_refl; reflexivity|exact Hin] ]|].
  all: split; [exact Hid|]; split; [reflexivity|].
  all: split;
    [first [ exact (row_after_two_updates _ _ _ _ _ p Hin Hid)
           | rewrite <- (app_nil_r (map _ (scheduledPayments db)));
             exact (row_after_two_updates _ _ _ _ _ p Hin Hid) ]|].
  all: split; [exact Hid|reflexivity].
Qed.

(** A settlement that read the payment before a cancellation finished
    turns the cancelled payment into a paid one and posts its entry. *)
Lemma settlement_overlapped_by_cancel
    (db : Db) (userId id : Id) (body : ScheduledPayments.PayBody)
    (now now' : string) (nextId txId : Id) (p : ScheduledPayment) :
  ScheduledPayments.findOwned db userId id = Some p ->
  ~ terminal (sp_status p) ->
  let '(a, c, db') :=
    InFlight.payAndCancel
      [InFlight.First; InFlight.Second; InFlight.Second; InFlight.First;
       InFlight.First; InFlight.First]
      (InFlight.mkPayRequest userId id body now nextId txId)
      (InFlight.mkCancelRequest userId id now') db in
  a = InFlight.PayAnswered
        (fst (ScheduledPayments.pay db userId id body now nextId txId))
  /\ c = InFlight.CancelAnswered (Json200 "Pago cancelado exitosamente")
  /\ transactions db'
     = transactions (snd (ScheduledPayments.pay db userId id body now nextId txId))
  /\ exists q q',
       In q (scheduledPayments (snd (ScheduledPayments.cancel db userId id now')))
       /\ sp_id q = id /\ sp_status q = cancelled
       /\ In q' (scheduledPayments db')
       /\ sp_id q' = id /\ sp_status q' = paid.
Proof.
  intros F NT.
  assert (E1 : PaymentStatus_eqb (sp_status p) paid = false).
  { destruct (PaymentStatus_eqb (sp_status p) paid) eqn:E; [|reflexivity].
    apply PaymentStatus_eqb_eq in E. exfalso. apply NT. left. exact E. }
  assert (E2 : PaymentStatus_eqb (sp_status p) cancelled = false).
  { destruct (PaymentStatus_eqb (sp_status p) cancelled) eqn:E; [|reflexivity].
    apply PaymentStatus_eqb_eq in E. exfalso. apply NT. right. exact E. }
  destruct (findOwned_Some db userId id p F) as (Hin & Hid & _).
  unfold InFlight.payAndCancel, ScheduledPayments.pay, ScheduledPayments.cancel.
  rewrite F, E1, E2. cbv zeta.
  destruct (ScheduledPayments.getNextDueDate (sp_dueDate p)
              (ScheduledPayments.orElse (sp_recurringFrequency p) EmptyString))
    as [due|] eqn:N;
    destruct (ScheduledPayments.truthy (sp_accountId p)) eqn:T;
    destruct (sp_isRecurring p
              && ScheduledPayments.truthy (sp_recurringFrequency p)) eqn:R;
    destruct (ScheduledPayments.pb_createNextRecurrence body) eqn:CA;
    repeat (cbn [andb InFlight.interleave InFlight.payStep InFlight.cancelStep
                 fst snd InFlight.pq_userId InFlight.pq_id InFlight.pq_body
                 InFlight.pq_now InFlight.pq_nextId InFlight.pq_txId
                 InFlight.cq_userId InFlight.cq_id InFlight.cq_now];
            unfold InFlight.afterNext, InFlight.payAnswer, InFlight.paidDate,
              InFlight.paidAmount;
            rewrite ?F, ?E1, ?E2, ?N, ?T, ?R, ?CA).
  all: split; [reflexivity|]; split; [reflexivity|]; split; [reflexivity|].
  all: unfold ScheduledPayments.insertTransaction,
         ScheduledPayments.insertPayments, ScheduledPayments.updateWhere,
         ScheduledPayments.withTransactions,
         ScheduledPayments.withScheduledPayments;
       cbn [transactions scheduledPayments].
  all: eexists _, _.
  all: split;
    [apply in_map_iff; exists p;
     split; [rewrite Hid, String.eqb_refl; reflexivity|exact Hin]|].
  all: split; [exact Hid|]; split; [reflexivity|].
  all: split;
    [first [ apply in_or_app; left;
             rewrite <- (app_nil_r (map _ (scheduledPayments db)));
             exact (row_after_two_updates _ _ _ _ _ p Hin Hid)
           | rewrite <- (app_nil_r (map _ (scheduledPayments db)));
             exact (row_after_two_updates _ _ _ _ _ p Hin Hid) ]|].
  all: split; [exact Hid|reflexivity].
Qed.

(** C5, as the code has it.  Run one at a time, settling, cancelling and the
    overdue sweeps never change the status of a payment that is paid or
    cancelled; an update request leaves every status alone unless it
    carries a [status] field, and then (its category and account existing)
    it gives the payment that status, whatever its state was.  Settling and
    cancelling check the status of the row they read and write without a
    status condition: a cancellation overlapped by a settlement leaves the
    paid payment cancelled, and a settlement overlapped by a cancellation
    leaves the cancelled payment paid. *)
Theorem terminal_states_kept
    (db : Db) (categories : list PaymentRoutes.CategoryRow)
    (config : Dashboard.Config) (userId id : Id)
    (body : ScheduledPayments.PayBody) (patch : ScheduledPayments.Patch)
    (now now' updatedAt : string) (nextId txId : Id) :
  NoDup (map sp_id (scheduledPayments db)) ->
  terminalKept db (snd (ScheduledPayments.pay db userId id body now nextId txId))
  /\ terminalKept db (snd (ScheduledPayments.cancel db userId id now))
  /\ terminalKept db (ScheduledPayments.markOverduePayments db userId now updatedAt)
  /\ terminalKept db
       (ScheduledPayments.dashboardMarkOverdue db userId config now updatedAt)
  /\ (ScheduledPayments.p_status patch = None ->
      terminalKept db (snd (ScheduledPayments.update db userId id patch now)))
  /\ (forall s p,
        ScheduledPayments.p_status patch = Some s ->
        ScheduledPayments.findOwned db userId id = Some p ->
        present fst categories (named (ScheduledPayments.p_categoryId patch)) ->
        present acc_id (accounts db)
          (named (ScheduledPayments.p_accountId patch)) ->
        exists p',
          In p' (scheduledPayments
                   (snd (ScheduledPayments.update db userId id patch now)))
          /\ sp_id p' = id /\ sp_userId p' = userId /\ sp_status p' = s)
  /\ (forall p,
        ScheduledPayments.findOwned db userId id = Some p ->
        ~ terminal (sp_status p) ->
        (let '(a, c, db') :=
           InFlight.payAndCancel
             [InFlight.Second; InFlight.First; InFlight.First; InFlight.First;
              InFlight.First; InFlight.Second]
             (InFlight.mkPayRequest userId id body now nextId txId)
             (InFlight.mkCancelRequest userId id now') db in
         a = InFlight.PayAnswered
               (fst (ScheduledPayments.pay db userId id body now nextId txId))
         /\ c = InFlight.CancelAnswered (Json200 "Pago cancelado exitosamente")
         /\ transactions db'
            = transactions
                (snd (ScheduledPayments.pay db userId id body now nextId txId))
         /\ exists q q',
              In q (scheduledPayments
                      (snd (ScheduledPayments.pay db userId id body now nextId
                              txId)))
              /\ sp_id q = id /\ sp_status q = paid
              /\ In q' (scheduledPayments db')
              /\ sp_id q' = id /\ sp_status q' = cancelled)
        /\ (let '(a, c, db') :=
              InFlight.payAndCancel
                [InFlight.First; InFlight.Second; InFlight.Second;
                 InFlight.First; InFlight.First; InFlight.First]
                (InFlight.mkPayRequest userId id body now nextId txId)
                (InFlight.mkCancelRequest userId id now') db in
            a = InFlight.PayAnswered
                  (fst (ScheduledPayments.pay db userId id body now nextId txId))
            /\ c = InFlight.CancelAnswered
                     (Json200 "Pago cancelado exitosamente")
            /\ transactions db'
               = transactions
                   (snd (ScheduledPayments.pay db userId id body now nextId
                           txId))
            /\ exists q q',
                 In q (scheduledPayments
                         (snd (ScheduledPayments.cancel db userId id now')))
                 /\ sp_id q = id /\ sp_status q = cancelled
                 /\ In q' (scheduledPayments db')
                 /\ sp_id q' = id /\ sp_status q' = paid)).
Proof.
  intros Hnd. split; [|split; [|split; [|split; [|split; [|split]]]]].
  - unfold ScheduledPayments.pay.
    destruct (ScheduledPayments.findOwned db userId id) as [payment|] eqn:F;
      [|apply terminalKept_refl].
    destruct (PaymentStatus_eqb (sp_status payment) paid) eqn:E1;
      [apply terminalKept_refl|].
    destruct (PaymentStatus_eqb (sp_status payment) cancelled) eqn:E2;
      [apply terminalKept_refl|].
    apply findOwned_Some in F. destruct F as (Hin & Hid & _).
    match goal with
    | |- context [ScheduledPayments.updateWhere db ?c ?s] =>
        assert (K : terminalKept db (ScheduledPayments.updateWhere db c s))
    end.
    { apply terminalKept_updateWhere. intros q Hq Hc Ht.
      apply String.eqb_eq in Hc.
      assert (q = payment) by (apply (primary_key_unique _ _ _ Hnd Hq Hin);
                               congruence).
      subst q. exfalso.
      exact (not_terminal_pending_overdue _ E1 E2 Ht). }
    destruct (sp_isRecurring payment && _ && _);
      [destruct (ScheduledPayments.getNextDueDate _ _)|];
      cbn [snd]; try exact K;
      destruct (ScheduledPayments.truthy (sp_accountId payment)); cbn [snd];
      first [ exact K
            | eapply terminalKept_more; [exact K|]; cbn; reflexivity
            | eapply terminalKept_more; [exact K|]; cbn;
              symmetry; apply app_nil_r ].
  - unfold ScheduledPayments.cancel.
    destruct (ScheduledPayments.findOwned db userId id) as [payment|] eqn:F;
      [|apply terminalKept_refl].
    destruct (PaymentStatus_eqb (sp_status payment) paid) eqn:E1;
      [apply terminalKept_refl|].
    apply findOwned_Some in F. destruct F as (Hin & Hid & _).
    cbn [snd]. apply terminalKept_updateWhere. intros q Hq Hc Ht.
    apply String.eqb_eq in Hc.
    assert (q = payment) by (apply (primary_key_unique _ _ _ Hnd Hq Hin);
                             congruence).
    subst q. destruct Ht as [Ht|Ht]; rewrite Ht in *; [discriminate|reflexivity].
  - unfold ScheduledPayments.markOverduePayments.
    apply terminalKept_updateWhere. intros q _ Hc [Ht|Ht];
      apply isDue_spec in Hc; destruct Hc as (_ & Hc & _); congruence.
  - unfold ScheduledPayments.dashboardMarkOverdue.
    destruct (Dashboard.showScheduledPayments config) as [[|]|];
      try apply terminalKept_refl;
      apply terminalKept_updateWhere; intros q _ Hc [Ht|Ht];
      apply isDue_spec in Hc; destruct Hc as (_ & Hc & _); congruence.
  - intros Hs. unfold ScheduledPayments.update.
    destruct (ScheduledPayments.findOwned db userId id);
      [|apply terminalKept_refl].
    cbn [snd]. apply terminalKept_updateWhere. intros q _ _ _.
    cbn. rewrite Hs. reflexivity.
  - intros s p Hs F _ _. unfold ScheduledPayments.update. rewrite F. cbn [snd].
    apply findOwned_Some in F. destruct F as (Hin & Hid & Hu).
    eexists. split.
    + unfold ScheduledPayments.updateWhere.
      cbn [scheduledPayments ScheduledPayments.withScheduledPayments].
      apply in_map_iff. exists p. split; [|exact Hin].
      rewrite Hid, Hu, !String.eqb_refl. reflexivity.
    + cbn. rewrite Hs. auto.
  - intros p F NT. split.
    + exact (cancel_overlapped_by_settlement db userId id body now now' nextId
               txId p F NT).
    + exact (settlement_overlapped_by_cancel db userId id body now now' nextId
               txId p F NT).
Qed.

Lemma terminal_states_kept_witness :
  NoDup (map sp_id (scheduledPayments Examples.billsDb))
  /\ terminalKept Examples.billsDb
       (snd (ScheduledPayments.cancel Examples.billsDb "u1" "sp3"
               "2025-02-02T08:00:00.000Z")).
Proof.
  assert (H : NoDup (map sp_id (scheduledPayments Examples.billsDb))).
  { simpl. constructor.
    - simpl. intros [E|[]]. discriminate E.
    - constructor; [simpl; tauto|constructor]. }
  split; [exact H|].
  exact (proj1 (proj2
           (terminal_states_kept Examples.billsDb [] Dashboard.defaultConfig
              "u1" "sp3" Examples.payNow ScheduledPayments.emptyPatch
              "2025-02-02T08:00:00.000Z" "2025-02-02T08:00:00.002Z"
              "2025-02-02T08:00:00.001Z" "n1" "x1" H))).
Defined.

(** ** Settlement *)

Lemma find_after_update
    (rows extra : list ScheduledPayment) (userId id : Id)
    (s : ScheduledPayments.Patch) (p : ScheduledPayment) :
  find (fun q => String.eqb (sp_id q) id && String.eqb (sp_userId q) userId) rows
  = Some p ->
  find (fun q => String.eqb (sp_id q) id && String.eqb (sp_userId q) userId)
       (map (fun q => if String.eqb (sp_id q) id
                      then ScheduledPayments.applyPatch s q else q) rows
        ++ extra)
  = Some (ScheduledPayments.applyPatch s p).
Proof.
  induction rows as [|r rows IH]; simpl; [discriminate|].
  destruct (String.eqb (sp_id r) id) eqn:E1; simpl.
  - rewrite E1. simpl. destruct (String.eqb (sp_userId r) userId).
    + intros [= ->]. reflexivity.
    + exact IH.
  - rewrite E1. simpl. exact IH.
Qed.

Ltac pay_fields :=
  (split; [reflexivity|]); (split; [reflexivity|]); (split; [reflexivity|]);
  (split; [cbn; lia|]); (split; [repeat constructor|]);
  (split; [repeat constructor|]).

(** What a settlement of a payment that is neither paid nor cancelled does to
    the store: it rewrites the payment, appends at most one pending clone and
    at most one ledger entry. *)
Lemma pay_effect
    (db : Db) (userId id : Id) (body : ScheduledPayments.PayBody)
    (now : string) (nextId txId : Id) (p : ScheduledPayment) :
  ScheduledPayments.findOwned db userId id = Some p ->
  ~ terminal (sp_status p) ->
  exists (s : ScheduledPayments.Patch) (clones : list ScheduledPayment)
         (entries : list Transaction),
    let out := ScheduledPayments.pay db userId id body now nextId txId in
    ScheduledPayments.p_status s = Some paid
    /\ scheduledPayments (snd out)
       = map (fun q => if String.eqb (sp_id q) id
                       then ScheduledPayments.applyPatch s q else q)
             (scheduledPayments db) ++ clones
    /\ transactions (snd out) = transactions db ++ entries
    /\ (List.length clones <= 1)%nat
    /\ Forall (fun c => sp_status c = pending /\ sp_debtInstallmentId c = None)
         clones
    /\ Forall (fun t => tx_type t = expense /\ tx_userId t = userId
                        /\ Some (tx_accountId t) = sp_accountId p
                        /\ tx_description t = Some ("Pago: " ++ sp_name p)%string)
         entries
    /\ ((fst out = Error500 /\ entries = [] /\ sp_isRecurring p = true)
        \/ (exists res, fst out = Json200 res
            /\ List.length entries
               = if ScheduledPayments.truthy (sp_accountId p) then 1%nat
                 else 0%nat)).
Proof.
  intros F Hnt. unfold ScheduledPayments.pay. rewrite F.
  destruct (PaymentStatus_eqb (sp_status p) paid) eqn:E1;
    [apply PaymentStatus_eqb_eq in E1; exfalso; apply Hnt; left; exact E1|].
  destruct (PaymentStatus_eqb (sp_status p) cancelled) eqn:E2;
    [apply PaymentStatus_eqb_eq in E2; exfalso; apply Hnt; right; exact E2|].
  cbv zeta.
  match goal with
  | |- context [ScheduledPayments.updateWhere db _ ?s] => exists s
  end.
  destruct (sp_isRecurring p && _ && _) eqn:W.
  - destruct (ScheduledPayments.getNextDueDate _ _) as [next|].
    + destruct (sp_accountId p) as [a|] eqn:A.
      * destruct (ScheduledPayments.truthy (Some a)) eqn:T.
        -- eexists [_], [_]. cbn.
           pay_fields. right. eexists. split; reflexivity.
        -- eexists [_], []. cbn. rewrite app_nil_r.
           pay_fields. right. eexists. split; reflexivity.
      * eexists [_], []. cbn. rewrite app_nil_r.
        pay_fields. right. eexists. split; reflexivity.
    + exists [], []. cbn. rewrite !app_nil_r.
      pay_fields. left. repeat split.
      destruct (sp_isRecurring p); [reflexivity|discriminate].
  - destruct (sp_accountId p) as [a|] eqn:A.
    + destruct (ScheduledPayments.truthy (Some a)) eqn:T.
      * eexists [], [_]. cbn. rewrite app_nil_r.
        pay_fields. right. eexists. split; reflexivity.
      * exists [], []. cbn. rewrite !app_nil_r.
        pay_fields. right. eexists. split; reflexivity.
    + exists [], []. cbn. rewrite !app_nil_r.
      pay_fields. right. eexists. split; reflexivity.
Qed.

Lemma map_id_after_update
    (rows : list ScheduledPayment) (id : Id) (s : ScheduledPayments.Patch) :
  map sp_id
    (map (fun q => if String.eqb (sp_id q) id
                   then ScheduledPayments.applyPatch s q else q) rows)
  = map sp_id rows.
Proof.
  rewrite map_map. apply map_ext. intros q.
  destruct (String.eqb (sp_id q) id); reflexivity.
Qed.

(** The ledger entry of a settlement is an expense of the linked account:
    the next read of that account's expenses includes it. *)
Lemma expenseOf_after_insert (db : Db) (tx : Transaction) :
  tx_type tx = expense ->
  Accounts.expenseOf (ScheduledPayments.insertTransaction db tx)
    (tx_userId tx) (tx_accountId tx)
  == Accounts.expenseOf db (tx_userId tx) (tx_accountId tx) + tx_amount tx.
Proof.
  intros T. unfold Accounts.expenseOf, ScheduledPayments.insertTransaction.
  cbn [transactions ScheduledPayments.withTransactions].
  rewrite filter_app, sumOf_app. cbn [filter].
  rewrite !String.eqb_refl, T. cbn. ring.
Qed.

(** A pending payment without a linked account is settled, and a second
    settlement is refused; no ledger entry exists afterwards, the entry
    being posted only for a linked account. *)
Lemma settlement_without_account_posts_nothing :
  let first :=
    ScheduledPayments.pay Examples.pendingDb "u1" "sp2" Examples.payNow
      "2025-02-01T10:00:00.000Z" "n1" "x1" in
  let second :=
    ScheduledPayments.pay (snd first) "u1" "sp2" Examples.payNow
      "2025-02-01T10:00:05.000Z" "n2" "x2" in
  (exists res, fst first = Json200 res)
  /\ fst second = Json400 "Este pago ya fue marcado como pagado"
  /\ map sp_status (scheduledPayments (snd second)) = [paid; pending]
  /\ transactions (snd second) = []
  /\ List.length (transactions (snd second)) <> 1%nat.
Proof.
  cbv zeta. split; [eexists; vm_compute; reflexivity|].
  split; [vm_compute; reflexivity|].
  split; [vm_compute; reflexivity|].
  split; [vm_compute; reflexivity|].
  vm_compute. discriminate.
Qed.

(** Settlements run one after the other.  A settlement of a paid or
    cancelled payment is refused with a 400 response and leaves the store
    as it was.  After a settlement of a pending (or overdue) payment, a
    second settlement of the same payment is refused as already paid and
    changes nothing; the two attempts together leave at most one recurrence
    clone and at most one ledger entry, exactly one when the first attempt
    answered 200 for a payment linked to an account. *)
Theorem settlement_happens_once
    (db : Db) (userId id : Id) (body1 body2 : ScheduledPayments.PayBody)
    (now1 now2 : string) (next1 tx1 next2 tx2 : Id) (p : ScheduledPayment) :
  ScheduledPayments.findOwned db userId id = Some p ->
  (terminal (sp_status p) ->
   exists msg,
     ScheduledPayments.pay db userId id body1 now1 next1 tx1 = (Json400 msg, db))
  /\ (sp_status p = pending \/ sp_status p = overdue ->
      let first := ScheduledPayments.pay db userId id body1 now1 next1 tx1 in
      let second :=
        ScheduledPayments.pay (snd first) userId id body2 now2 next2 tx2 in
      second = (Json400 "Este pago ya fue marcado como pagado", snd first)
      /\ (exists rows clones,
            scheduledPayments (snd second) = rows ++ clones
            /\ map sp_id rows = map sp_id (scheduledPayments db)
            /\ (List.length clones <= 1)%nat
            /\ Forall (fun c => sp_status c = pending
                                /\ sp_debtInstallmentId c = None) clones)
      /\ (exists entries,
            transactions (snd second) = transactions db ++ entries
            /\ (List.length entries <= 1)%nat
            /\ Forall (fun t => tx_type t = expense /\ tx_userId t = userId
                                /\ Some (tx_accountId t) = sp_accountId p)
                 entries
            /\ (forall res, fst first = Json200 res ->
                List.length entries
                = if ScheduledPayments.truthy (sp_accountId p) then 1%nat
                  else 0%nat))
      /\ (sp_isRecurring p = false -> exists res, fst first = Json200 res)).
Proof.
  intros F. split.
  - intros [T|T]; unfold ScheduledPayments.pay; rewrite F, T; cbn;
      eexists; reflexivity.
  - intros Hs.
    assert (Hnt : ~ terminal (sp_status p)).
    { intros [T|T]; destruct Hs as [H|H]; congruence. }
    destruct (pay_effect db userId id body1 now1 next1 tx1 p F Hnt)
      as (s & clones & entries & Hst & Hrows & Htx & Hc & Hcl & Hen & Hout).
    cbv zeta in Hrows, Htx, Hout. intros first second.
    fold first in Hrows, Htx, Hout.
    assert (F2 : ScheduledPayments.findOwned (snd first) userId id
                 = Some (ScheduledPayments.applyPatch s p)).
    { unfold ScheduledPayments.findOwned. rewrite Hrows.
      apply find_after_update. exact F. }
    assert (E : second
                = (Json400 "Este pago ya fue marcado como pagado", snd first)).
    { subst second. unfold ScheduledPayments.pay. rewrite F2.
      cbn [sp_status ScheduledPayments.applyPatch]. rewrite Hst.
      reflexivity. }
    rewrite E. cbn [snd]. split; [reflexivity|]. split; [|split].
    + eexists _, clones. split; [exact Hrows|].
      split; [apply map_id_after_update|]. split; assumption.
    + exists entries. split; [exact Htx|]. split.
      * destruct Hout as [(_ & -> & _)|(res & _ & Hl)]; [cbn; lia|].
        rewrite Hl. destruct (ScheduledPayments.truthy _); lia.
      * split.
        -- eapply Forall_impl; [|exact Hen]. cbn. tauto.
        -- intros res Hres. destruct Hout as [(H5 & _)|(res' & _ & Hl)];
             [congruence|exact Hl].
    + intros R. destruct Hout as [(_ & _ & R')|(res & Hres & _)];
        [congruence|eauto].
Qed.

Lemma settlement_happens_once_witness :
  ScheduledPayments.findOwned Examples.billsDb "u1" "sp3"
  = Some Examples.billPending
  /\ sp_status Examples.billPending = pending
  /\ ScheduledPayments.pay
       (snd (ScheduledPayments.pay Examples.billsDb "u1" "sp3" Examples.payNow
               "2025-02-02T08:00:00.000Z" "n1" "x1"))
       "u1" "sp3" Examples.payNow "2025-02-02T08:00:09.000Z" "n2" "x2"
     = (Json400 "Este pago ya fue marcado como pagado",
        snd (ScheduledPayments.pay Examples.billsDb "u1" "sp3" Examples.payNow
               "2025-02-02T08:00:00.000Z" "n1" "x1")).
Proof.
  split; [reflexivity|]. split; [reflexivity|].
  exact (proj1 (proj2
           (settlement_happens_once Examples.billsDb "u1" "sp3" Examples.payNow
              Examples.payNow "2025-02-02T08:00:00.000Z"
              "2025-02-02T08:00:09.000Z" "n1" "x1" "n2" "x2"
              Examples.billPending eq_refl)
           (or_introl eq_refl))).
Defined.

(** ** Overlapping requests *)

(** [pay] is the settlement run statement by statement with no other
    request in between. *)
Lemma pay_runs_the_steps (db : Db) (rq : InFlight.PayRequest) :
  InFlight.run (InFlight.payStep rq) 4 InFlight.PaySelect db
  = (InFlight.PayAnswered
       (fst (ScheduledPayments.pay db (InFlight.pq_userId rq)
               (InFlight.pq_id rq) (InFlight.pq_body rq) (InFlight.pq_now rq)
               (InFlight.pq_nextId rq) (InFlight.pq_txId rq))),
     snd (ScheduledPayments.pay db (InFlight.pq_userId rq)
            (InFlight.pq_id rq) (InFlight.pq_body rq) (InFlight.pq_now rq)
            (InFlight.pq_nextId rq) (InFlight.pq_txId rq))).
Proof.
  unfold ScheduledPayments.pay.
  cbn [InFlight.run InFlight.payStep].
  destruct (ScheduledPayments.findOwned db _ _) as [p|]; [|reflexivity].
  destruct (PaymentStatus_eqb (sp_status p) paid); [reflexivity|].
  destruct (PaymentStatus_eqb (sp_status p) cancelled); [reflexivity|].
  cbn [InFlight.run InFlight.payStep]. cbv zeta.
  fold (InFlight.paidDate rq). fold (InFlight.paidAmount rq p).
  destruct (sp_isRecurring p && _ && _).
  - destruct (ScheduledPayments.getNextDueDate _ _); [|reflexivity].
    cbn [InFlight.run InFlight.payStep]. unfold InFlight.afterNext.
    destruct (ScheduledPayments.truthy (sp_accountId p)); reflexivity.
  - unfold InFlight.afterNext.
    destruct (ScheduledPayments.truthy (sp_accountId p)); reflexivity.
Qed.

(** [cancel] is the cancellation run statement by statement with no other
    request in between. *)
Lemma cancel_runs_the_steps (db : Db) (rq : InFlight.CancelRequest) :
  InFlight.run (InFlight.cancelStep rq) 2 InFlight.CancelSelect db
  = (InFlight.CancelAnswered
       (fst (ScheduledPayments.cancel db (InFlight.cq_userId rq)
               (InFlight.cq_id rq) (InFlight.cq_now rq))),
     snd (ScheduledPayments.cancel db (InFlight.cq_userId rq)
            (InFlight.cq_id rq) (InFlight.cq_now rq))).
Proof.
  unfold ScheduledPayments.cancel. cbn [InFlight.run InFlight.cancelStep].
  destruct (ScheduledPayments.findOwned db _ _) as [p|]; [|reflexivity].
  destruct (PaymentStatus_eqb (sp_status p) paid); reflexivity.
Qed.

(** Two settlements of a payment that is neither paid nor cancelled, the
    second one reading the payment before the first one writes: each
    answers as it would on its own, and the entries and clones of both are
    stored. *)
Lemma overlapping_settlements_each_write
    (db : Db) (rqA rqB : InFlight.PayRequest) (p : ScheduledPayment) :
  InFlight.pq_userId rqB = InFlight.pq_userId rqA ->
  InFlight.pq_id rqB = InFlight.pq_id rqA ->
  ScheduledPayments.findOwned db (InFlight.pq_userId rqA) (InFlight.pq_id rqA)
  = Some p ->
  ~ terminal (sp_status p) ->
  exists entriesA entriesB clonesA clonesB,
    transactions (snd (InFlight.payAlone rqA db)) = transactions db ++ entriesA
    /\ transactions (snd (InFlight.payAlone rqB db)) = transactions db ++ entriesB
    /\ List.length (scheduledPayments (snd (InFlight.payAlone rqA db)))
       = (List.length (scheduledPayments db) + clonesA)%nat
    /\ List.length (scheduledPayments (snd (InFlight.payAlone rqB db)))
       = (List.length (scheduledPayments db) + clonesB)%nat
    /\ let '(a, b, db') := InFlight.payTwice
           [InFlight.First; InFlight.Second; InFlight.First; InFlight.First;
            InFlight.First; InFlight.Second; InFlight.Second; InFlight.Second]
           rqA rqB db in
       a = InFlight.PayAnswered (fst (InFlight.payAlone rqA db))
       /\ b = InFlight.PayAnswered (fst (InFlight.payAlone rqB db))
       /\ transactions db' = transactions db ++ entriesA ++ entriesB
       /\ List.length (scheduledPayments db')
          = (List.length (scheduledPayments db) + clonesA + clonesB)%nat.
Proof.
  intros EU EI F NT.
  assert (E1 : PaymentStatus_eqb (sp_status p) paid = false).
  { destruct (PaymentStatus_eqb (sp_status p) paid) eqn:E; [|reflexivity].
    apply PaymentStatus_eqb_eq in E. exfalso. apply NT. left. exact E. }
  assert (E2 : PaymentStatus_eqb (sp_status p) cancelled = false).
  { destruct (PaymentStatus_eqb (sp_status p) cancelled) eqn:E; [|reflexivity].
    apply PaymentStatus_eqb_eq in E. exfalso. apply NT. right. exact E. }
  unfold InFlight.payTwice, InFlight.payAlone, ScheduledPayments.pay.
  rewrite F, E1, E2. cbv zeta.
  fold (InFlight.paidDate rqA). fold (InFlight.paidAmount rqA p).
  fold (InFlight.paidDate rqB). fold (InFlight.paidAmount rqB p).
  destruct (ScheduledPayments.getNextDueDate (sp_dueDate p)
              (ScheduledPayments.orElse (sp_recurringFrequency p) EmptyString))
    as [due|] eqn:N;
    destruct (ScheduledPayments.truthy (sp_accountId p)) eqn:T;
    destruct (sp_isRecurring p
              && ScheduledPayments.truthy (sp_recurringFrequency p)) eqn:R;
    destruct (ScheduledPayments.pb_createNextRecurrence (InFlight.pq_body rqA))
      eqn:CA;
    destruct (ScheduledPayments.pb_createNextRecurrence (InFlight.pq_body rqB))
      eqn:CB;
    repeat (cbn [andb InFlight.interleave InFlight.payStep fst snd];
            unfold InFlight.afterNext;
            rewrite ?EU, ?EI, ?F, ?E1, ?E2, ?N, ?T, ?R, ?CA, ?CB).
  all: unfold ScheduledPayments.insertTransaction,
         ScheduledPayments.insertPayments, ScheduledPayments.updateWhere,
         ScheduledPayments.withTransactions,
         ScheduledPayments.withScheduledPayments;
       cbn [transactions scheduledPayments];
       repeat first [rewrite length_app | rewrite length_map];
       cbn [List.length].
  all: eexists _, _, _, _.
  all: split; [first [reflexivity | symmetry; apply app_nil_r]|].
  all: split; [first [reflexivity | symmetry; apply app_nil_r]|].
  all: split; [first [reflexivity | symmetry; apply Nat.add_0_r]|].
  all: split; [first [reflexivity | symmetry; apply Nat.add_0_r]|].
  all: split; [reflexivity|]; split; [reflexivity|].
  all: split; [rewrite <- ?app_assoc, ?app_nil_r; reflexivity|].
  all: lia.
Qed.

(** C3. Two settlements of the same pending payment that overlap, the second
    reading the payment before the first has marked it paid, are both
    answered 200: the ledger holds two entries and the table two clones.
    One after the other, the same two requests leave one entry and one
    clone, and the second is refused as already paid. *)
Theorem overlapping_settlements_both_succeed :
  let rqA :=
    InFlight.mkPayRequest "u1" "sp3" Examples.payNow
      "2025-02-02T08:00:00.000Z" "n1" "x1" in
  let rqB :=
    InFlight.mkPayRequest "u1" "sp3" Examples.payNow
      "2025-02-02T08:00:00.020Z" "n2" "x2" in
  (let '(a, b, db') :=
     InFlight.payTwice
       [InFlight.First; InFlight.Second; InFlight.First; InFlight.First;
        InFlight.First; InFlight.Second; InFlight.Second; InFlight.Second]
       rqA rqB Examples.billsDb in
   (exists resA resB,
      a = InFlight.PayAnswered (Json200 resA)
      /\ b = InFlight.PayAnswered (Json200 resB)
      /\ ScheduledPayments.pr_transaction resA = Some "x1"
      /\ ScheduledPayments.pr_transaction resB = Some "x2")
   /\ map (fun t => (tx_id t, tx_type t, tx_accountId t, Qred (tx_amount t)))
        (transactions db')
      = [("x1", expense, "A", 120); ("x2", expense, "A", 120)]
   /\ map (fun p => (sp_id p, sp_status p, sp_dueDate p))
        (scheduledPayments db')
      = [("sp1", paid, "2025-01-05"); ("sp3", paid, "2025-02-10");
         ("n1", pending, "2025-03-10"); ("n2", pending, "2025-03-10")])
  /\ (let '(a, b, db') :=
        InFlight.payTwice
          [InFlight.First; InFlight.First; InFlight.First; InFlight.First;
           InFlight.Second; InFlight.Second; InFlight.Second; InFlight.Second]
          rqA rqB Examples.billsDb in
      (exists resA,
         a = InFlight.PayAnswered (Json200 resA)
         /\ ScheduledPayments.pr_transaction resA = Some "x1")
      /\ b = InFlight.PayAnswered
               (Json400 "Este pago ya fue marcado como pagado")
      /\ map tx_id (transactions db') = ["x1"]
      /\ map (fun p => (sp_id p, sp_status p, sp_dueDate p))
           (scheduledPayments db')
         = [("sp1", paid, "2025-01-05"); ("sp3", paid, "2025-02-10");
            ("n1", pending, "2025-03-10")]).
Proof.
  cbv zeta. split.
  - vm_compute. split; [|split; reflexivity].
    eexists _, _. repeat split.
  - vm_compute. split; [|repeat split].
    eexists. split; reflexivity.
Qed.

(** ** Progress *)

Lemma percentage_clamp (accumulated target : Q) :
  0 < target -> 0 <= accumulated ->
  0 <= Qmin (accumulated / target * 100) 100
  /\ Qmin (accumulated / target * 100) 100 <= 100
  /\ (Qmin (accumulated / target * 100) 100 == 100 <-> target <= accumulated).
Proof.
  intros Ht Ha.
  assert (Hq : accumulated / target * target == accumulated).
  { field. intros E. rewrite E in Ht. apply (Qlt_irrefl 0 Ht). }
  set (q := accumulated / target) in *.
  assert (Hq0 : 0 <= q).
  { apply (Qmult_le_r 0 q target Ht). rewrite Hq. lra. }
  assert (Hq1 : 1 <= q <-> target <= accumulated).
  { rewrite <- (Qmult_le_r 1 q target Ht), Hq. split; intros H; lra. }
  destruct (Q.min_spec (q * 100) 100) as [[Hlt E]|[Hle E]]; rewrite E.
  - split; [lra|]. split; [lra|]. split.
    + intros H. lra.
    + intros H. apply Hq1 in H. lra.
  - split; [lra|]. split; [lra|]. split.
    + intros _. apply Hq1. lra.
    + intros _. reflexivity.
Qed.

Lemma MathRound_nonneg (x : Q) : 0 <= x -> (0 <= MathRound x)%Z.
Proof.
  intros H. unfold MathRound.
  change 0%Z with (Qfloor 0). apply Qfloor_resp_le. lra.
Qed.

Lemma MathRound_near (x : Q) :
  x - (1 # 2) < inject_Z (MathRound x) /\ inject_Z (MathRound x) <= x + (1 # 2).
Proof.
  unfold MathRound.
  pose proof (Qfloor_le (x + (1 # 2))) as L.
  pose proof (Qlt_floor (x + (1 # 2))) as U.
  rewrite inject_Z_plus in U. change (inject_Z 1) with 1 in U.
  split; lra.
Qed.

Lemma percentage_nonneg (accumulated target : Q) :
  0 < target -> 0 <= accumulated -> 0 <= accumulated / target * 100.
Proof.
  intros Ht Ha.
  assert (0 <= accumulated / target).
  { apply Qle_shift_div_l; [exact Ht|]. lra. }
  lra.
Qed.

(** The accumulated amount of a goal is not negative when no ledger amount
    is, which the validators ensure ([amount] is positive). *)
Lemma contributed_nonneg (db : Db) (userId : Id) (goal : Goal) :
  Forall (fun t => 0 <= tx_amount t) (transactions db) ->
  0 <= current (Goals.withProgress db userId goal).
Proof.
  intros H. unfold Goals.withProgress. cbn [current].
  rewrite orNumber_zero. apply sumOf_nonneg.
  unfold Goals.contributions. apply Forall_forall. intros t Ht.
  apply filter_In in Ht. destruct Ht as [Ht _].
  rewrite Forall_forall in H. exact (H t Ht).
Qed.

(** C6, counterexample.  On the dashboard a goal of 1000 with 996
    contributed shows a progress of 100, and a goal of 100 with 250
    contributed shows 250. *)
Lemma dashboard_progress_is_rounded_not_clamped :
  map (fun g => (goal_targetAmount (Dashboard.gp_goal g),
                 Qred (Dashboard.gp_currentAmount g),
                 Dashboard.gp_progress g))
      (Dashboard.goalsWithProgress Examples.goalDb "u1")
  = [(1000, 996, 100%Z); (100, 250, 250%Z)]
  /\ ~ (forall g, In g (Dashboard.goalsWithProgress Examples.goalDb "u1") ->
          (0 <= Dashboard.gp_progress g <= 100)%Z
          /\ (Dashboard.gp_progress g = 100%Z
              <-> goal_targetAmount (Dashboard.gp_goal g)
                  <= Dashboard.gp_currentAmount g)).
Proof.
  split; [vm_compute; reflexivity|].
  intros H.
  destruct (H (Dashboard.goalWithProgress Examples.goalDb "u1" Examples.goalNear))
    as [_ [Hi _]].
  - left. reflexivity.
  - specialize (Hi eq_refl). vm_compute in Hi. apply Hi. reflexivity.
Qed.

Lemma MathRound_mono (x y : Q) : x <= y -> (MathRound x <= MathRound y)%Z.
Proof. intros H. unfold MathRound. apply Qfloor_resp_le. lra. Qed.

Lemma MathRound_whole (n : Z) : MathRound (inject_Z n) = n.
Proof.
  unfold MathRound.
  pose proof (Qfloor_le (inject_Z n + (1 # 2))) as L.
  pose proof (Qlt_floor (inject_Z n + (1 # 2))) as U.
  set (f := Qfloor (inject_Z n + (1 # 2))) in *.
  assert (A : inject_Z f < inject_Z (n + 1)).
  { rewrite inject_Z_plus. change (inject_Z 1) with 1. lra. }
  assert (B : inject_Z (n - 1) < inject_Z f).
  { rewrite inject_Z_plus in U. change (inject_Z 1) with 1 in U.
    unfold Z.sub. rewrite inject_Z_plus. change (inject_Z (- (1))) with (-1).
    lra. }
  rewrite <- Zlt_Qlt in A, B. lia.
Qed.

Lemma percentage_sides (accumulated target : Q) :
  0 < target ->
  (accumulated <= target -> accumulated / target * 100 <= 100)
  /\ (target <= accumulated -> 100 <= accumulated / target * 100).
Proof.
  intros Ht.
  assert (Hq : accumulated / target * target == accumulated).
  { field. intros E. rewrite E in Ht. apply (Qlt_irrefl 0 Ht). }
  set (q := accumulated / target) in *.
  split; intros H.
  - assert (q <= 1).
    { apply (Qmult_le_r q 1 target Ht). rewrite Hq. lra. }
    lra.
  - assert (1 <= q).
    { apply (Qmult_le_r 1 q target Ht). rewrite Hq. lra. }
    lra.
Qed.

(** C6, as the code has it.  In the listings and the detail reads of goals,
    debts and loans the progress of an entity with a positive target and a
    non-negative accumulated amount lies between 0 and 100 and is 100
    exactly when the accumulated amount has reached the target.  The goal
    widget of the dashboard reports a rounded percentage without the cap:
    a whole number that is not negative, at most 100 while the accumulated
    amount is at most the target, and at least 100 once it has reached the
    target.  It lies within 51/100 of the percentage: half a unit for the
    rounding to a whole number, and a hundredth that covers the rounding
    of the double the code rounds, for percentages up to a million. *)
Theorem progress_is_clamped_in_listings (db : Db) (userId : Id) :
  (forall includeCompleted v,
     In v (Goals.list db userId includeCompleted) ->
     0 < goal_targetAmount (entity v) -> 0 <= current v ->
     clamped (goal_targetAmount (entity v)) v)
  /\ (forall id v,
        Goals.get db userId id = Json200 v ->
        0 < goal_targetAmount (entity v) -> 0 <= current v ->
        clamped (goal_targetAmount (entity v)) v)
  /\ (forall status v,
        In v (Debts.list db userId status) ->
        0 < debt_principalAmount (entity v) -> 0 <= current v ->
        clamped (debt_principalAmount (entity v)) v)
  /\ (forall id v,
        Debts.get db userId id = Json200 v ->
        0 < debt_principalAmount (entity v) -> 0 <= current v ->
        clamped (debt_principalAmount (entity v)) v)
  /\ (forall status v,
        In v (Loans.list db userId status) ->
        0 < loan_principalAmount (entity v) -> 0 <= current v ->
        clamped (loan_principalAmount (entity v)) v)
  /\ (forall id v,
        Loans.get db userId id = Json200 v ->
        0 < loan_principalAmount (entity v) -> 0 <= current v ->
        clamped (loan_principalAmount (entity v)) v)
  /\ (forall g,
        In g (Dashboard.goalsWithProgress db userId) ->
        0 < goal_targetAmount (Dashboard.gp_goal g) ->
        0 <= Dashboard.gp_currentAmount g ->
        (0 <= Dashboard.gp_progress g)%Z
        /\ (Dashboard.gp_currentAmount g
            <= goal_targetAmount (Dashboard.gp_goal g) ->
            (Dashboard.gp_progress g <= 100)%Z)
        /\ (goal_targetAmount (Dashboard.gp_goal g)
            <= Dashboard.gp_currentAmount g ->
            (100 <= Dashboard.gp_progress g)%Z)
        /\ (let percentage :=
              Dashboard.gp_currentAmount g
              / goal_targetAmount (Dashboard.gp_goal g) * 100 in
            percentage <= 1000000 ->
            percentage - (51 # 100) < inject_Z (Dashboard.gp_progress g)
            /\ inject_Z (Dashboard.gp_progress g) <= percentage + (51 # 100))).
Proof.
  repeat match goal with |- _ /\ _ => split end.
  - intros inc v Hin. unfold Goals.list in Hin.
    apply in_map_iff in Hin. destruct Hin as (g & <- & _).
    cbn. apply percentage_clamp.
  - intros id v. unfold Goals.get.
    destruct (find _ (goals db)) as [g|]; [|discriminate].
    intros [= <-]. cbn. apply percentage_clamp.
  - intros st v Hin. unfold Debts.list in Hin.
    apply in_map_iff in Hin. destruct Hin as (d & <- & _).
    cbn. apply percentage_clamp.
  - intros id v. unfold Debts.get.
    destruct (find _ (debts db)) as [d|]; [|discriminate].
    intros [= <-]. cbn. apply percentage_clamp.
  - intros st v Hin. unfold Loans.list in Hin.
    apply in_map_iff in Hin. destruct Hin as (l & <- & _).
    cbn. apply percentage_clamp.
  - intros id v. unfold Loans.get.
    destruct (find _ (loans db)) as [l|]; [|discriminate].
    intros [= <-]. cbn. apply percentage_clamp.
  - intros g Hin. unfold Dashboard.goalsWithProgress in Hin.
    apply in_map_iff in Hin. destruct Hin as (g0 & <- & _).
    unfold Dashboard.goalWithProgress.
    cbn [Dashboard.gp_progress Dashboard.gp_goal Dashboard.gp_currentAmount].
    intros Ht Ha.
    split; [apply MathRound_nonneg, percentage_nonneg; assumption|].
    split; [|split].
    + intros H. rewrite <- (MathRound_whole 100). apply MathRound_mono.
      apply (proj1 (percentage_sides _ _ Ht)). exact H.
    + intros H. rewrite <- (MathRound_whole 100). apply MathRound_mono.
      apply (proj2 (percentage_sides _ _ Ht)). exact H.
    + cbv zeta. intros _.
      match goal with
      | |- context [MathRound ?x] => pose proof (MathRound_near x) as [N1 N2]
      end.
      split; lra.
Qed.

Lemma progress_is_clamped_in_listings_witness :
  In (Goals.withProgress Examples.goalDb "u1" Examples.goalNear)
     (Goals.list Examples.goalDb "u1" false)
  /\ clamped 1000 (Goals.withProgress Examples.goalDb "u1" Examples.goalNear).
Proof.
  assert (H : In (Goals.withProgress Examples.goalDb "u1" Examples.goalNear)
                 (Goals.list Examples.goalDb "u1" false)).
  { left. reflexivity. }
  split; [exact H|].
  apply (proj1 (progress_is_clamped_in_listings Examples.goalDb "u1")
           false _ H).
  - reflexivity.
  - vm_compute. discriminate.
Defined.

(** ** The calendar *)
Module JsDateFacts.
Import JsDate.
Local Open Scope Z_scope.

(** A year has [DaysInYear] days. *)
Lemma DayFromYear_succ y : DayFromYear (y + 1) = DayFromYear y + DaysInYear y.
Proof.
  unfold DayFromYear, DaysInYear, isLeap.
  destruct (Z.eqb_spec (y mod 4) 0), (Z.eqb_spec (y mod 100) 0),
    (Z.eqb_spec (y mod 400) 0); cbn [negb];
    Z.to_euclidean_division_equations; lia.
Qed.

Lemma DaysInYear_bounds y : 365 <= DaysInYear y <= 366.
Proof. unfold DaysInYear. destruct (isLeap y); lia. Qed.

Lemma DayFromYear_add y (n : nat) :
  DayFromYear y + 365 * Z.of_nat n <= DayFromYear (y + Z.of_nat n) <= DayFromYear y + 366 * Z.of_nat n.
Proof.
  induction n as [|n IH].
  - replace (y + Z.of_nat 0) with y by (cbn [Z.of_nat]; lia). cbn [Z.of_nat]. lia.
  - replace (y + Z.of_nat (S n)) with ((y + Z.of_nat n) + 1) by lia.
    rewrite DayFromYear_succ. pose proof (DaysInYear_bounds (y + Z.of_nat n)). lia.
Qed.

Lemma DayFromYear_mono y y' : y <= y' -> DayFromYear y <= DayFromYear y'.
Proof.
  intros H. pose proof (DayFromYear_add y (Z.to_nat (y' - y))) as A.
  rewrite Z2Nat.id in A by lia. replace (y + (y' - y)) with y' in A by lia. lia.
Qed.

(** The first guess of [YearFromDay] is within four years of the year. *)
Lemma guess_close d :
  let g := 1970 + (d * 400) / 146097 in
  d - 1460 < DayFromYear g <= d + 1095.
Proof.
  cbv zeta. unfold DayFromYear. Z.to_euclidean_division_equations. lia.
Qed.

Lemma yearDown_spec (fuel : nat) : forall y d,
  DayFromYear (y - Z.of_nat fuel) <= d ->
  let y' := yearDown fuel y d in
  DayFromYear y' <= d /\ y' <= y /\ (y' = y \/ d < DayFromYear (y' + 1)).
Proof.
  induction fuel as [|fuel IH]; intros y d H; cbn [yearDown].
  - replace (y - Z.of_nat 0) with y in H by (cbn [Z.of_nat]; lia). auto with zarith.
  - destruct (Z.leb_spec (DayFromYear y) d) as [L|L].
    + auto with zarith.
    + destruct (IH (y - 1) d) as (A & B & C).
      { replace (y - 1 - Z.of_nat fuel) with (y - Z.of_nat (S fuel)) by lia. exact H. }
      split; [exact A|]. split; [lia|]. right.
      destruct C as [C|C]; [|exact C]. rewrite C.
      replace (y - 1 + 1) with y by lia. exact L.
Qed.

Lemma yearUp_spec (fuel : nat) : forall y d,
  DayFromYear y <= d -> d < DayFromYear (y + Z.of_nat fuel) ->
  let y' := yearUp fuel y d in
  DayFromYear y' <= d < DayFromYear (y' + 1).
Proof.
  induction fuel as [|fuel IH]; intros y d H1 H2; cbn [yearUp].
  - replace (y + Z.of_nat 0) with y in H2 by (cbn [Z.of_nat]; lia). lia.
  - destruct (Z.leb_spec (DayFromYear (y + 1)) d) as [L|L].
    + apply IH; [exact L|].
      replace (y + 1 + Z.of_nat fuel) with (y + Z.of_nat (S fuel)) by lia. exact H2.
    + lia.
Qed.

(** [YearFromDay d] is the year that contains day [d]. *)
Lemma YearFromDay_spec d :
  DayFromYear (YearFromDay d) <= d < DayFromYear (YearFromDay d + 1).
Proof.
  unfold YearFromDay. cbv zeta.
  set (g := 1970 + d * 400 / 146097).
  pose proof (guess_close d) as G. cbv zeta in G. fold g in G.
  pose proof (DayFromYear_add (g - 3) 3) as A3.
  replace (g - 3 + Z.of_nat 3) with g in A3 by lia.
  destruct (yearDown_spec 4 g d) as (A & B & C).
  { pose proof (DayFromYear_mono (g - Z.of_nat 4) (g - 3)). lia. }
  apply yearUp_spec; [exact A|].
  destruct C as [C|C].
  - rewrite C. pose proof (DayFromYear_add g 4). lia.
  - pose proof (DayFromYear_mono (yearDown 4 g d + 1) (yearDown 4 g d + Z.of_nat 4)). lia.
Qed.

Lemma YearFromDay_unique y d :
  DayFromYear y <= d < DayFromYear (y + 1) -> YearFromDay d = y.
Proof.
  intros H. pose proof (YearFromDay_spec d) as S.
  destruct (Z.lt_trichotomy (YearFromDay d) y) as [L|[E|L]]; [|exact E|].
  - pose proof (DayFromYear_mono (YearFromDay d + 1) y). lia.
  - pose proof (DayFromYear_mono (y + 1) (YearFromDay d)). lia.
Qed.

Ltac case_ifs :=
  repeat match goal with
         | |- context [if ?a <? ?b then _ else _] =>
             destruct (Z.ltb_spec a b); try lia
         | |- context [if ?a <=? ?b then _ else _] =>
             destruct (Z.leb_spec a b); try lia
         | |- context [if ?a =? ?b then _ else _] =>
             destruct (Z.eqb_spec a b); try lia
         | H : context [if ?a <? ?b then _ else _] |- _ =>
             destruct (Z.ltb_spec a b); try lia
         | H : context [if ?a <=? ?b then _ else _] |- _ =>
             destruct (Z.leb_spec a b); try lia
         | H : context [if ?a =? ?b then _ else _] |- _ =>
             destruct (Z.eqb_spec a b); try lia
         end.

Lemma Day_MakeDate day tw :
  0 <= tw < msPerDay ->
  Day (MakeDate day tw) = day /\ TimeWithinDay (MakeDate day tw) = tw.
Proof.
  intros H. unfold Day, TimeWithinDay, MakeDate, msPerDay in *.
  Z.to_euclidean_division_equations. lia.
Qed.

Lemma TimeWithinDay_range t : 0 <= TimeWithinDay t < msPerDay.
Proof. unfold TimeWithinDay, msPerDay. apply Z.mod_pos_bound. lia. Qed.

Lemma month_cases m : 0 <= m <= 11 ->
  m = 0 \/ m = 1 \/ m = 2 \/ m = 3 \/ m = 4 \/ m = 5 \/ m = 6 \/ m = 7
  \/ m = 8 \/ m = 9 \/ m = 10 \/ m = 11.
Proof. lia. Qed.

Lemma DaysInMonth_bounds y m : 0 <= m <= 11 -> 28 <= DaysInMonth y m <= 31.
Proof.
  intros H. unfold DaysInMonth, daysBeforeMonth.
  destruct (isLeap y); case_ifs.
Qed.

(** The fields of the day [MakeDay y m dt] are [y], [m] and [dt] when [dt]
    is a day of month [m] of year [y]. *)
Lemma fields_of_MakeDay y m dt tw :
  0 <= m <= 11 -> 1 <= dt <= DaysInMonth y m -> 0 <= tw < msPerDay ->
  let t := MakeDate (MakeDay y m dt) tw in
  YearFromTime t = y /\ MonthFromTime t = m /\ DateFromTime t = dt
  /\ TimeWithinDay t = tw.
Proof.
  intros Hm Hd Htw t.
  destruct (Day_MakeDate (MakeDay y m dt) tw Htw) as [HD HT]. fold t in HD, HT.
  assert (HM : MakeDay y m dt
               = DayFromYear y + daysBeforeMonth (isLeap y) m + dt - 1).
  { unfold MakeDay. rewrite (Z.div_small m 12), (Z.mod_small m 12), Z.add_0_r by lia.
    reflexivity. }
  assert (HR : 0 <= daysBeforeMonth (isLeap y) m + dt - 1 < DaysInYear y
               /\ monthOfYearDay (isLeap y)
                    (daysBeforeMonth (isLeap y) m + dt - 1) = m).
  { unfold DaysInYear, DaysInMonth, monthOfYearDay, daysBeforeMonth in *.
    destruct (isLeap y); case_ifs. }
  destruct HR as [HR1 HR2].
  assert (HY : YearFromTime t = y).
  { unfold YearFromTime. rewrite HD. apply YearFromDay_unique.
    rewrite DayFromYear_succ, HM. lia. }
  assert (HW : DayWithinYear t = daysBeforeMonth (isLeap y) m + dt - 1).
  { unfold DayWithinYear. rewrite HY, HD, HM. lia. }
  assert (HMo : MonthFromTime t = m).
  { unfold MonthFromTime, InLeapYear. rewrite HY, HW. exact HR2. }
  repeat split; try assumption.
  unfold DateFromTime, InLeapYear. rewrite HMo, HY, HW. lia.
Qed.

Lemma DayWithinYear_range t : 0 <= DayWithinYear t < DaysInYear (YearFromTime t).
Proof.
  unfold DayWithinYear, YearFromTime.
  pose proof (YearFromDay_spec (Day t)) as S.
  rewrite DayFromYear_succ in S. lia.
Qed.

Lemma MonthFromTime_range t : 0 <= MonthFromTime t <= 11.
Proof. unfold MonthFromTime, monthOfYearDay. case_ifs. Qed.

Lemma DateFromTime_range t :
  1 <= DateFromTime t <= DaysInMonth (YearFromTime t) (MonthFromTime t).
Proof.
  pose proof (DayWithinYear_range t) as R.
  unfold DateFromTime, MonthFromTime, InLeapYear, DaysInYear, DaysInMonth in *.
  set (w := DayWithinYear t) in *. set (y := YearFromTime t) in *.
  unfold monthOfYearDay, daysBeforeMonth.
  destruct (isLeap y); case_ifs.
Qed.

Lemma MakeDay_normal y m dt :
  MakeDay y m dt = MakeDay (y + m / 12) (m mod 12) dt.
Proof.
  unfold MakeDay.
  rewrite (Z.div_small (m mod 12) 12), Z.mod_mod, Z.add_0_r; try lia.
  apply Z.mod_pos_bound. lia.
Qed.

(** [setMonth] keeps the day of the month when every month has that day. *)
Lemma setMonth_keeps_day t m t' :
  DateFromTime t <= 28 ->
  setMonth t m = Some t' ->
  getFullYear t' = getFullYear t + m / 12
  /\ getMonth t' = m mod 12
  /\ getDate t' = getDate t.
Proof.
  intros H28. unfold setMonth, TimeClip, getFullYear, getMonth, getDate.
  destruct (_ <=? _); [|discriminate]. intros [= <-].
  rewrite MakeDay_normal.
  pose proof (Z.mod_pos_bound m 12 ltac:(lia)) as Hm.
  pose proof (DateFromTime_range t) as Hd.
  pose proof (DaysInMonth_bounds (YearFromTime t + m / 12) (m mod 12) ltac:(lia)).
  pose proof (fields_of_MakeDay (YearFromTime t + m / 12) (m mod 12)
                (DateFromTime t) (TimeWithinDay t) ltac:(lia) ltac:(lia)
                (TimeWithinDay_range t)) as F.
  cbv zeta in F. destruct F as (A & B & C & _). auto.
Qed.

(** [setFullYear] keeps month and day, except on the 29th of February. *)
Lemma setFullYear_keeps_day t y t' :
  ~ (MonthFromTime t = 1 /\ DateFromTime t = 29) ->
  setFullYear t y = Some t' ->
  getFullYear t' = y /\ getMonth t' = getMonth t /\ getDate t' = getDate t.
Proof.
  intros Hn. unfold setFullYear, TimeClip, getFullYear, getMonth, getDate.
  destruct (_ <=? _); [|discriminate]. intros [= <-].
  pose proof (MonthFromTime_range t) as Hm.
  pose proof (DateFromTime_range t) as Hd.
  assert (Hd' : 1 <= DateFromTime t <= DaysInMonth y (MonthFromTime t)).
  { split; [lia|].
    revert Hm Hd Hn. unfold DaysInMonth, daysBeforeMonth.
    generalize (MonthFromTime t) (DateFromTime t). intros m dt.
    destruct (isLeap y), (isLeap (YearFromTime t)); intros; case_ifs. }
  pose proof (fields_of_MakeDay y (MonthFromTime t) (DateFromTime t)
                (TimeWithinDay t) Hm Hd' (TimeWithinDay_range t)) as F.
  cbv zeta in F. destruct F as (A & B & C & _). auto.
Qed.

End JsDateFacts.

(** ** Recurrence and instalments *)

Lemma monthOfYearDay_range (leap : bool) (d : Z) :
  (0 <= JsDate.monthOfYearDay leap d <= 11)%Z.
Proof.
  unfold JsDate.monthOfYearDay.
  repeat match goal with
         | |- context [if ?c then _ else _] => destruct c
         end; lia.
Qed.

(** Writing the day of the month back, shifted by [n], moves the date by [n]
    days. *)
Lemma MakeDay_shift (t n : Z) :
  JsDate.MakeDay (JsDate.YearFromTime t) (JsDate.MonthFromTime t)
    (JsDate.DateFromTime t + n)
  = (JsDate.Day t + n)%Z.
Proof.
  unfold JsDate.MakeDay, JsDate.DateFromTime, JsDate.MonthFromTime,
    JsDate.DayWithinYear, JsDate.InLeapYear.
  pose proof (monthOfYearDay_range
                (JsDate.isLeap (JsDate.YearFromTime t))
                (JsDate.Day t - JsDate.DayFromYear (JsDate.YearFromTime t)))
    as Hm.
  rewrite (Z.div_small _ 12), (Z.mod_small _ 12), Z.add_0_r by lia.
  lia.
Qed.

Lemma setDate_shift (t n : Z) :
  JsDate.setDate t (JsDate.getDate t + n)
  = JsDate.TimeClip (t + n * JsDate.msPerDay).
Proof.
  unfold JsDate.setDate, JsDate.getDate. rewrite MakeDay_shift.
  unfold JsDate.MakeDate, JsDate.Day, JsDate.TimeWithinDay. f_equal.
  pose proof (Z.div_mod t JsDate.msPerDay) as H.
  unfold JsDate.msPerDay in *. lia.
Qed.

(** Weekly and biweekly recurrences move the due date by 7 and 14 days. *)
Lemma weekly_biweekly_add_days (currentDate : string) (t : Z) :
  JsDate.parse currentDate = Some t ->
  ScheduledPayments.getNextDueDate currentDate "weekly"
  = option_map JsDate.toISODate (JsDate.TimeClip (t + 7 * JsDate.msPerDay))
  /\ ScheduledPayments.getNextDueDate currentDate "biweekly"
     = option_map JsDate.toISODate (JsDate.TimeClip (t + 14 * JsDate.msPerDay)).
Proof.
  intros H. unfold ScheduledPayments.getNextDueDate. rewrite H.
  cbn [String.eqb Ascii.eqb Bool.eqb]. rewrite !setDate_shift. split; reflexivity.
Qed.

(** Monthly and quarterly recurrences of a payment due on a day up to the
    28th fall on the same day of the month, one and three calendar months
    later; a yearly recurrence falls on the same day and month of the next
    year, unless the payment is due on the 29th of February. *)
Lemma calendar_recurrences_keep_day (currentDate next : string) (t : Z) :
  JsDate.parse currentDate = Some t ->
  (JsDate.getDate t <= 28)%Z ->
  (ScheduledPayments.getNextDueDate currentDate "monthly" = Some next ->
   exists t', next = JsDate.toISODate t'
     /\ JsDate.getFullYear t'
        = (JsDate.getFullYear t + (JsDate.getMonth t + 1) / 12)%Z
     /\ JsDate.getMonth t' = ((JsDate.getMonth t + 1) mod 12)%Z
     /\ JsDate.getDate t' = JsDate.getDate t)
  /\ (ScheduledPayments.getNextDueDate currentDate "quarterly" = Some next ->
      exists t', next = JsDate.toISODate t'
        /\ JsDate.getFullYear t'
           = (JsDate.getFullYear t + (JsDate.getMonth t + 3) / 12)%Z
        /\ JsDate.getMonth t' = ((JsDate.getMonth t + 3) mod 12)%Z
        /\ JsDate.getDate t' = JsDate.getDate t)
  /\ (ScheduledPayments.getNextDueDate currentDate "yearly" = Some next ->
      exists t', next = JsDate.toISODate t'
        /\ JsDate.getFullYear t' = (JsDate.getFullYear t + 1)%Z
        /\ JsDate.getMonth t' = JsDate.getMonth t
        /\ JsDate.getDate t' = JsDate.getDate t).
Proof.
  intros H H28.
  assert (F : forall d : option Z,
             option_map JsDate.toISODate d = Some next ->
             exists t', d = Some t' /\ next = JsDate.toISODate t').
  { intros [t'|] E; [|discriminate E].
    exists t'. split; [reflexivity|].
    cbn [option_map] in E. congruence. }
  unfold ScheduledPayments.getNextDueDate. rewrite H.
  cbn [String.eqb Ascii.eqb Bool.eqb].
  split; [|split]; intros E; apply F in E; destruct E as (t' & E & ->);
    exists t'; (split; [reflexivity|]).
  - apply (JsDateFacts.setMonth_keeps_day t _ t' H28 E).
  - apply (JsDateFacts.setMonth_keeps_day t _ t' H28 E).
  - apply (JsDateFacts.setFullYear_keeps_day t _ t'); [|exact E].
    unfold JsDate.getDate in H28. lia.
Qed.

(** The recurrences of the specification's examples and a few more. *)
Lemma advance_examples :
  ScheduledPayments.getNextDueDate "2024-02-15" "yearly" = Some "2025-02-15"
  /\ ScheduledPayments.getNextDueDate "2025-01-15" "monthly" = Some "2025-02-15"
  /\ ScheduledPayments.getNextDueDate "2025-11-15" "quarterly" = Some "2026-02-15"
  /\ ScheduledPayments.getNextDueDate "2025-12-28" "weekly" = Some "2026-01-04"
  /\ ScheduledPayments.getNextDueDate "2025-02-20" "biweekly" = Some "2025-03-06"
  /\ ScheduledPayments.getNextDueDate "2025-02-20" "daily" = Some "2025-02-20".
Proof. repeat split; vm_compute; reflexivity. Qed.

(** C7. A monthly recurrence of a payment due on the 31st of January does
    not land in February: [setMonth] keeps the day 31, which overflows the
    28 days of February 2025, and the next due date is the 3rd of March. *)
Theorem monthly_advance_overflows_short_month :
  ScheduledPayments.getNextDueDate "2025-01-31" "monthly" = Some "2025-03-03".
Proof. vm_compute. reflexivity. Qed.

Ltac eval_due_dates :=
  repeat match goal with
         | |- context [ScheduledPayments.installmentDueDate ?a ?b] =>
             let v := eval vm_compute in
                        (ScheduledPayments.installmentDueDate a b) in
             change (ScheduledPayments.installmentDueDate a b) with v
         end.

(** C8. For a debt of 1200 in 12 instalments that starts on 2025-01-01 and
    has no due date, the bulk generation answers 201 with 12 payments and
    appends exactly these to the table in one batch: each of amount 100,
    pending, of high priority, linked to the debt and to no instalment row,
    due on the 1st of the twelve consecutive months from January to December
    2025. *)
Theorem debt_installments_scenario
    (db : Db) (userId debtId : Id) (now : string) (uuid : nat -> Id) (d : Debt) :
  find (fun x => String.eqb (debt_id x) debtId
                 && String.eqb (debt_userId x) userId) (debts db) = Some d ->
  debt_principalAmount d == 1200 ->
  debt_totalInstallments d = Some 12%Z ->
  debt_startDate d = "2025-01-01" ->
  debt_dueDate d = None ->
  exists rows,
    ScheduledPayments.fromDebt db userId debtId now uuid
    = (Json201 rows, ScheduledPayments.insertPayments db rows)
    /\ scheduledPayments (ScheduledPayments.insertPayments db rows)
       = scheduledPayments db ++ rows
    /\ sameOtherTables db (ScheduledPayments.insertPayments db rows)
    /\ List.length rows = 12%nat
    /\ map sp_dueDate rows
       = ["2025-01-01"; "2025-02-01"; "2025-03-01"; "2025-04-01";
          "2025-05-01"; "2025-06-01"; "2025-07-01"; "2025-08-01";
          "2025-09-01"; "2025-10-01"; "2025-11-01"; "2025-12-01"]
    /\ map sp_id rows = map uuid (seq 0 12)
    /\ Forall (fun p => sp_amount p == 100 /\ sp_status p = pending
                        /\ sp_priority p = high
                        /\ sp_debtId p = Some debtId
                        /\ sp_debtInstallmentId p = None
                        /\ sp_userId p = userId
                        /\ sp_isRecurring p = false
                        /\ sp_paidDate p = None /\ sp_paidAmount p = None)
         rows.
Proof.
  intros F Hp Hn Hs Hd.
  assert (Hid : debt_id d = debtId).
  { apply find_some in F. destruct F as [_ F].
    apply andb_true_iff in F. destruct F as [F _].
    apply String.eqb_eq. exact F. }
  assert (Ha : debt_principalAmount d / inject_Z 12 == 100).
  { rewrite Hp. reflexivity. }
  unfold ScheduledPayments.fromDebt. rewrite F, Hn, Hs, Hd, Hid.
  cbn [Z.eqb ScheduledPayments.orString].
  change (Z.to_nat 12) with 12%nat. cbn [seq map]. eval_due_dates.
  cbn [option_map ScheduledPayments.sequence].
  eexists. split; [reflexivity|].
  split; [reflexivity|]. split; [repeat split|].
  split; [reflexivity|]. split; [reflexivity|]. split; [reflexivity|].
  repeat (constructor; [repeat split; exact Ha|]). constructor.
Qed.

Lemma debt_installments_scenario_witness :
  exists rows,
    ScheduledPayments.fromDebt Examples.debtDb "u1" "d1"
      "2025-01-01T12:00:00.000Z" Examples.uuids
    = (Json201 rows, ScheduledPayments.insertPayments Examples.debtDb rows)
    /\ List.length rows = 12%nat.
Proof.
  destruct (debt_installments_scenario Examples.debtDb "u1" "d1"
              "2025-01-01T12:00:00.000Z" Examples.uuids Examples.carLoan
              eq_refl (Qeq_refl 1200) eq_refl eq_refl eq_refl)
    as (rows & H1 & _ & _ & H2 & _).
  exists rows. split; assumption.
Defined.

(** ** Owner scoping *)

Ltac owner_scoped :=
  let x := fresh "x" in
  let H := fresh "H" in
  intros x H;
  repeat match type of H with
         | (if ?b then _ else _) = true => destruct b
         | (_ && _)%bool = true =>
             let H' := fresh "H" in
             apply andb_true_iff in H; destruct H as [H H']
         end;
  assumption.

Section OwnerScoping.
Variable db : Db.
Variable userId : Id.

Lemma incomeOf_owner (accountId : Id) :
  Accounts.incomeOf (ownerRows userId db) userId accountId
  = Accounts.incomeOf db userId accountId.
Proof.
  unfold Accounts.incomeOf. cbn [ownerRows transactions].
  rewrite filter_filter_implies; [reflexivity|owner_scoped].
Qed.

Lemma expenseOf_owner (accountId : Id) :
  Accounts.expenseOf (ownerRows userId db) userId accountId
  = Accounts.expenseOf db userId accountId.
Proof.
  unfold Accounts.expenseOf. cbn [ownerRows transactions].
  rewrite filter_filter_implies; [reflexivity|owner_scoped].
Qed.

Lemma transfersInOf_owner (accountId : Id) :
  Accounts.transfersInOf (ownerRows userId db) userId accountId
  = Accounts.transfersInOf db userId accountId.
Proof.
  unfold Accounts.transfersInOf. cbn [ownerRows transfers].
  rewrite filter_filter_implies; [reflexivity|owner_scoped].
Qed.

Lemma transfersOutOf_owner (accountId : Id) :
  Accounts.transfersOutOf (ownerRows userId db) userId accountId
  = Accounts.transfersOutOf db userId accountId.
Proof.
  unfold Accounts.transfersOutOf. cbn [ownerRows transfers].
  rewrite filter_filter_implies; [reflexivity|owner_scoped].
Qed.

Lemma withBalance_owner (a : Account) :
  Accounts.withBalance (ownerRows userId db) userId a
  = Accounts.withBalance db userId a.
Proof.
  unfold Accounts.withBalance.
  rewrite incomeOf_owner, expenseOf_owner, transfersInOf_owner,
    transfersOutOf_owner. reflexivity.
Qed.

Lemma accounts_list_owner (includeInactive : bool) :
  Accounts.list (ownerRows userId db) userId includeInactive
  = Accounts.list db userId includeInactive.
Proof.
  unfold Accounts.list. cbn [ownerRows accounts].
  rewrite filter_filter_implies.
  - rewrite (map_ext _ _ withBalance_owner). reflexivity.
  - destruct includeInactive; owner_scoped.
Qed.

Lemma accounts_get_owner (accountId : Id) :
  Accounts.get (ownerRows userId db) userId accountId
  = Accounts.get db userId accountId.
Proof.
  unfold Accounts.get. cbn [ownerRows accounts].
  rewrite find_filter_implies by owner_scoped.
  rewrite incomeOf_owner, expenseOf_owner. reflexivity.
Qed.

Lemma calculateAccountBalance_owner (accountId : Id) (initialBalance : Q) :
  Dashboard.calculateAccountBalance (ownerRows userId db) accountId userId
    initialBalance
  = Dashboard.calculateAccountBalance db accountId userId initialBalance.
Proof.
  unfold Dashboard.calculateAccountBalance. cbn [ownerRows transactions].
  rewrite !filter_filter_implies by owner_scoped. reflexivity.
Qed.

Lemma dashboard_accounts_owner (config : Dashboard.Config) :
  Dashboard.accountsList (ownerRows userId db) userId config
  = Dashboard.accountsList db userId config.
Proof.
  unfold Dashboard.accountsList, Dashboard.rawAccounts.
  cbn [ownerRows accounts].
  rewrite filter_filter_implies by owner_scoped.
  apply map_ext. intros a. rewrite calculateAccountBalance_owner.
  reflexivity.
Qed.

Lemma dashboard_summary_owner :
  Dashboard.summaryBalance (ownerRows userId db) userId
  = Dashboard.summaryBalance db userId.
Proof.
  unfold Dashboard.summaryBalance. cbn [ownerRows accounts].
  rewrite filter_filter_implies by owner_scoped.
  generalize 0.
  induction (filter _ (accounts db)) as [|a l IH]; intros q; simpl.
  - reflexivity.
  - rewrite calculateAccountBalance_owner. apply IH.
Qed.

Lemma dashboard_goals_owner :
  Dashboard.goalsWithProgress (ownerRows userId db) userId
  = Dashboard.goalsWithProgress db userId.
Proof.
  unfold Dashboard.goalsWithProgress. cbn [ownerRows goals].
  rewrite filter_filter_implies by owner_scoped.
  apply map_ext. intros g. unfold Dashboard.goalWithProgress.
  cbn [ownerRows transactions].
  rewrite filter_filter_implies by owner_scoped. reflexivity.
Qed.

Lemma periodTotal_owner (type : TxType) (rangeStart rangeEnd : string) :
  Dashboard.periodTotal (ownerRows userId db) userId type rangeStart rangeEnd
  = Dashboard.periodTotal db userId type rangeStart rangeEnd.
Proof.
  unfold Dashboard.periodTotal. cbn [ownerRows transactions].
  rewrite filter_filter_implies by owner_scoped. reflexivity.
Qed.

Lemma debtsSummary_owner :
  Dashboard.debtsSummary (ownerRows userId db) userId
  = Dashboard.debtsSummary db userId.
Proof.
  unfold Dashboard.debtsSummary. cbn [ownerRows transactions debts].
  rewrite filter_filter_implies by owner_scoped.
  erewrite map_ext; [reflexivity|].
  intros d. cbv beta. rewrite filter_filter_implies by owner_scoped.
  reflexivity.
Qed.

Lemma loansSummary_owner :
  Dashboard.loansSummary (ownerRows userId db) userId
  = Dashboard.loansSummary db userId.
Proof.
  unfold Dashboard.loansSummary. cbn [ownerRows transactions loans].
  rewrite filter_filter_implies by owner_scoped.
  erewrite map_ext; [reflexivity|].
  intros l. cbv beta. rewrite filter_filter_implies by owner_scoped.
  reflexivity.
Qed.

Lemma pendingPayments_owner (limit : string) :
  Dashboard.pendingPayments (ownerRows userId db) userId limit
  = Dashboard.pendingPayments db userId limit.
Proof.
  unfold Dashboard.pendingPayments. cbn [ownerRows scheduledPayments].
  rewrite filter_filter_implies by owner_scoped. reflexivity.
Qed.

Lemma contributions_owner (goalId : Id) :
  Goals.contributions (ownerRows userId db) userId goalId
  = Goals.contributions db userId goalId.
Proof.
  unfold Goals.contributions. cbn [ownerRows transactions].
  apply filter_filter_implies. owner_scoped.
Qed.

Lemma goals_list_owner (includeCompleted : bool) :
  Goals.list (ownerRows userId db) userId includeCompleted
  = Goals.list db userId includeCompleted.
Proof.
  unfold Goals.list. cbn [ownerRows goals].
  rewrite filter_filter_implies by owner_scoped.
  apply map_ext. intros g. unfold Goals.withProgress.
  rewrite contributions_owner. reflexivity.
Qed.

Lemma goals_get_owner (goalId : Id) :
  Goals.get (ownerRows userId db) userId goalId = Goals.get db userId goalId.
Proof.
  unfold Goals.get. cbn [ownerRows goals].
  rewrite find_filter_implies by owner_scoped.
  rewrite contributions_owner. reflexivity.
Qed.

Lemma payments_owner (debtId : Id) :
  Debts.payments (ownerRows userId db) userId debtId
  = Debts.payments db userId debtId.
Proof.
  unfold Debts.payments. cbn [ownerRows transactions].
  apply filter_filter_implies. owner_scoped.
Qed.

Lemma debts_list_owner (status : option DebtStatus) :
  Debts.list (ownerRows userId db) userId status
  = Debts.list db userId status.
Proof.
  unfold Debts.list. cbn [ownerRows debts].
  rewrite filter_filter_implies by owner_scoped.
  apply map_ext. intros d. unfold Debts.withPaidAmount.
  rewrite payments_owner. reflexivity.
Qed.

Lemma debts_get_owner (debtId : Id) :
  Debts.get (ownerRows userId db) userId debtId = Debts.get db userId debtId.
Proof.
  unfold Debts.get. cbn [ownerRows debts].
  rewrite find_filter_implies by owner_scoped.
  rewrite payments_owner. reflexivity.
Qed.

Lemma receipts_owner (loanId : Id) :
  Loans.receipts (ownerRows userId db) userId loanId
  = Loans.receipts db userId loanId.
Proof.
  unfold Loans.receipts. cbn [ownerRows transactions].
  apply filter_filter_implies. owner_scoped.
Qed.

Lemma loans_list_owner (status : option LoanStatus) :
  Loans.list (ownerRows userId db) userId status
  = Loans.list db userId status.
Proof.
  unfold Loans.list. cbn [ownerRows loans].
  rewrite filter_filter_implies by owner_scoped.
  apply map_ext. intros l. unfold Loans.withReceivedAmount.
  rewrite receipts_owner. reflexivity.
Qed.

Lemma loans_get_owner (loanId : Id) :
  Loans.get (ownerRows userId db) userId loanId = Loans.get db userId loanId.
Proof.
  unfold Loans.get. cbn [ownerRows loans].
  rewrite find_filter_implies by owner_scoped.
  rewrite receipts_owner. reflexivity.
Qed.

End OwnerScoping.

(** C10. Every derivation computed for an owner reads only that owner's
    rows: on two stores that hold the same rows of the owner, whatever else
    they hold, the account listing and its total, the single-account read,
    the dashboard balances and goal progress, and the listings and detail
    reads of goals, debts and loans, and the period totals, debt, loan and
    pending-payment summaries of the dashboard give the same answers. *)
Theorem derivations_read_only_the_owner_rows (userId : Id) (db1 db2 : Db) :
  ownerRows userId db1 = ownerRows userId db2 ->
  (forall includeInactive,
     Accounts.list db1 userId includeInactive
     = Accounts.list db2 userId includeInactive)
  /\ (forall accountId,
        Accounts.get db1 userId accountId = Accounts.get db2 userId accountId)
  /\ (forall config,
        Dashboard.accountsList db1 userId config
        = Dashboard.accountsList db2 userId config
        /\ Dashboard.totalBalance db1 userId config
           = Dashboard.totalBalance db2 userId config)
  /\ Dashboard.summaryBalance db1 userId = Dashboard.summaryBalance db2 userId
  /\ Dashboard.goalsWithProgress db1 userId
     = Dashboard.goalsWithProgress db2 userId
  /\ (forall includeCompleted,
        Goals.list db1 userId includeCompleted
        = Goals.list db2 userId includeCompleted)
  /\ (forall goalId, Goals.get db1 userId goalId = Goals.get db2 userId goalId)
  /\ (forall status,
        Debts.list db1 userId status = Debts.list db2 userId status)
  /\ (forall debtId, Debts.get db1 userId debtId = Debts.get db2 userId debtId)
  /\ (forall status,
        Loans.list db1 userId status = Loans.list db2 userId status)
  /\ (forall loanId, Loans.get db1 userId loanId = Loans.get db2 userId loanId)
  /\ (forall type rangeStart rangeEnd,
        Dashboard.periodTotal db1 userId type rangeStart rangeEnd
        = Dashboard.periodTotal db2 userId type rangeStart rangeEnd)
  /\ Dashboard.debtsSummary db1 userId = Dashboard.debtsSummary db2 userId
  /\ Dashboard.loansSummary db1 userId = Dashboard.loansSummary db2 userId
  /\ (forall limit,
        Dashboard.pendingPayments db1 userId limit
        = Dashboard.pendingPayments db2 userId limit).
Proof.
  intros E.
  repeat match goal with |- _ /\ _ => split end; intros.
  - rewrite <- (accounts_list_owner db1), <- (accounts_list_owner db2), E.
    reflexivity.
  - rewrite <- (accounts_get_owner db1), <- (accounts_get_owner db2), E.
    reflexivity.
  - unfold Dashboard.totalBalance.
    rewrite <- (dashboard_accounts_owner db1),
      <- (dashboard_accounts_owner db2), E. split; reflexivity.
  - rewrite <- (dashboard_summary_owner db1), <- (dashboard_summary_owner db2), E.
    reflexivity.
  - rewrite <- (dashboard_goals_owner db1), <- (dashboard_goals_owner db2), E.
    reflexivity.
  - rewrite <- (goals_list_owner db1), <- (goals_list_owner db2), E.
    reflexivity.
  - rewrite <- (goals_get_owner db1), <- (goals_get_owner db2), E.
    reflexivity.
  - rewrite <- (debts_list_owner db1), <- (debts_list_owner db2), E.
    reflexivity.
  - rewrite <- (debts_get_owner db1), <- (debts_get_owner db2), E.
    reflexivity.
  - rewrite <- (loans_list_owner db1), <- (loans_list_owner db2), E.
    reflexivity.
  - rewrite <- (loans_get_owner db1), <- (loans_get_owner db2), E.
    reflexivity.
  - rewrite <- (periodTotal_owner db1), <- (periodTotal_owner db2), E.
    reflexivity.
  - rewrite <- (debtsSummary_owner db1), <- (debtsSummary_owner db2), E.
    reflexivity.
  - rewrite <- (loansSummary_owner db1), <- (loansSummary_owner db2), E.
    reflexivity.
  - rewrite <- (pendingPayments_owner db1), <- (pendingPayments_owner db2), E.
    reflexivity.
Qed.

Lemma derivations_read_only_the_owner_rows_witness :
  ownerRows "u1" Examples.sharedDb = ownerRows "u1" Examples.transferDb
  /\ Examples.sharedDb <> Examples.transferDb
  /\ Accounts.list Examples.sharedDb "u1" false
     = Accounts.list Examples.transferDb "u1" false.
Proof.
  split; [reflexivity|]. split; [discriminate|].
  exact (proj1 (derivations_read_only_the_owner_rows "u1" Examples.sharedDb
                  Examples.transferDb eq_refl) false).
Defined.


(** * Further properties of the routes *)

(** ** Dates as strings *)

Lemma digitVal_digitChar (n : Z) :
  JsDate.digitVal (JsDate.digitChar n) = Some (n mod 10)%Z.
Proof.
  unfold JsDate.digitVal, JsDate.digitChar.
  pose proof (Z.mod_pos_bound n 10 ltac:(lia)) as H.
  set (k := (n mod 10)%Z) in *.
  rewrite nat_ascii_embedding by lia.
  replace (Z.of_nat (48 + Z.to_nat k)) with (48 + k)%Z by lia.
  destruct (Z.leb_spec 48 (48 + k)); [|lia].
  destruct (Z.leb_spec (48 + k) 57); [|lia].
  cbn [andb]. f_equal. lia.
Qed.

Lemma isDigit_digitChar (n : Z) :
  Validators.isDigit (JsDate.digitChar n) = true.
Proof.
  unfold Validators.isDigit, JsDate.digitChar.
  pose proof (Z.mod_pos_bound n 10 ltac:(lia)) as H.
  set (k := (n mod 10)%Z) in *.
  rewrite nat_ascii_embedding by lia.
  apply andb_true_iff. split; apply Nat.leb_le; lia.
Qed.

(** A parsed date is the midnight of a day given by year, month and day. *)
Lemma parse_inv (s : string) (t : Z) :
  JsDate.parse s = Some t ->
  exists y m d,
    t = JsDate.MakeDate (JsDate.MakeDay y (m - 1) d) 0
    /\ (1 <= m <= 12)%Z /\ (1 <= d <= 31)%Z.
Proof.
  unfold JsDate.parse.
  destruct (negb _); [discriminate|].
  destruct (negb _); [discriminate|].
  destruct (JsDate.readDigits _ _) as [y|]; [|discriminate].
  destruct (JsDate.readDigits _ _) as [m|]; [|discriminate].
  destruct (JsDate.readDigits _ _) as [d|]; [|discriminate].
  destruct (Z.leb_spec 1 m); [|discriminate].
  destruct (Z.leb_spec m 12); [|discriminate].
  destruct (Z.leb_spec 1 d); [|discriminate].
  destruct (Z.leb_spec d 31); [|discriminate].
  cbn [andb]. intros [= <-]. exists y, m, d. repeat split; assumption.
Qed.

Lemma parse_midnight (s : string) (t : Z) :
  JsDate.parse s = Some t -> t = (JsDate.Day t * JsDate.msPerDay)%Z.
Proof.
  intros H. apply parse_inv in H. destruct H as (y & m & d & -> & _).
  destruct (JsDateFacts.Day_MakeDate (JsDate.MakeDay y (m - 1) d) 0) as [E _].
  { unfold JsDate.msPerDay. lia. }
  rewrite E. unfold JsDate.MakeDate. lia.
Qed.

Lemma parse_toISODate (t : Z) :
  (0 <= JsDate.YearFromTime t <= 9999)%Z ->
  JsDate.parse (JsDate.toISODate t) = Some (JsDate.Day t * JsDate.msPerDay)%Z.
Proof.
  intros HY.
  pose proof (JsDateFacts.MonthFromTime_range t) as HM.
  pose proof (JsDateFacts.DateFromTime_range t) as HD.
  pose proof (JsDateFacts.DaysInMonth_bounds (JsDate.YearFromTime t)
                (JsDate.MonthFromTime t) HM) as HB.
  pose proof (MakeDay_shift t 0) as HS. rewrite !Z.add_0_r in HS.
  unfold JsDate.toISODate, JsDate.isoYear.
  destruct (Z.leb_spec 0 (JsDate.YearFromTime t)); [|lia].
  destruct (Z.leb_spec (JsDate.YearFromTime t) 9999); [|lia].
  cbn [andb JsDate.pad JsDate.padDigits append].
  unfold JsDate.parse.
  cbn [String.length Nat.eqb negb substring String.eqb Ascii.eqb Bool.eqb andb
       JsDate.readDigits].
  rewrite !digitVal_digitChar.
  set (y := JsDate.YearFromTime t) in *.
  set (m := JsDate.MonthFromTime t) in *.
  set (d := JsDate.DateFromTime t) in *.
  replace (10 * (10 * (10 * (10 * 0 + (y / 10 / 10 / 10) mod 10)
                       + (y / 10 / 10) mod 10) + (y / 10) mod 10)
           + y mod 10)%Z with y
    by (Z.to_euclidean_division_equations; lia).
  replace (10 * (10 * 0 + ((m + 1) / 10) mod 10) + (m + 1) mod 10)%Z
    with (m + 1)%Z by (Z.to_euclidean_division_equations; lia).
  replace (10 * (10 * 0 + (d / 10) mod 10) + d mod 10)%Z with d
    by (Z.to_euclidean_division_equations; lia).
  destruct (Z.leb_spec 1 (m + 1)); [|lia].
  destruct (Z.leb_spec (m + 1) 12); [|lia].
  destruct (Z.leb_spec 1 d); [|lia].
  destruct (Z.leb_spec d 31); [|lia].
  cbn [andb]. replace (m + 1 - 1)%Z with m by lia.
  rewrite HS. unfold JsDate.MakeDate. f_equal. lia.
Qed.

Lemma dateRegex_toISODate (t : Z) :
  (0 <= JsDate.YearFromTime t <= 9999)%Z ->
  Validators.dateRegex (JsDate.toISODate t) = true.
Proof.
  intros HY. unfold JsDate.toISODate, JsDate.isoYear.
  destruct (Z.leb_spec 0 (JsDate.YearFromTime t)); [|lia].
  destruct (Z.leb_spec (JsDate.YearFromTime t) 9999); [|lia].
  cbn [andb JsDate.pad JsDate.padDigits append Validators.dateRegex].
  rewrite !isDigit_digitChar. reflexivity.
Qed.

(** X1. The date part of [toISOString] and [new Date] are inverse on the
    days of the years 0 to 9999: the string has the shape the validators
    accept and parses back to the midnight of the same day. *)
Theorem iso_date_round_trip (t : Z) :
  (0 <= JsDate.YearFromTime t <= 9999)%Z ->
  Validators.dateRegex (JsDate.toISODate t) = true
  /\ JsDate.parse (JsDate.toISODate t)
     = Some (JsDate.Day t * JsDate.msPerDay)%Z.
Proof.
  intros H. split; [apply dateRegex_toISODate|apply parse_toISODate]; exact H.
Qed.

Lemma iso_date_round_trip_witness :
  Validators.dateRegex (JsDate.toISODate 1738323000000) = true
  /\ JsDate.parse (JsDate.toISODate 1738323000000) = Some 1738281600000%Z.
Proof.
  apply (iso_date_round_trip 1738323000000). vm_compute. split; discriminate.
Defined.

(** X2. Two weekly advances are one biweekly advance: the due date of the
    clone of a weekly payment, advanced again, is the date a biweekly
    payment would get. *)
Theorem two_weekly_advances_are_one_biweekly
    (currentDate next : string) (t : Z) :
  JsDate.parse currentDate = Some t ->
  (0 <= JsDate.YearFromTime (t + 7 * JsDate.msPerDay) <= 9999)%Z ->
  ScheduledPayments.getNextDueDate currentDate "weekly" = Some next ->
  ScheduledPayments.getNextDueDate next "weekly"
  = ScheduledPayments.getNextDueDate currentDate "biweekly".
Proof.
  intros P HY H.
  destruct (weekly_biweekly_add_days currentDate t P) as [W B].
  rewrite W in H. rewrite B.
  destruct (JsDate.TimeClip (t + 7 * JsDate.msPerDay)) as [t1|] eqn:C;
    [|discriminate].
  cbn [option_map] in H. injection H as <-.
  assert (t1 = (t + 7 * JsDate.msPerDay)%Z) as ->.
  { unfold JsDate.TimeClip in C. destruct (_ <=? _)%Z; congruence. }
  pose proof (parse_toISODate _ HY) as P1.
  assert (D : (JsDate.Day (t + 7 * JsDate.msPerDay) * JsDate.msPerDay
               = t + 7 * JsDate.msPerDay)%Z).
  { pose proof (parse_midnight _ _ P) as M.
    unfold JsDate.Day, JsDate.msPerDay in *.
    Z.to_euclidean_division_equations. lia. }
  rewrite D in P1.
  destruct (weekly_biweekly_add_days _ _ P1) as [W1 _]. rewrite W1.
  do 2 f_equal. lia.
Qed.

Lemma two_weekly_advances_are_one_biweekly_witness :
  ScheduledPayments.getNextDueDate "2025-03-03" "weekly"
  = ScheduledPayments.getNextDueDate "2025-02-24" "biweekly".
Proof.
  apply (two_weekly_advances_are_one_biweekly "2025-02-24" "2025-03-03"
           1740355200000).
  - reflexivity.
  - vm_compute. split; discriminate.
  - vm_compute. reflexivity.
Defined.

(** ** Periods *)

(** The date of a time value depends on its day only. *)
Lemma toISODate_Day (t1 t2 : Z) :
  JsDate.Day t1 = JsDate.Day t2 -> JsDate.toISODate t1 = JsDate.toISODate t2.
Proof.
  intros E.
  unfold JsDate.toISODate, JsDate.DateFromTime, JsDate.MonthFromTime,
    JsDate.InLeapYear, JsDate.DayWithinYear, JsDate.YearFromTime.
  rewrite E. reflexivity.
Qed.

Lemma Day_of_midnight (d : Z) : JsDate.Day (d * JsDate.msPerDay) = d.
Proof. unfold JsDate.Day, JsDate.msPerDay. apply Z.div_mul. lia. Qed.

Lemma Day_nonneg (t : Z) : (0 <= t)%Z -> (0 <= JsDate.Day t)%Z.
Proof.
  intros H. unfold JsDate.Day, JsDate.msPerDay. apply Z.div_pos; lia.
Qed.

Lemma Day_bounds (t : Z) :
  (JsDate.Day t * JsDate.msPerDay <= t
   < JsDate.Day t * JsDate.msPerDay + JsDate.msPerDay)%Z.
Proof.
  unfold JsDate.Day, JsDate.msPerDay. Z.to_euclidean_division_equations. lia.
Qed.

Lemma TimeClip_in_range (t : Z) :
  (- 8640000000000000 <= t <= 8640000000000000)%Z ->
  JsDate.TimeClip t = Some t.
Proof.
  intros H. unfold JsDate.TimeClip.
  destruct (Z.leb_spec (Z.abs t) 8640000000000000); [reflexivity|lia].
Qed.

(** Time values from 1970 on lie in years from 1970 on. *)
Lemma YearFromTime_since_epoch (t : Z) :
  (0 <= t)%Z -> (1970 <= JsDate.YearFromTime t)%Z.
Proof.
  intros H. unfold JsDate.YearFromTime.
  pose proof (JsDateFacts.YearFromDay_spec (JsDate.Day t)) as S.
  pose proof (Day_nonneg t H) as D.
  destruct (Z.le_gt_cases 1970 (JsDate.YearFromDay (JsDate.Day t))) as [L|L];
    [exact L|].
  pose proof (JsDateFacts.DayFromYear_mono
                (JsDate.YearFromDay (JsDate.Day t) + 1) 1970 ltac:(lia)) as M.
  change (JsDate.DayFromYear 1970) with 0%Z in M. lia.
Qed.

(** The first day of month [m] of year [y], as a day number. *)
Lemma MakeDay_first_le (t : Z) :
  (JsDate.MakeDay (JsDate.YearFromTime t) (JsDate.MonthFromTime t) 1
   <= JsDate.Day t)%Z
  /\ (JsDate.DayFromYear (JsDate.YearFromTime t)
      <= JsDate.MakeDay (JsDate.YearFromTime t) (JsDate.MonthFromTime t) 1)%Z.
Proof.
  pose proof (MakeDay_shift t (1 - JsDate.DateFromTime t)) as S.
  replace (JsDate.DateFromTime t + (1 - JsDate.DateFromTime t))%Z with 1%Z
    in S by lia.
  pose proof (JsDateFacts.DateFromTime_range t) as R.
  pose proof (JsDateFacts.MonthFromTime_range t) as M.
  split; [lia|].
  unfold JsDate.MakeDay.
  rewrite (Z.div_small _ 12), (Z.mod_small _ 12), Z.add_0_r by lia.
  unfold JsDate.daysBeforeMonth.
  destruct (JsDate.isLeap _); JsDateFacts.case_ifs.
Qed.

Lemma MakeFullYear_since_epoch (y : Z) :
  (1970 <= y)%Z -> Periods.MakeFullYear y = y.
Proof.
  intros H. unfold Periods.MakeFullYear.
  destruct (Z.leb_spec 0 y), (Z.leb_spec y 99); cbn [andb]; lia.
Qed.

Lemma getDateRange_today (now : Z) :
  (0 <= now <= 8640000000000000)%Z ->
  Periods.getDateRange "today" now
  = Some (Periods.mkDateRange (JsDate.toISODate now) (JsDate.toISODate now)).
Proof.
  intros H. unfold Periods.getDateRange.
  cbn [String.eqb Ascii.eqb Bool.eqb].
  unfold Periods.setHours0, JsDate.MakeDate.
  pose proof (Day_bounds now) as B. pose proof (Day_nonneg now ltac:(lia)) as D.
  rewrite TimeClip_in_range by (unfold JsDate.msPerDay in *; lia).
  cbn [option_map]. f_equal. f_equal.
  apply toISODate_Day. rewrite Z.add_0_r. apply Day_of_midnight.
Qed.

(** X3. For a clock reading from 1970 on, the period [today] is the single
    day of the reading and the period [week] starts exactly seven days
    before it. *)
Theorem date_range_today_and_week (now : Z) :
  (0 <= now <= 8640000000000000)%Z ->
  Periods.getDateRange "today" now
  = Some (Periods.mkDateRange (JsDate.toISODate now) (JsDate.toISODate now))
  /\ Periods.getDateRange "week" now
     = Some (Periods.mkDateRange
               (JsDate.toISODate (now - 7 * JsDate.msPerDay))
               (JsDate.toISODate now)).
Proof.
  intros H. split; [apply getDateRange_today; exact H|].
  unfold Periods.getDateRange. cbn [String.eqb Ascii.eqb Bool.eqb].
  change (JsDate.getDate now - 7)%Z with (JsDate.getDate now + (-7))%Z.
  rewrite setDate_shift.
  rewrite TimeClip_in_range by (unfold JsDate.msPerDay; lia).
  cbn [option_map]. reflexivity.
Qed.

Lemma date_range_today_and_week_witness :
  Periods.getDateRange "today" 1738323000000
  = Some (Periods.mkDateRange (JsDate.toISODate 1738323000000)
                              (JsDate.toISODate 1738323000000)).
Proof.
  apply (date_range_today_and_week 1738323000000). lia.
Defined.

(** X4. For a clock reading from 1970 on, the period [month], and any
    period name the route does not know, starts on the first day of the
    month of the reading, and the period [year] on the first of January of
    its year. *)
Theorem date_range_month_and_year (period : string) (now : Z) :
  (0 <= now <= 8640000000000000)%Z ->
  (String.eqb period "today" || String.eqb period "week"
   || String.eqb period "quarter" = false)%bool ->
  exists start,
    Periods.getDateRange period now
    = Some (Periods.mkDateRange (JsDate.toISODate start)
                                (JsDate.toISODate now))
    /\ JsDate.getFullYear start = JsDate.getFullYear now
    /\ JsDate.getMonth start
       = (if String.eqb period "year" then 0%Z else JsDate.getMonth now)
    /\ JsDate.getDate start = 1%Z.
Proof.
  intros H P.
  apply orb_false_iff in P. destruct P as [P P3].
  apply orb_false_iff in P. destruct P as [P1 P2].
  pose proof (YearFromTime_since_epoch now ltac:(lia)) as Y.
  pose proof (JsDateFacts.MonthFromTime_range now) as M.
  pose proof (MakeDay_first_le now) as [F1 F2].
  pose proof (Day_bounds now) as B.
  pose proof (JsDateFacts.DayFromYear_mono 1970 (JsDate.YearFromTime now) Y)
    as Y0. change (JsDate.DayFromYear 1970) with 0%Z in Y0.
  assert (J : JsDate.MakeDay (JsDate.YearFromTime now) 0 1
              = JsDate.DayFromYear (JsDate.YearFromTime now)).
  { unfold JsDate.MakeDay, JsDate.daysBeforeMonth. cbv zeta.
    change (0 / 12)%Z with 0%Z. change (0 mod 12)%Z with 0%Z.
    change (0 <=? 0)%Z with true. cbv iota.
    replace (JsDate.YearFromTime now + 0)%Z with (JsDate.YearFromTime now)
      by lia.
    lia. }
  unfold Periods.getDateRange. rewrite P1, P2, P3.
  unfold Periods.newDate, JsDate.getFullYear, JsDate.getMonth, JsDate.getDate.
  rewrite MakeFullYear_since_epoch by exact Y.
  destruct (String.eqb period "year") eqn:PY.
  - apply String.eqb_eq in PY. subst period.
    cbn [String.eqb Ascii.eqb Bool.eqb].
    rewrite TimeClip_in_range
      by (unfold JsDate.MakeDate, JsDate.msPerDay in *; lia).
    cbn [option_map]. eexists. split; [reflexivity|].
    pose proof (JsDateFacts.fields_of_MakeDay (JsDate.YearFromTime now) 0 1 0
                  ltac:(lia)
                  ltac:(pose proof (JsDateFacts.DaysInMonth_bounds
                                      (JsDate.YearFromTime now) 0 ltac:(lia));
                        lia)
                  ltac:(unfold JsDate.msPerDay; lia)) as F.
    cbv zeta in F. destruct F as (A & B' & C & _). auto.
  - assert (E : (if String.eqb period "month"
                 then JsDate.TimeClip
                        (JsDate.MakeDate
                           (JsDate.MakeDay (JsDate.YearFromTime now)
                              (JsDate.MonthFromTime now) 1) 0)
                 else JsDate.TimeClip
                        (JsDate.MakeDate
                           (JsDate.MakeDay (JsDate.YearFromTime now)
                              (JsDate.MonthFromTime now) 1) 0))
                = Some (JsDate.MakeDate
                          (JsDate.MakeDay (JsDate.YearFromTime now)
                             (JsDate.MonthFromTime now) 1) 0)).
    { destruct (String.eqb period "month");
        apply TimeClip_in_range;
        unfold JsDate.MakeDate, JsDate.msPerDay in *; lia. }
    rewrite E. cbn [option_map]. eexists. split; [reflexivity|].
    pose proof (JsDateFacts.fields_of_MakeDay (JsDate.YearFromTime now)
                  (JsDate.MonthFromTime now) 1 0 M
                  ltac:(pose proof (JsDateFacts.DaysInMonth_bounds
                                      (JsDate.YearFromTime now)
                                      (JsDate.MonthFromTime now) M); lia)
                  ltac:(unfold JsDate.msPerDay; lia)) as F.
    cbv zeta in F. destruct F as (A & B' & C & _). auto.
Qed.

Lemma date_range_month_and_year_witness :
  exists start,
    Periods.getDateRange "year" 1738323000000
    = Some (Periods.mkDateRange (JsDate.toISODate start)
                                (JsDate.toISODate 1738323000000))
    /\ JsDate.getFullYear start = JsDate.getFullYear 1738323000000
    /\ JsDate.getMonth start = 0%Z
    /\ JsDate.getDate start = 1%Z.
Proof.
  apply (date_range_month_and_year "year" 1738323000000);
    [lia|reflexivity].
Defined.

(** ** Calendar steps *)

Lemma YearFromDay_between (lo hi d : Z) :
  (JsDate.DayFromYear lo <= d < JsDate.DayFromYear hi)%Z ->
  (lo <= JsDate.YearFromDay d < hi)%Z.
Proof.
  intros H. pose proof (JsDateFacts.YearFromDay_spec d) as S. split.
  - destruct (Z.le_gt_cases lo (JsDate.YearFromDay d)) as [L|L]; [exact L|].
    pose proof (JsDateFacts.DayFromYear_mono (JsDate.YearFromDay d + 1) lo
                  ltac:(lia)). lia.
  - destruct (Z.lt_ge_cases (JsDate.YearFromDay d) hi) as [L|L]; [exact L|].
    pose proof (JsDateFacts.DayFromYear_mono hi (JsDate.YearFromDay d)
                  ltac:(lia)). lia.
Qed.

(** The day number of a time value, from its calendar fields. *)
Lemma Day_fields (t : Z) :
  JsDate.Day t
  = (JsDate.DayFromYear (JsDate.YearFromTime t)
     + JsDate.daysBeforeMonth (JsDate.isLeap (JsDate.YearFromTime t))
         (JsDate.MonthFromTime t)
     + JsDate.DateFromTime t - 1)%Z.
Proof.
  unfold JsDate.DateFromTime, JsDate.DayWithinYear, JsDate.InLeapYear. lia.
Qed.

Lemma MakeDay_in_year (y m d : Z) :
  (0 <= m <= 11)%Z ->
  JsDate.MakeDay y m d
  = (JsDate.DayFromYear y + JsDate.daysBeforeMonth (JsDate.isLeap y) m
     + d - 1)%Z.
Proof.
  intros H. unfold JsDate.MakeDay.
  rewrite (Z.div_small m 12), (Z.mod_small m 12), Z.add_0_r by lia.
  reflexivity.
Qed.

Lemma MakeDay_next_year (y m d : Z) :
  (12 <= m <= 23)%Z ->
  JsDate.MakeDay y m d
  = (JsDate.DayFromYear (y + 1)
     + JsDate.daysBeforeMonth (JsDate.isLeap (y + 1)) (m - 12) + d - 1)%Z.
Proof.
  intros H. unfold JsDate.MakeDay.
  replace (m / 12)%Z with 1%Z by (Z.to_euclidean_division_equations; lia).
  replace (m mod 12)%Z with (m - 12)%Z
    by (Z.to_euclidean_division_equations; lia).
  reflexivity.
Qed.

Lemma MakeDay_previous_year (y m d : Z) :
  (-12 <= m <= -1)%Z ->
  JsDate.MakeDay y m d
  = (JsDate.DayFromYear (y - 1)
     + JsDate.daysBeforeMonth (JsDate.isLeap (y - 1)) (m + 12) + d - 1)%Z.
Proof.
  intros H. unfold JsDate.MakeDay.
  replace (m / 12)%Z with (-1)%Z by (Z.to_euclidean_division_equations; lia).
  replace (m mod 12)%Z with (m + 12)%Z
    by (Z.to_euclidean_division_equations; lia).
  replace (y + -1)%Z with (y - 1)%Z by lia.
  reflexivity.
Qed.

(** Evaluates the month tables of a goal whose months and leap flags are
    constants. *)
Ltac eval_calendar :=
  repeat match goal with
         | |- context [JsDate.daysBeforeMonth ?l ?m] =>
             let v := eval vm_compute in (JsDate.daysBeforeMonth l m) in
             change (JsDate.daysBeforeMonth l m) with v
         | |- context [(?a =? ?b)%Z] =>
             let v := eval vm_compute in (a =? b)%Z in
             change (a =? b)%Z with v
         end;
  cbv iota.

Ltac each_month m M :=
  destruct (JsDateFacts.month_cases m M)
    as [?E|[?E|[?E|[?E|[?E|[?E|[?E|[?E|[?E|[?E|[?E|?E]]]]]]]]]]];
  subst m.

(** Moving day [d] of month [m] forward by one to three months moves it
    forward, by less than two years. *)
Lemma month_forward_table (y m d k : Z) :
  (0 <= m <= 11)%Z -> (1 <= k <= 3)%Z ->
  (1 <= d <= JsDate.DaysInMonth y m)%Z ->
  (JsDate.DayFromYear y + JsDate.daysBeforeMonth (JsDate.isLeap y) m + d - 1
   < JsDate.MakeDay y (m + k) d
   < JsDate.DayFromYear (y + 2))%Z.
Proof.
  intros M K.
  assert (Hk : (k = 1 \/ k = 2 \/ k = 3)%Z) by lia. clear K.
  pose proof (JsDateFacts.DayFromYear_succ y) as S1.
  pose proof (JsDateFacts.DayFromYear_succ (y + 1)) as S2.
  replace (y + 1 + 1)%Z with (y + 2)%Z in S2 by lia.
  revert S1 S2. unfold JsDate.DaysInMonth, JsDate.DaysInYear.
  each_month m M; destruct Hk as [E|[E|E]]; subst k;
    first [rewrite MakeDay_in_year by lia
          |rewrite MakeDay_next_year by lia];
    destruct (JsDate.isLeap y), (JsDate.isLeap (y + 1));
    eval_calendar; intros; lia.
Qed.

(** Moving it back by three months moves it back, by less than a year and
    a half. *)
Lemma month_back_table (y m d : Z) :
  (0 <= m <= 11)%Z ->
  (1 <= d <= JsDate.DaysInMonth y m)%Z ->
  (JsDate.DayFromYear (y - 1)
   <= JsDate.MakeDay y (m - 3) d
   < JsDate.DayFromYear y + JsDate.daysBeforeMonth (JsDate.isLeap y) m
     + d - 1)%Z.
Proof.
  intros M.
  pose proof (JsDateFacts.DayFromYear_succ (y - 1)) as S1.
  replace (y - 1 + 1)%Z with y in S1 by lia.
  revert S1. unfold JsDate.DaysInMonth, JsDate.DaysInYear.
  each_month m M;
    first [rewrite MakeDay_in_year by lia
          |rewrite MakeDay_previous_year by lia];
    destruct (JsDate.isLeap y), (JsDate.isLeap (y - 1));
    eval_calendar; intros; lia.
Qed.

(** The same month and day of the next year is a later day. *)
Lemma year_forward_table (y m d : Z) :
  (0 <= m <= 11)%Z ->
  (1 <= d <= JsDate.DaysInMonth y m)%Z ->
  (JsDate.DayFromYear y + JsDate.daysBeforeMonth (JsDate.isLeap y) m + d - 1
   < JsDate.MakeDay (y + 1) m d
   < JsDate.DayFromYear (y + 2))%Z.
Proof.
  intros M.
  pose proof (JsDateFacts.DayFromYear_succ y) as S1.
  pose proof (JsDateFacts.DayFromYear_succ (y + 1)) as S2.
  replace (y + 1 + 1)%Z with (y + 2)%Z in S2 by lia.
  revert S1 S2. unfold JsDate.DaysInMonth, JsDate.DaysInYear.
  each_month m M;
    rewrite MakeDay_in_year by lia;
    destruct (JsDate.isLeap y), (JsDate.isLeap (y + 1));
    eval_calendar; intros; lia.
Qed.

Lemma month_forward_bounds (t k : Z) :
  (1 <= k <= 3)%Z ->
  (JsDate.Day t
   < JsDate.MakeDay (JsDate.YearFromTime t) (JsDate.MonthFromTime t + k)
       (JsDate.DateFromTime t)
   < JsDate.DayFromYear (JsDate.YearFromTime t + 2))%Z.
Proof.
  intros K. rewrite (Day_fields t) at 1.
  apply month_forward_table;
    [apply JsDateFacts.MonthFromTime_range|exact K
    |apply JsDateFacts.DateFromTime_range].
Qed.

Lemma month_back_bounds (t : Z) :
  (JsDate.DayFromYear (JsDate.YearFromTime t - 1)
   <= JsDate.MakeDay (JsDate.YearFromTime t) (JsDate.MonthFromTime t - 3)
        (JsDate.DateFromTime t)
   < JsDate.Day t)%Z.
Proof.
  rewrite (Day_fields t) at 1.
  apply month_back_table;
    [apply JsDateFacts.MonthFromTime_range
    |apply JsDateFacts.DateFromTime_range].
Qed.

Lemma year_forward_bounds (t : Z) :
  (JsDate.Day t
   < JsDate.MakeDay (JsDate.YearFromTime t + 1) (JsDate.MonthFromTime t)
       (JsDate.DateFromTime t)
   < JsDate.DayFromYear (JsDate.YearFromTime t + 2))%Z.
Proof.
  rewrite (Day_fields t) at 1.
  apply year_forward_table;
    [apply JsDateFacts.MonthFromTime_range
    |apply JsDateFacts.DateFromTime_range].
Qed.

Lemma DayFromYear_0 : JsDate.DayFromYear 0 = (-719528)%Z.
Proof. reflexivity. Qed.

Lemma DayFromYear_10000 : JsDate.DayFromYear 10000 = 2932897%Z.
Proof. reflexivity. Qed.

(** A day of the years 0 to 9999 is a date, and its ISO string reads back
    as that day. *)
Lemma day_as_date (lo hi day tw : Z) :
  (0 <= lo)%Z -> (hi <= 10000)%Z ->
  (JsDate.DayFromYear lo <= day < JsDate.DayFromYear hi)%Z ->
  (0 <= tw < JsDate.msPerDay)%Z ->
  JsDate.TimeClip (JsDate.MakeDate day tw) = Some (JsDate.MakeDate day tw)
  /\ JsDate.parse (JsDate.toISODate (JsDate.MakeDate day tw))
     = Some (day * JsDate.msPerDay)%Z.
Proof.
  intros Hlo Hhi Hd Htw.
  pose proof (JsDateFacts.DayFromYear_mono 0 lo Hlo) as L.
  pose proof (JsDateFacts.DayFromYear_mono hi 10000 Hhi) as U.
  rewrite DayFromYear_0 in L. rewrite DayFromYear_10000 in U.
  destruct (JsDateFacts.Day_MakeDate day tw Htw) as [ED _].
  split.
  - apply TimeClip_in_range. unfold JsDate.MakeDate, JsDate.msPerDay in *. lia.
  - rewrite parse_toISODate.
    + rewrite ED. reflexivity.
    + unfold JsDate.YearFromTime. rewrite ED.
      pose proof (YearFromDay_between lo hi day Hd). lia.
Qed.

Lemma midnight_TimeWithinDay (t : Z) :
  t = (JsDate.Day t * JsDate.msPerDay)%Z -> JsDate.TimeWithinDay t = 0%Z.
Proof.
  unfold JsDate.Day, JsDate.TimeWithinDay, JsDate.msPerDay.
  Z.to_euclidean_division_equations. lia.
Qed.

(** A date moved to a later day within two years reads back as a later
    date. *)
Lemma later_day_is_later_date (t day : Z) :
  t = (JsDate.Day t * JsDate.msPerDay)%Z ->
  (0 <= JsDate.YearFromTime t <= 9998)%Z ->
  (JsDate.Day t < day < JsDate.DayFromYear (JsDate.YearFromTime t + 2))%Z ->
  exists next t',
    option_map JsDate.toISODate
      (JsDate.TimeClip (JsDate.MakeDate day (JsDate.TimeWithinDay t)))
    = Some next
    /\ JsDate.parse next = Some t' /\ (t < t')%Z.
Proof.
  intros Hm Hy Hd.
  rewrite (midnight_TimeWithinDay t Hm).
  pose proof (JsDateFacts.YearFromDay_spec (JsDate.Day t)) as S.
  fold (JsDate.YearFromTime t) in S.
  destruct (day_as_date (JsDate.YearFromTime t) (JsDate.YearFromTime t + 2)
              day 0) as [C P]; try lia.
  { unfold JsDate.msPerDay. lia. }
  rewrite C. cbn [option_map].
  exists (JsDate.toISODate (JsDate.MakeDate day 0)), (day * JsDate.msPerDay)%Z.
  split; [reflexivity|]. split; [exact P|].
  rewrite Hm at 1. unfold JsDate.msPerDay. lia.
Qed.

(** X5. Every recurrence moves the due date forward: for a payment due on a
    date of the years 0 to 9998, the next due date of each of the five
    frequencies is a date strictly after the current one. *)
Theorem next_due_date_is_later (currentDate frequency : string) (t : Z) :
  JsDate.parse currentDate = Some t ->
  (0 <= JsDate.YearFromTime t <= 9998)%Z ->
  In frequency ["weekly"; "biweekly"; "monthly"; "quarterly"; "yearly"] ->
  exists next t',
    ScheduledPayments.getNextDueDate currentDate frequency = Some next
    /\ JsDate.parse next = Some t' /\ (t < t')%Z.
Proof.
  intros P Hy Hf.
  pose proof (parse_midnight _ _ P) as Hm.
  pose proof (JsDateFacts.YearFromDay_spec (JsDate.Day t)) as S.
  fold (JsDate.YearFromTime t) in S.
  pose proof (JsDateFacts.DayFromYear_succ (JsDate.YearFromTime t + 1)) as S2.
  replace (JsDate.YearFromTime t + 1 + 1)%Z with (JsDate.YearFromTime t + 2)%Z
    in S2 by lia.
  pose proof (JsDateFacts.DaysInYear_bounds (JsDate.YearFromTime t + 1)) as B.
  unfold ScheduledPayments.getNextDueDate. rewrite P.
  cbn [In] in Hf.
  destruct Hf as [<-|[<-|[<-|[<-|[<-|[]]]]]];
    cbn [String.eqb Ascii.eqb Bool.eqb];
    unfold JsDate.setDate, JsDate.setMonth, JsDate.setFullYear,
      JsDate.getDate, JsDate.getMonth, JsDate.getFullYear.
  - rewrite MakeDay_shift. apply later_day_is_later_date; trivial; lia.
  - rewrite MakeDay_shift. apply later_day_is_later_date; trivial; lia.
  - apply later_day_is_later_date; trivial.
    apply month_forward_bounds; lia.
  - apply later_day_is_later_date; trivial.
    apply month_forward_bounds; lia.
  - apply later_day_is_later_date; trivial.
    apply year_forward_bounds.
Qed.

Lemma next_due_date_is_later_witness :
  exists next t',
    ScheduledPayments.getNextDueDate "2025-01-31" "monthly" = Some next
    /\ JsDate.parse next = Some t' /\ (1738281600000 < t')%Z.
Proof.
  apply (next_due_date_is_later "2025-01-31" "monthly" 1738281600000).
  - reflexivity.
  - vm_compute. split; discriminate.
  - cbn [In]. auto.
Defined.

(** ** The periods of the dashboard *)

Lemma DayFromYear_10000_ms :
  (JsDate.DayFromYear 10000 * JsDate.msPerDay = 253402300800000)%Z.
Proof. reflexivity. Qed.

(** The range that starts on day [day], at most a year before the year of
    [now] and not after [now], is a range of two dates in order. *)
Lemma range_from_day (now day tw : Z) :
  (0 <= now)%Z -> (JsDate.YearFromTime now <= 9999)%Z ->
  (JsDate.DayFromYear (JsDate.YearFromTime now - 1) <= day <= JsDate.Day now)%Z ->
  (0 <= tw < JsDate.msPerDay)%Z ->
  exists r s e,
    option_map
      (fun t => Periods.mkDateRange (JsDate.toISODate t) (JsDate.toISODate now))
      (JsDate.TimeClip (JsDate.MakeDate day tw)) = Some r
    /\ Periods.range_end r = JsDate.toISODate now
    /\ JsDate.parse (Periods.range_start r) = Some s
    /\ JsDate.parse (Periods.range_end r) = Some e
    /\ e = (JsDate.Day now * JsDate.msPerDay)%Z
    /\ (JsDate.DayFromYear (JsDate.YearFromTime now - 1) * JsDate.msPerDay
        <= s <= e)%Z
    /\ (e <= now < e + JsDate.msPerDay)%Z.
Proof.
  intros H0 HY HD HT.
  pose proof (YearFromTime_since_epoch now H0) as Y.
  pose proof (JsDateFacts.YearFromDay_spec (JsDate.Day now)) as S.
  fold (JsDate.YearFromTime now) in S.
  destruct (day_as_date (JsDate.YearFromTime now - 1)
              (JsDate.YearFromTime now + 1) day tw) as [C P]; try lia.
  rewrite C. cbn [option_map].
  eexists. exists (day * JsDate.msPerDay)%Z, (JsDate.Day now * JsDate.msPerDay)%Z.
  split; [reflexivity|]. cbn [Periods.range_start Periods.range_end].
  split; [reflexivity|].
  split; [exact P|]. split; [apply parse_toISODate; lia|].
  split; [reflexivity|].
  pose proof (Day_bounds now). unfold JsDate.msPerDay in *. lia.
Qed.

(** X6. Whatever the period asked for, the range the dashboard computes for
    a clock reading of the years 1970 to 9999 is a pair of dates in order:
    the end is the day of the reading, and the start is never after the
    end nor before the first day of the year before the reading. *)
Theorem date_range_start_not_after_end (period : string) (now : Z) :
  (0 <= now)%Z -> (JsDate.YearFromTime now <= 9999)%Z ->
  exists r s e,
    Periods.getDateRange period now = Some r
    /\ Periods.range_end r = JsDate.toISODate now
    /\ JsDate.parse (Periods.range_start r) = Some s
    /\ JsDate.parse (Periods.range_end r) = Some e
    /\ e = (JsDate.Day now * JsDate.msPerDay)%Z
    /\ (JsDate.DayFromYear (JsDate.YearFromTime now - 1) * JsDate.msPerDay
        <= s <= e)%Z
    /\ (e <= now < e + JsDate.msPerDay)%Z.
Proof.
  intros H0 HY.
  pose proof (YearFromTime_since_epoch now H0) as Y.
  pose proof (JsDateFacts.YearFromDay_spec (JsDate.Day now)) as S.
  fold (JsDate.YearFromTime now) in S.
  pose proof (JsDateFacts.DayFromYear_mono (JsDate.YearFromTime now - 1)
                (JsDate.YearFromTime now) ltac:(lia)) as Y1.
  pose proof (JsDateFacts.DayFromYear_succ (JsDate.YearFromTime now - 1)) as Y2.
  replace (JsDate.YearFromTime now - 1 + 1)%Z with (JsDate.YearFromTime now)
    in Y2 by lia.
  pose proof (JsDateFacts.DaysInYear_bounds (JsDate.YearFromTime now - 1)) as Y3.
  pose proof (MakeDay_first_le now) as [F1 F2].
  pose proof (month_back_bounds now) as Q.
  pose proof (JsDateFacts.TimeWithinDay_range now) as T.
  assert (Z0 : (0 <= 0 < JsDate.msPerDay)%Z) by (unfold JsDate.msPerDay; lia).
  unfold Periods.getDateRange. cbv zeta.
  unfold Periods.setHours0, Periods.newDate, JsDate.setDate, JsDate.setMonth,
    JsDate.getFullYear, JsDate.getMonth, JsDate.getDate.
  rewrite MakeFullYear_since_epoch by exact Y.
  destruct (String.eqb period "today");
    [apply range_from_day; trivial; lia|].
  destruct (String.eqb period "week").
  { change (JsDate.DateFromTime now - 7)%Z
      with (JsDate.DateFromTime now + (-7))%Z.
    rewrite MakeDay_shift. apply range_from_day; trivial; lia. }
  destruct (String.eqb period "month");
    [apply range_from_day; trivial; lia|].
  destruct (String.eqb period "quarter");
    [apply range_from_day; trivial; lia|].
  destruct (String.eqb period "year");
    [|apply range_from_day; trivial; lia].
  apply range_from_day; trivial.
  rewrite MakeDay_in_year by lia.
  unfold JsDate.daysBeforeMonth. change (0 <=? 0)%Z with true. cbv iota zeta.
  lia.
Qed.

Lemma date_range_start_not_after_end_witness :
  exists r s e,
    Periods.getDateRange "quarter" 1738323000000 = Some r
    /\ Periods.range_end r = "2025-01-31"
    /\ JsDate.parse (Periods.range_start r) = Some s
    /\ JsDate.parse (Periods.range_end r) = Some e
    /\ e = 1738281600000%Z
    /\ (1704067200000 <= s <= e)%Z
    /\ (e <= 1738323000000 < e + JsDate.msPerDay)%Z.
Proof.
  apply (date_range_start_not_after_end "quarter" 1738323000000).
  - lia.
  - vm_compute. discriminate.
Defined.

(** X7. For a reading on a day of the month up to the 28th, the period
    [quarter] starts on the same day of the month three calendar months
    earlier. *)
Theorem date_range_quarter_keeps_day (now : Z) :
  (0 <= now)%Z -> (JsDate.YearFromTime now <= 9999)%Z ->
  (JsDate.getDate now <= 28)%Z ->
  exists start,
    Periods.getDateRange "quarter" now
    = Some (Periods.mkDateRange (JsDate.toISODate start)
                                (JsDate.toISODate now))
    /\ JsDate.getFullYear start
       = (JsDate.getFullYear now + (JsDate.getMonth now - 3) / 12)%Z
    /\ JsDate.getMonth start = ((JsDate.getMonth now - 3) mod 12)%Z
    /\ JsDate.getDate start = JsDate.getDate now.
Proof.
  intros H0 HY H28.
  pose proof (YearFromTime_since_epoch now H0) as Y.
  pose proof (month_back_bounds now) as Q.
  pose proof (JsDateFacts.TimeWithinDay_range now) as T.
  pose proof (JsDateFacts.YearFromDay_spec (JsDate.Day now)) as S.
  fold (JsDate.YearFromTime now) in S.
  destruct (day_as_date (JsDate.YearFromTime now - 1)
              (JsDate.YearFromTime now + 1)
              (JsDate.MakeDay (JsDate.YearFromTime now)
                 (JsDate.MonthFromTime now - 3) (JsDate.DateFromTime now))
              (JsDate.TimeWithinDay now)) as [C _]; try lia.
  unfold Periods.getDateRange. cbn [String.eqb Ascii.eqb Bool.eqb].
  assert (E : JsDate.setMonth now (JsDate.getMonth now - 3)
              = Some (JsDate.MakeDate
                        (JsDate.MakeDay (JsDate.YearFromTime now)
                           (JsDate.MonthFromTime now - 3)
                           (JsDate.DateFromTime now))
                        (JsDate.TimeWithinDay now))) by exact C.
  rewrite E. cbn [option_map]. eexists. split; [reflexivity|].
  apply (JsDateFacts.setMonth_keeps_day now _ _ H28 E).
Qed.

Lemma date_range_quarter_keeps_day_witness :
  exists start,
    Periods.getDateRange "quarter" 1738000000000
    = Some (Periods.mkDateRange (JsDate.toISODate start)
                                (JsDate.toISODate 1738000000000))
    /\ JsDate.getFullYear start
       = (JsDate.getFullYear 1738000000000
          + (JsDate.getMonth 1738000000000 - 3) / 12)%Z
    /\ JsDate.getMonth start = ((JsDate.getMonth 1738000000000 - 3) mod 12)%Z
    /\ JsDate.getDate start = JsDate.getDate 1738000000000.
Proof.
  apply (date_range_quarter_keeps_day 1738000000000).
  - lia.
  - vm_compute. discriminate.
  - vm_compute. discriminate.
Defined.

(** ** Date strings in order

    The routes compare dates as the text SQLite stores ([lte], [gte]). *)

Lemma ascii_compare_refl (a : ascii) : Ascii.compare a a = Eq.
Proof. unfold Ascii.compare. apply N.compare_refl. Qed.

Lemma string_compare_refl (s : string) : String.compare s s = Eq.
Proof.
  induction s as [|a s IH]; [reflexivity|].
  cbn [String.compare]. rewrite ascii_compare_refl. exact IH.
Qed.

Lemma string_compare_prefix (p s1 s2 : string) :
  String.compare (p ++ s1) (p ++ s2) = String.compare s1 s2.
Proof.
  induction p as [|a p IH]; [reflexivity|].
  cbn [append String.compare]. rewrite ascii_compare_refl. exact IH.
Qed.

Lemma ascii_compare_digits (a b : Z) :
  Ascii.compare (JsDate.digitChar a) (JsDate.digitChar b)
  = (a mod 10 ?= b mod 10)%Z.
Proof.
  unfold Ascii.compare, JsDate.digitChar, ascii_of_nat.
  pose proof (Z.mod_pos_bound a 10 ltac:(lia)) as Ha.
  pose proof (Z.mod_pos_bound b 10 ltac:(lia)) as Hb.
  set (x := (a mod 10)%Z) in *. set (y := (b mod 10)%Z) in *.
  rewrite !N_ascii_embedding by lia.
  rewrite <- N2Z.inj_compare, !nat_N_Z.
  rewrite !Nat2Z.inj_add, !Z2Nat.id by lia.
  apply Z.add_compare_mono_l.
Qed.

Lemma string_append_assoc (a b c : string) :
  ((a ++ b) ++ c)%string = (a ++ (b ++ c))%string.
Proof.
  induction a as [|x a IH]; [reflexivity|].
  cbn [append]. rewrite IH. reflexivity.
Qed.

Lemma padDigits_app (w : nat) : forall (n : Z) (acc : string),
  JsDate.padDigits w n acc = (JsDate.pad w n ++ acc)%string.
Proof.
  unfold JsDate.pad.
  induction w as [|w IH]; intros n acc; cbn [JsDate.padDigits].
  - reflexivity.
  - rewrite IH. rewrite (IH (n / 10)%Z (String (JsDate.digitChar n) EmptyString)).
    rewrite string_append_assoc. reflexivity.
Qed.

Lemma pad_succ (w : nat) (n : Z) (s : string) :
  (JsDate.pad (S w) n ++ s)%string
  = (JsDate.pad w (n / 10) ++ String (JsDate.digitChar n) s)%string.
Proof.
  unfold JsDate.pad at 1. cbn [JsDate.padDigits]. rewrite padDigits_app.
  rewrite string_append_assoc. reflexivity.
Qed.

(** Numbers padded to the same width sort as numbers, whatever follows
    them. *)
Lemma compare_pad_lt (w : nat) : forall (a b : Z) (s1 s2 : string),
  (0 <= a < b)%Z -> (b < 10 ^ Z.of_nat w)%Z ->
  String.compare (JsDate.pad w a ++ s1) (JsDate.pad w b ++ s2) = Lt.
Proof.
  induction w as [|w IH]; intros a b s1 s2 Hab Hb.
  - cbn [Z.of_nat] in Hb. change (10 ^ 0)%Z with 1%Z in Hb. lia.
  - rewrite !pad_succ.
    rewrite Nat2Z.inj_succ, Z.pow_succ_r in Hb by lia.
    destruct (Z.eq_dec (a / 10) (b / 10)) as [E|N].
    + rewrite E, string_compare_prefix. cbn [String.compare].
      rewrite ascii_compare_digits.
      assert (L : (a mod 10 < b mod 10)%Z)
        by (Z.to_euclidean_division_equations; lia).
      apply Z.compare_lt_iff in L. rewrite L. reflexivity.
    + apply IH; Z.to_euclidean_division_equations; lia.
Qed.

Lemma string_append_nil_r (s : string) : (s ++ EmptyString)%string = s.
Proof.
  induction s as [|x s IH]; [reflexivity|]. cbn [append]. rewrite IH.
  reflexivity.
Qed.

Lemma monthOfYearDay_mono (l : bool) (w1 w2 : Z) :
  (w1 <= w2)%Z ->
  (JsDate.monthOfYearDay l w1 <= JsDate.monthOfYearDay l w2)%Z.
Proof.
  intros H. unfold JsDate.monthOfYearDay. destruct l; JsDateFacts.case_ifs.
Qed.

(** An earlier day has the smaller year, or the same year and the smaller
    month, or the same month and the smaller day of the month. *)
Lemma earlier_day_fields (t1 t2 : Z) :
  (JsDate.Day t1 < JsDate.Day t2)%Z ->
  (JsDate.YearFromTime t1 < JsDate.YearFromTime t2)%Z
  \/ (JsDate.YearFromTime t1 = JsDate.YearFromTime t2
      /\ (JsDate.MonthFromTime t1 < JsDate.MonthFromTime t2)%Z)
  \/ (JsDate.YearFromTime t1 = JsDate.YearFromTime t2
      /\ JsDate.MonthFromTime t1 = JsDate.MonthFromTime t2
      /\ (JsDate.DateFromTime t1 < JsDate.DateFromTime t2)%Z).
Proof.
  intros H.
  pose proof (JsDateFacts.YearFromDay_spec (JsDate.Day t1)) as S1.
  pose proof (JsDateFacts.YearFromDay_spec (JsDate.Day t2)) as S2.
  fold (JsDate.YearFromTime t1) in S1. fold (JsDate.YearFromTime t2) in S2.
  destruct (Z.lt_trichotomy (JsDate.YearFromTime t1) (JsDate.YearFromTime t2))
    as [L|[E|L]].
  - left. exact L.
  - right.
    pose proof (monthOfYearDay_mono (JsDate.isLeap (JsDate.YearFromTime t1))
                  (JsDate.DayWithinYear t1) (JsDate.DayWithinYear t2)) as M.
    unfold JsDate.MonthFromTime, JsDate.DateFromTime, JsDate.InLeapYear.
    unfold JsDate.MonthFromTime, JsDate.InLeapYear.
    rewrite <- E.
    assert (W : (JsDate.DayWithinYear t1 < JsDate.DayWithinYear t2)%Z).
    { unfold JsDate.DayWithinYear. rewrite <- E. lia. }
    specialize (M ltac:(lia)).
    destruct (Z.eq_dec
                (JsDate.monthOfYearDay (JsDate.isLeap (JsDate.YearFromTime t1))
                   (JsDate.DayWithinYear t1))
                (JsDate.monthOfYearDay (JsDate.isLeap (JsDate.YearFromTime t1))
                   (JsDate.DayWithinYear t2))) as [EM|NM].
    + right. split; [reflexivity|]. split; [exact EM|]. rewrite EM. lia.
    + left. split; [reflexivity|]. lia.
  - pose proof (JsDateFacts.DayFromYear_mono (JsDate.YearFromTime t2 + 1)
                  (JsDate.YearFromTime t1) ltac:(lia)). lia.
Qed.

Lemma compare_earlier_date (t1 t2 : Z) :
  (0 <= JsDate.YearFromTime t1 <= 9999)%Z ->
  (0 <= JsDate.YearFromTime t2 <= 9999)%Z ->
  (JsDate.Day t1 < JsDate.Day t2)%Z ->
  String.compare (JsDate.toISODate t1) (JsDate.toISODate t2) = Lt.
Proof.
  intros Y1 Y2 H.
  pose proof (JsDateFacts.MonthFromTime_range t1) as M1.
  pose proof (JsDateFacts.MonthFromTime_range t2) as M2.
  pose proof (JsDateFacts.DateFromTime_range t1) as D1.
  pose proof (JsDateFacts.DateFromTime_range t2) as D2.
  pose proof (JsDateFacts.DaysInMonth_bounds (JsDate.YearFromTime t1)
                (JsDate.MonthFromTime t1) M1) as B1.
  pose proof (JsDateFacts.DaysInMonth_bounds (JsDate.YearFromTime t2)
                (JsDate.MonthFromTime t2) M2) as B2.
  unfold JsDate.toISODate, JsDate.isoYear.
  destruct (Z.leb_spec 0 (JsDate.YearFromTime t1)); [|lia].
  destruct (Z.leb_spec (JsDate.YearFromTime t1) 9999); [|lia].
  destruct (Z.leb_spec 0 (JsDate.YearFromTime t2)); [|lia].
  destruct (Z.leb_spec (JsDate.YearFromTime t2) 9999); [|lia].
  cbn [andb].
  destruct (earlier_day_fields t1 t2 H) as [L|[[E L]|[E [EM L]]]].
  - apply compare_pad_lt; [lia|]. change (10 ^ Z.of_nat 4)%Z with 10000%Z. lia.
  - rewrite E, string_compare_prefix. cbn [append String.compare].
    rewrite ascii_compare_refl.
    apply compare_pad_lt; [lia|]. change (10 ^ Z.of_nat 2)%Z with 100%Z. lia.
  - rewrite E, string_compare_prefix. cbn [append String.compare].
    rewrite ascii_compare_refl.
    rewrite EM, string_compare_prefix. cbn [String.compare].
    rewrite ascii_compare_refl.
    rewrite <- (string_append_nil_r (JsDate.pad 2 (JsDate.DateFromTime t1))).
    rewrite <- (string_append_nil_r (JsDate.pad 2 (JsDate.DateFromTime t2))).
    apply compare_pad_lt; [lia|]. change (10 ^ Z.of_nat 2)%Z with 100%Z. lia.
Qed.

Lemma iso_dates_order_helper (t1 t2 : Z) :
  (0 <= JsDate.YearFromTime t1 <= 9999)%Z ->
  (0 <= JsDate.YearFromTime t2 <= 9999)%Z ->
  String.leb (JsDate.toISODate t1) (JsDate.toISODate t2)
  = (JsDate.Day t1 <=? JsDate.Day t2)%Z.
Proof.
  intros Y1 Y2. unfold String.leb.
  destruct (Z.lt_trichotomy (JsDate.Day t1) (JsDate.Day t2)) as [L|[E|L]].
  - rewrite (compare_earlier_date t1 t2 Y1 Y2 L).
    symmetry. apply Z.leb_le. lia.
  - rewrite (toISODate_Day t1 t2 E), string_compare_refl.
    symmetry. apply Z.leb_le. lia.
  - rewrite String.compare_antisym, (compare_earlier_date t2 t1 Y2 Y1 L).
    cbn [CompOpp]. symmetry. apply Z.leb_gt. lia.
Qed.

(** X8. Date strings sort like the days they name: for two time values of
    the years 0 to 9999, the ISO date of the first is at most that of the
    second, as text, exactly when its day is not the later one. *)
Theorem iso_dates_sort_like_days (t1 t2 : Z) :
  (0 <= JsDate.YearFromTime t1 <= 9999)%Z ->
  (0 <= JsDate.YearFromTime t2 <= 9999)%Z ->
  String.leb (JsDate.toISODate t1) (JsDate.toISODate t2)
  = (JsDate.Day t1 <=? JsDate.Day t2)%Z.
Proof. exact (iso_dates_order_helper t1 t2). Qed.

Lemma iso_dates_sort_like_days_witness :
  String.leb (JsDate.toISODate 1738323000000) (JsDate.toISODate 1738281599999)
  = (JsDate.Day 1738323000000 <=? JsDate.Day 1738281599999)%Z.
Proof.
  apply (iso_dates_sort_like_days 1738323000000 1738281599999);
    vm_compute; split; discriminate.
Defined.

(** ** The previous period and the trends *)

Lemma string_leb_trans (a : string) : forall b c : string,
  String.leb a b = true -> String.leb b c = true -> String.leb a c = true.
Proof.
  unfold String.leb.
  induction a as [|x a IH]; intros [|y b] [|z c]; cbn [String.compare];
    try (intros; reflexivity); try (intros; discriminate).
  unfold Ascii.compare.
  destruct (N.compare_spec (N_of_ascii x) (N_of_ascii y)) as [E1|L1|L1];
    destruct (N.compare_spec (N_of_ascii y) (N_of_ascii z)) as [E2|L2|L2];
    destruct (N.compare_spec (N_of_ascii x) (N_of_ascii z)) as [E3|L3|L3];
    intros H1 H2; try reflexivity; try discriminate; try lia.
  exact (IH b c H1 H2).
Qed.

(** No date lies in a range whose start sorts after its end. *)
Lemma rangeTotal_empty (db : Db) (userId : Id) (type : TxType)
    (r : Periods.DateRange) :
  String.leb (Periods.range_start r) (Periods.range_end r) = false ->
  Periods.rangeTotal db userId type r = 0.
Proof.
  intros H. unfold Periods.rangeTotal.
  rewrite filter_none; [reflexivity|].
  intros t _.
  destruct (String.leb (Periods.range_start r) (tx_date t)) eqn:A;
    [|rewrite andb_false_r; reflexivity].
  destruct (String.leb (tx_date t) (Periods.range_end r)) eqn:B;
    [|rewrite andb_false_r; reflexivity].
  rewrite (string_leb_trans _ _ _ A B) in H. discriminate.
Qed.

Lemma YearFromTime_mono (t1 t2 : Z) :
  (t1 <= t2)%Z -> (JsDate.YearFromTime t1 <= JsDate.YearFromTime t2)%Z.
Proof.
  intros H.
  assert (D : (JsDate.Day t1 <= JsDate.Day t2)%Z).
  { unfold JsDate.Day, JsDate.msPerDay. apply Z.div_le_mono; lia. }
  pose proof (JsDateFacts.YearFromDay_spec (JsDate.Day t1)) as S1.
  pose proof (JsDateFacts.YearFromDay_spec (JsDate.Day t2)) as S2.
  unfold JsDate.YearFromTime.
  destruct (Z.le_gt_cases (JsDate.YearFromDay (JsDate.Day t1))
              (JsDate.YearFromDay (JsDate.Day t2))) as [L|L]; [exact L|].
  pose proof (JsDateFacts.DayFromYear_mono
                (JsDate.YearFromDay (JsDate.Day t2) + 1)
                (JsDate.YearFromDay (JsDate.Day t1)) ltac:(lia)). lia.
Qed.

Lemma year_9999_bound (t : Z) :
  (JsDate.YearFromTime t <= 9999)%Z -> (t < 253402300800000)%Z.
Proof.
  intros H.
  pose proof (JsDateFacts.YearFromDay_spec (JsDate.Day t)) as S.
  fold (JsDate.YearFromTime t) in S.
  pose proof (JsDateFacts.DayFromYear_mono (JsDate.YearFromTime t + 1) 10000
                ltac:(lia)) as M.
  rewrite DayFromYear_10000 in M.
  pose proof (Day_bounds t). unfold JsDate.msPerDay in *. lia.
Qed.

Lemma year_since_1969 (t : Z) :
  (- 1 <= t)%Z -> (1969 <= JsDate.YearFromTime t)%Z.
Proof.
  intros H. pose proof (YearFromTime_mono (-1) t H) as M.
  change (JsDate.YearFromTime (-1)) with 1969%Z in M. exact M.
Qed.

(** X9. The range the trends compare with ends the day before the current
    range starts and is as long as the time between the current start and
    the current end: it holds one day fewer than the current range, which
    counts both its first and its last day. *)
Theorem previous_range_is_adjacent (r : Periods.DateRange) (s e : Z) :
  JsDate.parse (Periods.range_start r) = Some s ->
  JsDate.parse (Periods.range_end r) = Some e ->
  (s <= e)%Z -> (0 <= s - (e - s))%Z -> (JsDate.YearFromTime e <= 9999)%Z ->
  exists p,
    Periods.previousRange r = Some p
    /\ JsDate.parse (Periods.range_start p) = Some (s - (e - s))%Z
    /\ JsDate.parse (Periods.range_end p) = Some (s - JsDate.msPerDay)%Z.
Proof.
  intros Ps Pe Hse H0 HY.
  pose proof (parse_midnight _ _ Ps) as Ms.
  pose proof (parse_midnight _ _ Pe) as Me.
  pose proof (year_9999_bound e HY) as Be.
  pose proof (YearFromTime_mono (s - (e - s)) e ltac:(lia)) as Y1.
  pose proof (YearFromTime_mono (s - 1) e ltac:(lia)) as Y2.
  pose proof (year_since_1969 (s - (e - s)) ltac:(lia)) as Y3.
  pose proof (year_since_1969 (s - 1) ltac:(lia)) as Y4.
  unfold Periods.previousRange, Periods.dateOfTime. rewrite Ps, Pe. cbv zeta.
  rewrite !TimeClip_in_range by lia.
  eexists. split; [reflexivity|].
  cbn [Periods.range_start Periods.range_end].
  rewrite !parse_toISODate by lia.
  split; f_equal; unfold JsDate.Day, JsDate.msPerDay in *;
    Z.to_euclidean_division_equations; lia.
Qed.

Lemma previous_range_is_adjacent_witness :
  exists p,
    Periods.previousRange (Periods.mkDateRange "2025-01-01" "2025-01-31")
    = Some p
    /\ JsDate.parse (Periods.range_start p)
       = Some (1735689600000 - (1738281600000 - 1735689600000))%Z
    /\ JsDate.parse (Periods.range_end p)
       = Some (1735689600000 - JsDate.msPerDay)%Z.
Proof.
  apply (previous_range_is_adjacent
           (Periods.mkDateRange "2025-01-01" "2025-01-31")
           1735689600000 1738281600000).
  - reflexivity.
  - reflexivity.
  - lia.
  - lia.
  - vm_compute. discriminate.
Defined.

(** X10. For the period [today] the trends have nothing to compare with: the
    previous range starts today and ends yesterday, so it holds no date,
    and whatever the ledger holds the previous totals are 0, the changes
    are 0 and both trends are stable. *)
Theorem trends_of_today_compare_with_nothing
    (db : Db) (userId : Id) (now : Z) :
  (0 <= now)%Z -> (JsDate.YearFromTime now <= 9999)%Z ->
  exists t,
    Periods.trends db userId "today" now = Some t
    /\ Periods.tn_previousRange t
       = Periods.mkDateRange (JsDate.toISODate now)
           (JsDate.toISODate (now - JsDate.msPerDay))
    /\ Periods.tl_previous (Periods.tn_expenses t) = 0
    /\ Periods.tl_change (Periods.tn_expenses t) = 0%Z
    /\ Periods.tl_trend (Periods.tn_expenses t) = Periods.stable
    /\ Periods.tl_previous (Periods.tn_income t) = 0
    /\ Periods.tl_change (Periods.tn_income t) = 0%Z
    /\ Periods.tl_trend (Periods.tn_income t) = Periods.stable.
Proof.
  intros H0 HY.
  pose proof (year_9999_bound now HY) as Bn.
  pose proof (YearFromTime_since_epoch now H0) as Y0.
  pose proof (Day_bounds now) as B.
  pose proof (Day_nonneg now H0) as D0.
  set (s := (JsDate.Day now * JsDate.msPerDay)%Z).
  assert (Ds : JsDate.Day s = JsDate.Day now) by apply Day_of_midnight.
  assert (Ds1 : JsDate.Day (s - 1) = (JsDate.Day now - 1)%Z).
  { unfold s, JsDate.Day, JsDate.msPerDay.
    Z.to_euclidean_division_equations. lia. }
  assert (Dy : JsDate.Day (now - JsDate.msPerDay) = (JsDate.Day now - 1)%Z).
  { unfold JsDate.Day, JsDate.msPerDay.
    Z.to_euclidean_division_equations. lia. }
  assert (P : JsDate.parse (JsDate.toISODate now) = Some s)
    by (apply parse_toISODate; lia).
  assert (Ys1 : (0 <= JsDate.YearFromTime (s - 1) <= 9999)%Z).
  { pose proof (YearFromTime_mono (s - 1) now ltac:(unfold s; lia)).
    pose proof (year_since_1969 (s - 1)
                  ltac:(unfold s, JsDate.msPerDay; lia)). lia. }
  assert (Prev : Periods.previousRange
                   (Periods.mkDateRange (JsDate.toISODate now)
                      (JsDate.toISODate now))
                 = Some (Periods.mkDateRange (JsDate.toISODate now)
                           (JsDate.toISODate (now - JsDate.msPerDay)))).
  { unfold Periods.previousRange, Periods.dateOfTime.
    cbn [Periods.range_start Periods.range_end]. rewrite P. cbv zeta.
    replace (s - (s - s))%Z with s by lia.
    rewrite !TimeClip_in_range
      by (unfold s, JsDate.msPerDay in *; lia).
    rewrite (toISODate_Day s now Ds).
    rewrite (toISODate_Day (s - 1) (now - JsDate.msPerDay)) by congruence.
    reflexivity. }
  assert (Empty : String.leb (JsDate.toISODate now)
                    (JsDate.toISODate (now - JsDate.msPerDay)) = false).
  { rewrite <- (toISODate_Day (s - 1) (now - JsDate.msPerDay)) by congruence.
    rewrite iso_dates_order_helper by lia.
    apply Z.leb_gt. lia. }
  unfold Periods.trends.
  rewrite getDateRange_today by lia. rewrite Prev. cbv zeta.
  eexists. split; [reflexivity|].
  cbn [Periods.tn_previousRange Periods.tn_expenses Periods.tn_income
       Periods.tl_previous Periods.tl_change Periods.tl_trend].
  set (previous := Periods.mkDateRange (JsDate.toISODate now)
                     (JsDate.toISODate (now - JsDate.msPerDay))).
  rewrite (rangeTotal_empty db userId expense previous Empty).
  rewrite (rangeTotal_empty db userId income previous Empty).
  repeat split; reflexivity.
Qed.

Lemma trends_of_today_compare_with_nothing_witness :
  exists t,
    Periods.trends Examples.goalDb "u1" "today" 1738323000000 = Some t
    /\ Periods.tn_previousRange t
       = Periods.mkDateRange (JsDate.toISODate 1738323000000)
           (JsDate.toISODate (1738323000000 - JsDate.msPerDay))
    /\ Periods.tl_previous (Periods.tn_expenses t) = 0
    /\ Periods.tl_change (Periods.tn_expenses t) = 0%Z
    /\ Periods.tl_trend (Periods.tn_expenses t) = Periods.stable
    /\ Periods.tl_previous (Periods.tn_income t) = 0
    /\ Periods.tl_change (Periods.tn_income t) = 0%Z
    /\ Periods.tl_trend (Periods.tn_income t) = Periods.stable.
Proof.
  apply (trends_of_today_compare_with_nothing Examples.goalDb "u1"
           1738323000000).
  - lia.
  - vm_compute. discriminate.
Defined.

(** X11. A trend is never reported without a movement behind it: [up] means
    the current total exceeds a positive previous total, [down] that it is
    below it; and when the previous total is not positive the change is 0
    and the trend is stable, whatever the current total. *)
Theorem trend_follows_the_totals (current previous : Q) :
  (Periods.trend (Periods.change current previous) = Periods.up ->
   0 < previous /\ previous < current)
  /\ (Periods.trend (Periods.change current previous) = Periods.down ->
      0 < previous /\ current < previous)
  /\ (previous <= 0 ->
      Periods.change current previous = 0%Z
      /\ Periods.trend (Periods.change current previous) = Periods.stable).
Proof.
  unfold Periods.change.
  destruct (Qeq_bool previous 0) eqn:E0; cbn [negb andb].
  - apply Qeq_bool_iff in E0.
    repeat split; try discriminate; try reflexivity.
  - destruct (Qle_bool previous 0) eqn:E1; cbn [negb].
    + repeat split; try discriminate; try reflexivity.
    + assert (Hp : 0 < previous).
      { apply Qnot_le_lt. intros L. apply Qle_bool_iff in L. congruence. }
      set (x := (orNumber current 0 - previous) / previous * 100).
      pose proof (MathRound_near x) as [N1 N2].
      pose proof (orNumber_zero current) as O.
      assert (Hx : x * previous == (current - previous) * 100).
      { unfold x. rewrite O. field. lra. }
      unfold Periods.trend.
      destruct (Z.gtb_spec (MathRound x) 0) as [G|G].
      * split; [|split]; [|discriminate|intros L; lra].
        intros _. split; [exact Hp|].
        assert (1 <= inject_Z (MathRound x)).
        { change 1 with (inject_Z 1). rewrite <- Zle_Qle. lia. }
        assert (Hx0 : 0 < x) by lra. nra.
      * destruct (Z.ltb_spec (MathRound x) 0) as [L|L].
        -- split; [discriminate|]. split; [|intros L'; lra].
           intros _. split; [exact Hp|].
           assert (inject_Z (MathRound x) <= -1).
           { change (-1) with (inject_Z (-1)). rewrite <- Zle_Qle. lia. }
           assert (Hx0 : x < 0) by lra. nra.
        -- split; [discriminate|]. split; [discriminate|]. intros L'. lra.
Qed.

Lemma trend_follows_the_totals_witness :
  Periods.trend (Periods.change 150 100) = Periods.up
  /\ 0 < 100 /\ 100 < 150.
Proof.
  split; [vm_compute; reflexivity|].
  apply (trend_follows_the_totals 150 100). vm_compute. reflexivity.
Defined.

(** ** Writes to the ledger *)

Lemma sumOf_filter_snoc {A : Type} (col : A -> Q) (f : A -> bool)
    (rows : list A) (r : A) :
  sumOf col (filter f (rows ++ [r]))
  == sumOf col (filter f rows) + (if f r then col r else 0).
Proof.
  rewrite filter_app, sumOf_app. cbn [filter].
  destruct (f r); unfold sumOf; cbn [fold_right]; ring.
Qed.

Lemma find_snoc_fresh {A : Type} (f : A -> bool) (rows : list A) (r : A) :
  (forall x, In x rows -> f x = false) ->
  find f (rows ++ [r]) = if f r then Some r else None.
Proof.
  induction rows as [|x rows IH]; intros H; cbn [app find].
  - reflexivity.
  - rewrite (H x (or_introl eq_refl)). apply IH.
    intros y Hy. apply H. right. exact Hy.
Qed.

Lemma filter_snoc_fresh {A : Type} (f : A -> bool) (rows : list A) (r : A) :
  (forall x, In x rows -> f x = true) -> f r = false ->
  filter f (rows ++ [r]) = rows.
Proof.
  intros H Hr. rewrite filter_app. cbn [filter]. rewrite Hr, app_nil_r.
  induction rows as [|x rows IH]; [reflexivity|].
  cbn [filter]. rewrite (H x (or_introl eq_refl)). f_equal.
  apply IH. intros y Hy. apply H. right. exact Hy.
Qed.

Lemma eqb_fresh (x id : string) : x <> id -> String.eqb x id = false.
Proof. intros H. apply String.eqb_neq. exact H. Qed.



Lemma withTransfers_same (db : Db) : Transfers.withTransfers db (transfers db) = db.
Proof. destruct db. reflexivity. Qed.

Lemma withTransactions_same (db : Db) :
  ScheduledPayments.withTransactions db (transactions db) = db.
Proof. destruct db. reflexivity. Qed.

Lemma withScheduledPayments_same (db : Db) :
  ScheduledPayments.withScheduledPayments db (scheduledPayments db) = db.
Proof. destruct db. reflexivity. Qed.

(** X13. A transfer that was created can be read back and deleted again:
    with an identifier no stored transfer has, the created row is the one
    [GET /transfers/:id] answers with, and deleting it leaves the store
    exactly as it was before the creation. *)
Theorem transfer_create_then_delete_restores_the_store
    (db : Db) (userId : Id) (body : Transfers.Body) (transferId : Id) :
  PaymentRoutes.ownsAccount db userId (Transfers.b_fromAccountId body) = true ->
  PaymentRoutes.ownsAccount db userId (Transfers.b_toAccountId body) = true ->
  freshKey tr_id (transfers db) transferId ->
  exists created db',
    Transfers.create db userId body transferId = (Json201 (Some created), db')
    /\ tr_amount created = Transfers.b_amount body
    /\ tr_fee created = Some (Transfers.b_fee body)
    /\ Transfers.get db' userId transferId = Json200 created
    /\ snd (Transfers.remove db' userId transferId) = db.
Proof.
  intros Hf Ht Fresh.
  unfold Transfers.create. rewrite Hf, Ht. cbn [negb].
  unfold Transfers.withTransfers. cbn [transfers].
  rewrite find_snoc_fresh
    by (intros x Hx; apply eqb_fresh; exact (Fresh x Hx)).
  cbn [tr_id]. rewrite String.eqb_refl.
  eexists. eexists. split; [reflexivity|].
  split; [reflexivity|]. split; [reflexivity|].
  unfold Transfers.get, Transfers.remove, Transfers.findOwned.
  cbn [transfers].
  rewrite find_snoc_fresh
    by (intros x Hx; rewrite (eqb_fresh _ _ (Fresh x Hx)); reflexivity).
  cbn [tr_id tr_userId]. rewrite !String.eqb_refl. cbn [andb snd].
  split; [reflexivity|].
  unfold Transfers.withTransfers. cbn [accounts transactions transfers debts
    loans goals scheduledPayments].
  rewrite filter_snoc_fresh.
  - destruct db. reflexivity.
  - intros x Hx. rewrite (eqb_fresh _ _ (Fresh x Hx)). reflexivity.
  - cbn [tr_id tr_userId]. rewrite !String.eqb_refl. reflexivity.
Qed.

Lemma transfer_create_then_delete_restores_the_store_witness :
  exists created db',
    Transfers.create Examples.transferDb "u1"
      (Transfers.mkBody "B" "A" 50 0 "2025-01-12") "t2"
    = (Json201 (Some created), db')
    /\ tr_amount created = 50
    /\ tr_fee created = Some 0
    /\ Transfers.get db' "u1" "t2" = Json200 created
    /\ snd (Transfers.remove db' "u1" "t2") = Examples.transferDb.
Proof.
  apply (transfer_create_then_delete_restores_the_store Examples.transferDb
           "u1" (Transfers.mkBody "B" "A" 50 0 "2025-01-12") "t2").
  - reflexivity.
  - reflexivity.
  - intros t [<-|[]]. discriminate.
Defined.

(** X14. What a new ledger entry, whose references exist and whose
    identifier is fresh, does to the two balances of its account:
    the account listing counts an income and an expense and nothing else,
    the dashboard counts an income and takes every other type as an
    outflow.  So a debt payment, a goal contribution or a loan payment
    lowers the dashboard balance and leaves the listed balance alone; the
    balances of the other accounts do not move. *)
Theorem transaction_create_moves_the_balances
    (db : Db) (categories : list PaymentRoutes.CategoryRow) (userId : Id)
    (body : Transactions.Body) (transactionId : Id) (sqlNow : string)
    (a : Account) :
  PaymentRoutes.ownsAccount db userId (Transactions.b_accountId body) = true ->
  PaymentRoutes.referenceOk (Transactions.b_categoryId body)
    (PaymentRoutes.ownsCategory categories userId) = true ->
  present debt_id (debts db) (Transactions.b_debtId body) ->
  present loan_id (loans db) (Transactions.b_loanId body) ->
  present goal_id (goals db) (Transactions.b_goalId body) ->
  freshKey tx_id (transactions db) transactionId ->
  Accounts.balance
    (Accounts.withBalance
       (snd (Transactions.create db categories userId body transactionId
               sqlNow)) userId a)
  == Accounts.balance (Accounts.withBalance db userId a)
     + (if String.eqb (Transactions.b_accountId body) (acc_id a)
        then match Transactions.b_type body with
             | income => Transactions.b_amount body
             | expense => - Transactions.b_amount body
             | _ => 0
             end
        else 0)
  /\ Dashboard.calculateAccountBalance
       (snd (Transactions.create db categories userId body transactionId
               sqlNow)) (acc_id a) userId (acc_initialBalance a)
     == Dashboard.calculateAccountBalance db (acc_id a) userId
          (acc_initialBalance a)
        + (if String.eqb (Transactions.b_accountId body) (acc_id a)
           then match Transactions.b_type body with
                | income => Transactions.b_amount body
                | _ => - Transactions.b_amount body
                end
           else 0).
Proof.
  intros Ha Hc _ _ _ _.
  unfold Transactions.create. rewrite Ha, Hc. cbn [negb snd].
  unfold Accounts.withBalance, Dashboard.calculateAccountBalance.
  cbn [Accounts.balance]. rewrite !orNumber_zero.
  unfold Accounts.incomeOf, Accounts.expenseOf, Accounts.transfersInOf,
    Accounts.transfersOutOf, ScheduledPayments.insertTransaction,
    ScheduledPayments.withTransactions.
  cbn [transactions transfers].
  rewrite !sumOf_filter_snoc.
  cbn [tx_accountId tx_userId tx_type tx_amount].
  rewrite String.eqb_refl, !andb_true_r.
  destruct (String.eqb (Transactions.b_accountId body) (acc_id a)),
    (Transactions.b_type body); cbn [andb orb TxType_eqb]; split; ring.
Qed.

Lemma transaction_create_moves_the_balances_witness :
  Accounts.balance
    (Accounts.withBalance
       (snd (Transactions.create Examples.owingDb [] "u1"
               (Transactions.mkBody "A" None debt_payment 40 None
                  "2025-01-15" (Some "d1") None None) "x1"
               "2025-01-15 10:00:00")) "u1" Examples.accountA)
  == Accounts.balance (Accounts.withBalance Examples.owingDb "u1"
                         Examples.accountA) + 0
  /\ Dashboard.calculateAccountBalance
       (snd (Transactions.create Examples.owingDb [] "u1"
               (Transactions.mkBody "A" None debt_payment 40 None
                  "2025-01-15" (Some "d1") None None) "x1"
               "2025-01-15 10:00:00")) "A" "u1" 1000
     == Dashboard.calculateAccountBalance Examples.owingDb "A" "u1" 1000
        + - 40.
Proof.
  apply (transaction_create_moves_the_balances Examples.owingDb [] "u1"
           (Transactions.mkBody "A" None debt_payment 40 None "2025-01-15"
              (Some "d1") None None) "x1" "2025-01-15 10:00:00"
           Examples.accountA).
  - reflexivity.
  - reflexivity.
  - intros id [= <-]. exists Examples.carLoan. split; [left|]; reflexivity.
  - intros id [=].
  - intros id [=].
  - intros t [].
Defined.

(** X15. A ledger entry that was created can be read back and deleted again:
    with references that exist and an identifier no stored entry has, the
    created row carries the
    type, amount and account of the request, [GET /transactions/:id]
    answers with it, and deleting it leaves the store exactly as it was. *)
Theorem transaction_create_then_delete_restores_the_store
    (db : Db) (categories : list PaymentRoutes.CategoryRow) (userId : Id)
    (body : Transactions.Body) (transactionId : Id) (sqlNow : string) :
  PaymentRoutes.ownsAccount db userId (Transactions.b_accountId body) = true ->
  PaymentRoutes.referenceOk (Transactions.b_categoryId body)
    (PaymentRoutes.ownsCategory categories userId) = true ->
  present debt_id (debts db) (Transactions.b_debtId body) ->
  present loan_id (loans db) (Transactions.b_loanId body) ->
  present goal_id (goals db) (Transactions.b_goalId body) ->
  freshKey tx_id (transactions db) transactionId ->
  exists created db',
    Transactions.create db categories userId body transactionId sqlNow
    = (Json201 (Some created), db')
    /\ tx_type created = Transactions.b_type body
    /\ tx_amount created = Transactions.b_amount body
    /\ tx_accountId created = Transactions.b_accountId body
    /\ Transactions.get db' userId transactionId = Json200 created
    /\ snd (Transactions.remove db' userId transactionId) = db.
Proof.
  intros Ha Hc _ _ _ Fresh.
  unfold Transactions.create. rewrite Ha, Hc. cbn [negb].
  unfold ScheduledPayments.insertTransaction,
    ScheduledPayments.withTransactions. cbn [transactions].
  rewrite find_snoc_fresh
    by (intros x Hx; apply eqb_fresh; exact (Fresh x Hx)).
  cbn [tx_id]. rewrite String.eqb_refl.
  eexists. eexists. split; [reflexivity|].
  split; [reflexivity|]. split; [reflexivity|]. split; [reflexivity|].
  unfold Transactions.get, Transactions.remove, Transactions.findOwned.
  cbn [transactions].
  rewrite find_snoc_fresh
    by (intros x Hx; rewrite (eqb_fresh _ _ (Fresh x Hx)); reflexivity).
  cbn [tx_id tx_userId]. rewrite !String.eqb_refl. cbn [andb snd].
  split; [reflexivity|].
  unfold ScheduledPayments.withTransactions.
  cbn [accounts transactions transfers debts loans goals scheduledPayments].
  rewrite filter_snoc_fresh.
  - destruct db. reflexivity.
  - intros x Hx. rewrite (eqb_fresh _ _ (Fresh x Hx)). reflexivity.
  - cbn [tx_id tx_userId]. rewrite !String.eqb_refl. reflexivity.
Qed.

Lemma transaction_create_then_delete_restores_the_store_witness :
  exists created db',
    Transactions.create Examples.transferDb [] "u1"
      (Transactions.mkBody "A" None expense 40 None "2025-01-15" None None
         None) "x1" "2025-01-15 10:00:00"
    = (Json201 (Some created), db')
    /\ tx_type created = expense
    /\ tx_amount created = 40
    /\ tx_accountId created = "A"
    /\ Transactions.get db' "u1" "x1" = Json200 created
    /\ snd (Transactions.remove db' "u1" "x1") = Examples.transferDb.
Proof.
  apply (transaction_create_then_delete_restores_the_store
           Examples.transferDb [] "u1"
           (Transactions.mkBody "A" None expense 40 None "2025-01-15" None
              None None) "x1" "2025-01-15 10:00:00").
  - reflexivity.
  - reflexivity.
  - intros id [=].
  - intros id [=].
  - intros id [=].
  - intros t [].
Defined.

Lemma ceilDiv_spec (n d : Z) :
  (0 < d)%Z ->
  (d * (Transactions.ceilDiv n d - 1) < n <= d * Transactions.ceilDiv n d)%Z.
Proof.
  intros H. unfold Transactions.ceilDiv.
  Z.to_euclidean_division_equations. nia.
Qed.

(** X16. The pagination of the transaction listing: for a page size of at
    least 1, [totalPages] is the least number of pages that holds the
    [totalCount] selected rows, there is no page when nothing is selected,
    and [hasMore] tells exactly whether rows remain after the pages up to
    the current one. *)
Theorem pagination_counts_the_pages
    (db : Db) (userId : Id) (f : Transactions.Filters) :
  (1 <= Transactions.f_limit f)%Z ->
  let p := fst (Transactions.listMeta db userId f) in
  Transactions.pg_totalCount p
  = Z.of_nat (List.length
                (filter (Transactions.conditions userId f) (transactions db)))
  /\ (Transactions.f_limit f * (Transactions.pg_totalPages p - 1)
      < Transactions.pg_totalCount p
      <= Transactions.f_limit f * Transactions.pg_totalPages p)%Z
  /\ (Transactions.pg_totalCount p = 0%Z -> Transactions.pg_totalPages p = 0%Z)
  /\ (Transactions.pg_hasMore p = true
      <-> (Transactions.f_page f * Transactions.f_limit f
           < Transactions.pg_totalCount p)%Z).
Proof.
  intros L p. unfold p, Transactions.listMeta. cbv zeta.
  cbn [fst Transactions.pg_totalCount Transactions.pg_totalPages
       Transactions.pg_hasMore].
  set (n := Z.of_nat _).
  pose proof (ceilDiv_spec n (Transactions.f_limit f) ltac:(lia)) as C.
  split; [reflexivity|]. split; [exact C|]. split.
  - intros E. nia.
  - rewrite Z.ltb_lt. split; intros H; nia.
Qed.

Lemma pagination_counts_the_pages_witness :
  Transactions.pg_hasMore
    (fst (Transactions.listMeta Examples.goalDb "u1"
            (Transactions.mkFilters None None None None None 1 1))) = true
  <-> (1 * 1
       < Transactions.pg_totalCount
           (fst (Transactions.listMeta Examples.goalDb "u1"
                   (Transactions.mkFilters None None None None None 1 1))))%Z.
Proof.
  apply (pagination_counts_the_pages Examples.goalDb "u1"
           (Transactions.mkFilters None None None None None 1 1)).
  cbn. lia.
Defined.

(** ** Reading the scheduled payments *)

Lemma no_row_due_after_sweep
    (db : Db) (userId : Id) (now updatedAt : string) (p : ScheduledPayment) :
  In p (scheduledPayments
          (ScheduledPayments.markOverduePayments db userId now updatedAt)) ->
  ScheduledPayments.isDue userId (ScheduledPayments.isoDate now) p = false.
Proof.
  unfold ScheduledPayments.markOverduePayments, ScheduledPayments.updateWhere.
  cbn [scheduledPayments ScheduledPayments.withScheduledPayments].
  intros H. apply in_map_iff in H. destruct H as (q & <- & _).
  destruct (ScheduledPayments.isDue userId (ScheduledPayments.isoDate now) q)
    eqn:E; [apply isDue_after_sweep|exact E].
Qed.

Lemma not_due_pending
    (userId today : string) (p : ScheduledPayment) :
  ScheduledPayments.isDue userId today p = false ->
  sp_userId p = userId ->
  ~ (sp_status p = pending /\ String.leb (sp_dueDate p) today = true).
Proof.
  intros H U [S L].
  assert (D : ScheduledPayments.isDue userId today p = true)
    by (apply isDue_spec; auto).
  congruence.
Qed.

(** X17. What [GET /scheduled-payments] can show: only payments of the
    requesting owner, never a pending payment whose due date is today or
    earlier (the sweep that runs first has turned those overdue), only the
    asked status when the query names one, and only pending and paid
    payments, so neither overdue nor cancelled ones, when the validated
    filters have [includeOverdue] false and name no status. *)
Theorem payment_listing_after_the_sweep
    (db : Db) (userId : Id) (filters : option PaymentRoutes.Filters)
    (now updatedAt : string) (p : ScheduledPayment) :
  In p (fst (PaymentRoutes.listPayments db userId filters now updatedAt)) ->
  sp_userId p = userId
  /\ ~ (sp_status p = pending
        /\ String.leb (sp_dueDate p) (ScheduledPayments.isoDate now) = true)
  /\ (forall f s, filters = Some f -> PaymentRoutes.f_status f = Some s ->
      sp_status p = s)
  /\ (forall f, filters = Some f ->
      PaymentRoutes.f_includeOverdue f = false ->
      PaymentRoutes.f_status f = None ->
      sp_status p = pending \/ sp_status p = paid).
Proof.
  unfold PaymentRoutes.listPayments. cbn [fst]. intros H.
  apply filter_In in H. destruct H as [Hin C].
  unfold PaymentRoutes.listCondition in C.
  apply andb_true_iff in C. destruct C as [U C].
  apply String.eqb_eq in U.
  split; [exact U|]. split.
  - apply (not_due_pending userId); [|exact U].
    apply (no_row_due_after_sweep db userId now updatedAt). exact Hin.
  - split.
    + intros f s -> Hs. rewrite Hs in C.
      repeat (apply andb_true_iff in C; destruct C as [C ?]).
      apply PaymentStatus_eqb_eq. exact C.
    + intros f -> Hi Hs. rewrite Hi, Hs in C. cbn [negb andb PaymentRoutes.isSome] in C.
      apply andb_true_iff in C. destruct C as [_ C].
      apply orb_true_iff in C.
      destruct C as [C|C]; apply PaymentStatus_eqb_eq in C; auto.
Qed.

Lemma payment_listing_after_the_sweep_witness :
  sp_userId Examples.rentPaid = "u1"
  /\ ~ (sp_status Examples.rentPaid = pending
        /\ String.leb (sp_dueDate Examples.rentPaid)
             (ScheduledPayments.isoDate "2025-03-01T08:00:00.000Z") = true)
  /\ (forall f s,
      Some (PaymentRoutes.mkFilters None None None None false) = Some f ->
      PaymentRoutes.f_status f = Some s ->
      sp_status Examples.rentPaid = s)
  /\ (forall f,
      Some (PaymentRoutes.mkFilters None None None None false) = Some f ->
      PaymentRoutes.f_includeOverdue f = false ->
      PaymentRoutes.f_status f = None ->
      sp_status Examples.rentPaid = pending
      \/ sp_status Examples.rentPaid = paid).
Proof.
  apply (payment_listing_after_the_sweep Examples.billsDb "u1"
           (Some (PaymentRoutes.mkFilters None None None None false))
           "2025-03-01T08:00:00.000Z" "2025-03-01T08:00:00.001Z"
           Examples.rentPaid).
  vm_compute. left. reflexivity.
Defined.

Lemma count_by_priority {A : Type} (pr : A -> Priority) (l : list A) :
  (PaymentRoutes.countIf (fun r => PaymentRoutes.Priority_eqb (pr r) urgent) l
   + PaymentRoutes.countIf (fun r => PaymentRoutes.Priority_eqb (pr r) high) l
   + PaymentRoutes.countIf (fun r => PaymentRoutes.Priority_eqb (pr r) medium) l
   + PaymentRoutes.countIf (fun r => PaymentRoutes.Priority_eqb (pr r) low) l
   = List.length l)%nat.
Proof.
  unfold PaymentRoutes.countIf.
  induction l as [|x l IH]; [reflexivity|].
  cbn [filter List.length]. destruct (pr x); cbn [PaymentRoutes.Priority_eqb List.length]; lia.
Qed.

Lemma countIf_le {A : Type} (f : A -> bool) (l : list A) :
  (PaymentRoutes.countIf f l <= List.length l)%nat.
Proof. unfold PaymentRoutes.countIf. apply filter_length_le. Qed.

(** X18. The answer of [GET /scheduled-payments/upcoming] is consistent:
    the summary counts the rows of the answer, its four priority counters
    add up to the total, the overdue counter does not exceed it, and every
    row is a payment of the owner that is either overdue and flagged so, or
    pending, not flagged, and due after today. *)
Theorem upcoming_summary_is_consistent
    (db db' : Db) (userId : Id) (days today : Z) (now updatedAt : string)
    (rows : list PaymentRoutes.Upcoming) (summary : PaymentRoutes.Summary) :
  PaymentRoutes.upcoming db userId days today now updatedAt
  = (Some (rows, summary), db') ->
  PaymentRoutes.sm_total summary = List.length rows
  /\ (PaymentRoutes.bp_urgent (PaymentRoutes.sm_byPriority summary)
      + PaymentRoutes.bp_high (PaymentRoutes.sm_byPriority summary)
      + PaymentRoutes.bp_medium (PaymentRoutes.sm_byPriority summary)
      + PaymentRoutes.bp_low (PaymentRoutes.sm_byPriority summary)
      = PaymentRoutes.sm_total summary)%nat
  /\ (PaymentRoutes.sm_overdue summary <= PaymentRoutes.sm_total summary)%nat
  /\ Forall
       (fun r =>
          sp_userId (PaymentRoutes.up_payment r) = userId
          /\ ((PaymentRoutes.up_isOverdue r = true
               /\ sp_status (PaymentRoutes.up_payment r) = overdue)
              \/ (PaymentRoutes.up_isOverdue r = false
                  /\ sp_status (PaymentRoutes.up_payment r) = pending
                  /\ String.leb (sp_dueDate (PaymentRoutes.up_payment r))
                       (ScheduledPayments.isoDate now) = false)))
       rows.
Proof.
  unfold PaymentRoutes.upcoming.
  destruct (JsDate.setDate today (JsDate.getDate today + days)) as [endDate|];
    [|discriminate].
  cbv zeta. intros [= <- <- _].
  cbn [PaymentRoutes.sm_total PaymentRoutes.sm_byPriority
       PaymentRoutes.sm_overdue PaymentRoutes.bp_urgent PaymentRoutes.bp_high
       PaymentRoutes.bp_medium PaymentRoutes.bp_low].
  split; [reflexivity|]. split.
  - apply (count_by_priority
             (fun r => sp_priority (PaymentRoutes.up_payment r))).
  - split; [apply countIf_le|].
    apply Forall_forall. intros r Hr.
    apply in_map_iff in Hr. destruct Hr as (p & <- & Hp).
    apply filter_In in Hp. destruct Hp as [Hin C].
    apply andb_true_iff in C. destruct C as [C _].
    apply andb_true_iff in C. destruct C as [U S].
    apply String.eqb_eq in U.
    cbn [PaymentRoutes.up_payment PaymentRoutes.up_isOverdue].
    split; [exact U|].
    pose proof (no_row_due_after_sweep db userId now updatedAt p Hin) as D.
    pose proof (not_due_pending userId _ p D U) as N.
    apply orb_true_iff in S. destruct S as [S|S].
    + right. apply PaymentStatus_eqb_eq in S. rewrite S.
      split; [reflexivity|]. split; [reflexivity|].
      destruct (String.leb (sp_dueDate p) (ScheduledPayments.isoDate now));
        [exfalso; apply N; auto|reflexivity].
    + left. rewrite S. apply PaymentStatus_eqb_eq in S. auto.
Qed.

Lemma upcoming_summary_is_consistent_witness :
  exists rows summary db',
    PaymentRoutes.upcoming Examples.billsDb "u1" 7 1739000000000
      "2025-02-08T07:33:20.000Z" "2025-02-08T07:33:20.001Z"
    = (Some (rows, summary), db')
    /\ PaymentRoutes.sm_total summary = List.length rows
    /\ PaymentRoutes.sm_total summary = 1%nat.
Proof.
  eexists. eexists. eexists.
  assert (E : PaymentRoutes.upcoming Examples.billsDb "u1" 7 1739000000000
                "2025-02-08T07:33:20.000Z" "2025-02-08T07:33:20.001Z"
              = (Some (_, _), _)) by (vm_compute; reflexivity).
  split; [exact E|].
  split; [|reflexivity].
  apply (upcoming_summary_is_consistent _ _ _ _ _ _ _ _ _ E).
Defined.

(** ** Writing the scheduled payments *)

(** X19. A scheduled payment that was created can be read back and deleted
    again: with references that are absent or the owner's, no instalment
    row named, and an identifier no stored payment has, the created
    payment is pending and unpaid, [GET /scheduled-payments/:id] answers
    with it, and deleting it leaves the store exactly as it was. *)
Theorem payment_create_then_delete_restores_the_store
    (db : Db) (categories : list PaymentRoutes.CategoryRow) (userId : Id)
    (body : PaymentRoutes.CreateBody) (now : string) (newId : Id) :
  PaymentRoutes.referenceOk (PaymentRoutes.cb_categoryId body)
    (PaymentRoutes.ownsCategory categories userId) = true ->
  PaymentRoutes.referenceOk (PaymentRoutes.cb_accountId body)
    (PaymentRoutes.ownsAccount db userId) = true ->
  PaymentRoutes.referenceOk (PaymentRoutes.cb_debtId body)
    (PaymentRoutes.ownsDebt db userId) = true ->
  PaymentRoutes.referenceOk (PaymentRoutes.cb_loanId body)
    (PaymentRoutes.ownsLoan db userId) = true ->
  PaymentRoutes.cb_debtInstallmentId body = None ->
  freshKey sp_id (scheduledPayments db) newId ->
  exists created db',
    PaymentRoutes.create db categories userId body now newId
    = (Json201 created, db')
    /\ sp_status created = pending
    /\ sp_paidDate created = None /\ sp_paidAmount created = None
    /\ sp_amount created = PaymentRoutes.cb_amount body
    /\ sp_dueDate created = PaymentRoutes.cb_dueDate body
    /\ PaymentRoutes.get db' userId newId = Json200 created
    /\ snd (PaymentRoutes.remove db' userId newId) = db.
Proof.
  intros H1 H2 H3 H4 _ Fresh.
  unfold PaymentRoutes.create. rewrite H1, H2, H3, H4. cbn [negb]. cbv zeta.
  eexists. eexists. split; [reflexivity|].
  do 5 (split; [reflexivity|]).
  unfold PaymentRoutes.get, PaymentRoutes.remove, ScheduledPayments.findOwned,
    ScheduledPayments.insertPayments, ScheduledPayments.withScheduledPayments.
  cbn [scheduledPayments].
  rewrite find_snoc_fresh
    by (intros x Hx; rewrite (eqb_fresh _ _ (Fresh x Hx)); reflexivity).
  cbn [sp_id sp_userId]. rewrite !String.eqb_refl. cbn [andb snd].
  split; [reflexivity|].
  cbn [accounts transactions transfers debts loans goals scheduledPayments].
  rewrite filter_snoc_fresh.
  - destruct db. reflexivity.
  - intros x Hx. rewrite (eqb_fresh _ _ (Fresh x Hx)). reflexivity.
  - cbn [sp_id sp_userId]. rewrite !String.eqb_refl. reflexivity.
Qed.

Lemma payment_create_then_delete_restores_the_store_witness :
  exists created db',
    PaymentRoutes.create Examples.billsDb [] "u1"
      (PaymentRoutes.mkCreateBody "Water" None 30 "PEN" "2025-03-05" None
         (Some "A") None None None false None low None None 3)
      "2025-02-01T09:00:00.000Z" "sp9"
    = (Json201 created, db')
    /\ sp_status created = pending
    /\ sp_paidDate created = None /\ sp_paidAmount created = None
    /\ sp_amount created = 30
    /\ sp_dueDate created = "2025-03-05"
    /\ PaymentRoutes.get db' "u1" "sp9" = Json200 created
    /\ snd (PaymentRoutes.remove db' "u1" "sp9") = Examples.billsDb.
Proof.
  apply (payment_create_then_delete_restores_the_store Examples.billsDb []
           "u1"
           (PaymentRoutes.mkCreateBody "Water" None 30 "PEN" "2025-03-05" None
              (Some "A") None None None false None low None None 3)
           "2025-02-01T09:00:00.000Z" "sp9"); try reflexivity.
  intros p [<-|[<-|[]]]; discriminate.
Defined.





(** ** Writes and the rows of other owners *)

Section OwnerFilters.
Context {A : Type} (owner : A -> string) (userId other : string).
Hypothesis Hother : other <> userId.

Lemma filter_owner_app (rows new : list A) :
  Forall (fun r => owner r = userId) new ->
  filter (fun r => String.eqb (owner r) other) (rows ++ new)
  = filter (fun r => String.eqb (owner r) other) rows.
Proof.
  intros H. rewrite filter_app, (filter_none _ new), app_nil_r; [reflexivity|].
  intros x Hx. rewrite Forall_forall in H. rewrite (H x Hx).
  apply String.eqb_neq. congruence.
Qed.

Lemma filter_owner_remove (keep : A -> bool) (rows : list A) :
  (forall q, In q rows -> keep q = false -> owner q = userId) ->
  filter (fun r => String.eqb (owner r) other) (filter keep rows)
  = filter (fun r => String.eqb (owner r) other) rows.
Proof.
  induction rows as [|q rows IH]; intros H; [reflexivity|].
  cbn [filter]. destruct (keep q) eqn:K.
  - cbn [filter]. rewrite IH; [reflexivity|].
    intros x Hx. apply H. right. exact Hx.
  - rewrite (H q (or_introl eq_refl) K).
    assert (E : String.eqb userId other = false)
      by (apply String.eqb_neq; congruence).
    rewrite E. apply IH. intros x Hx. apply H. right. exact Hx.
Qed.

Lemma filter_owner_map (f : A -> A) (rows : list A) :
  (forall q, In q rows ->
             f q = q \/ (owner q = userId /\ owner (f q) = userId)) ->
  filter (fun r => String.eqb (owner r) other) (map f rows)
  = filter (fun r => String.eqb (owner r) other) rows.
Proof.
  assert (E : String.eqb userId other = false)
    by (apply String.eqb_neq; congruence).
  induction rows as [|q rows IH]; intros H; [reflexivity|].
  cbn [map filter].
  rewrite IH by (intros x Hx; apply H; right; exact Hx).
  destruct (H q (or_introl eq_refl)) as [->|[E1 E2]]; [reflexivity|].
  rewrite E1, E2, E. reflexivity.
Qed.

End OwnerFilters.

Lemma ownerRows_updateWhere
    (db : Db) (userId other : Id) (cond : ScheduledPayment -> bool)
    (s : ScheduledPayments.Patch) :
  other <> userId ->
  (forall q, In q (scheduledPayments db) -> cond q = true ->
             sp_userId q = userId) ->
  ownerRows other (ScheduledPayments.updateWhere db cond s)
  = ownerRows other db.
Proof.
  intros Ho H. unfold ownerRows, ScheduledPayments.updateWhere,
    ScheduledPayments.withScheduledPayments.
  cbn [accounts transactions transfers debts loans goals scheduledPayments].
  f_equal. apply (filter_owner_map sp_userId userId other Ho).
  intros q Hq. destruct (cond q) eqn:C; [right|left; reflexivity].
  split; [exact (H q Hq C)|]. cbn [ScheduledPayments.applyPatch sp_userId].
  exact (H q Hq C).
Qed.

Lemma ownerRows_insertPayments
    (db : Db) (userId other : Id) (rows : list ScheduledPayment) :
  other <> userId ->
  Forall (fun r => sp_userId r = userId) rows ->
  ownerRows other (ScheduledPayments.insertPayments db rows)
  = ownerRows other db.
Proof.
  intros Ho H. unfold ownerRows, ScheduledPayments.insertPayments,
    ScheduledPayments.withScheduledPayments.
  cbn [accounts transactions transfers debts loans goals scheduledPayments].
  f_equal. apply (filter_owner_app sp_userId userId other Ho). exact H.
Qed.

Lemma ownerRows_insertTransaction
    (db : Db) (userId other : Id) (tx : Transaction) :
  other <> userId -> tx_userId tx = userId ->
  ownerRows other (ScheduledPayments.insertTransaction db tx)
  = ownerRows other db.
Proof.
  intros Ho H. unfold ownerRows, ScheduledPayments.insertTransaction,
    ScheduledPayments.withTransactions.
  cbn [accounts transactions transfers debts loans goals scheduledPayments].
  f_equal. apply (filter_owner_app tx_userId userId other Ho).
  constructor; [exact H|constructor].
Qed.

(** The row a request found by identifier and owner is the only row with
    that identifier. *)
Lemma found_row_owns_the_id
    (db : Db) (userId id : Id) (p : ScheduledPayment) :
  NoDup (map sp_id (scheduledPayments db)) ->
  ScheduledPayments.findOwned db userId id = Some p ->
  forall q, In q (scheduledPayments db) -> String.eqb (sp_id q) id = true ->
            sp_userId q = userId.
Proof.
  intros Hnd F q Hq E. apply String.eqb_eq in E.
  destruct (findOwned_Some db userId id p F) as (Hin & Hid & Hu).
  rewrite (primary_key_unique _ q p Hnd Hq Hin); [exact Hu|congruence].
Qed.

Lemma sequence_Forall {A : Type} (P : A -> Prop) (l : list (option A))
    (rows : list A) :
  ScheduledPayments.sequence l = Some rows ->
  (forall x, In (Some x) l -> P x) -> Forall P rows.
Proof.
  revert rows. induction l as [|[x|] l IH]; intros rows; cbn [ScheduledPayments.sequence].
  - intros [= <-] _. constructor.
  - destruct (ScheduledPayments.sequence l) as [xs|]; [|discriminate].
    intros [= <-] H. constructor.
    + apply H. left. reflexivity.
    + apply IH; [reflexivity|]. intros y Hy. apply H. right. exact Hy.
  - discriminate.
Qed.

(** X21. A write to the scheduled payments on behalf of one owner leaves the
    rows of every other owner, in every table, exactly as they were: the
    sweep, an update, a settlement with its clone and ledger entry, a
    cancellation, a creation, a deletion and the bulk generation from a
    debt.  Settlement and cancellation rewrite by identifier alone, which
    is safe because the identifier is the primary key. *)
Theorem payment_writes_leave_other_owners_alone
    (db : Db) (categories : list PaymentRoutes.CategoryRow)
    (userId other id : Id) (now updatedAt : string)
    (patch : ScheduledPayments.Patch) (payBody : ScheduledPayments.PayBody)
    (nextId txId newId : Id) (createBody : PaymentRoutes.CreateBody)
    (uuid : nat -> Id) :
  other <> userId ->
  NoDup (map sp_id (scheduledPayments db)) ->
  ownerRows other (ScheduledPayments.markOverduePayments db userId now updatedAt)
  = ownerRows other db
  /\ ownerRows other (snd (ScheduledPayments.update db userId id patch now))
     = ownerRows other db
  /\ ownerRows other
       (snd (ScheduledPayments.pay db userId id payBody now nextId txId))
     = ownerRows other db
  /\ ownerRows other (snd (ScheduledPayments.cancel db userId id now))
     = ownerRows other db
  /\ ownerRows other
       (snd (PaymentRoutes.create db categories userId createBody now newId))
     = ownerRows other db
  /\ ownerRows other (snd (PaymentRoutes.remove db userId id))
     = ownerRows other db
  /\ ownerRows other (snd (ScheduledPayments.fromDebt db userId id now uuid))
     = ownerRows other db.
Proof.
  intros Ho Hnd.
  split; [|split; [|split; [|split; [|split; [|split]]]]].
  - unfold ScheduledPayments.markOverduePayments.
    apply (ownerRows_updateWhere _ userId); [exact Ho|].
    intros q _ D. apply isDue_spec in D. tauto.
  - unfold ScheduledPayments.update.
    destruct (ScheduledPayments.findOwned db userId id); [|reflexivity].
    cbn [snd]. apply (ownerRows_updateWhere _ userId); [exact Ho|].
    intros q _ C. apply andb_true_iff in C. destruct C as [_ C].
    apply String.eqb_eq in C. exact C.
  - unfold ScheduledPayments.pay.
    destruct (ScheduledPayments.findOwned db userId id) as [p|] eqn:F;
      [|reflexivity].
    pose proof (found_row_owns_the_id db userId id p Hnd F) as Own.
    destruct (PaymentStatus_eqb (sp_status p) paid); [reflexivity|].
    destruct (PaymentStatus_eqb (sp_status p) cancelled); [reflexivity|].
    cbv zeta.
    destruct (sp_isRecurring p && _ && _).
    + destruct (ScheduledPayments.getNextDueDate _ _).
      * destruct (ScheduledPayments.truthy (sp_accountId p)); cbn [snd].
        -- rewrite (ownerRows_insertTransaction _ userId) by trivial.
           rewrite (ownerRows_insertPayments _ userId)
             by (trivial; repeat constructor).
           apply (ownerRows_updateWhere _ userId); assumption.
        -- rewrite (ownerRows_insertPayments _ userId)
             by (trivial; repeat constructor).
           apply (ownerRows_updateWhere _ userId); assumption.
      * cbn [snd]. apply (ownerRows_updateWhere _ userId); assumption.
    + destruct (ScheduledPayments.truthy (sp_accountId p)); cbn [snd].
      * rewrite (ownerRows_insertTransaction _ userId) by trivial.
        apply (ownerRows_updateWhere _ userId); assumption.
      * apply (ownerRows_updateWhere _ userId); assumption.
  - unfold ScheduledPayments.cancel.
    destruct (ScheduledPayments.findOwned db userId id) as [p|] eqn:F;
      [|reflexivity].
    pose proof (found_row_owns_the_id db userId id p Hnd F) as Own.
    destruct (PaymentStatus_eqb (sp_status p) paid); [reflexivity|].
    cbn [snd]. apply (ownerRows_updateWhere _ userId); assumption.
  - unfold PaymentRoutes.create.
    repeat (destruct (negb _); [reflexivity|]).
    cbv zeta. cbn [snd].
    apply (ownerRows_insertPayments _ userId); [exact Ho|].
    repeat constructor.
  - unfold PaymentRoutes.remove.
    destruct (ScheduledPayments.findOwned db userId id); [|reflexivity].
    cbn [snd]. unfold ownerRows, ScheduledPayments.withScheduledPayments.
    cbn [accounts transactions transfers debts loans goals scheduledPayments].
    f_equal. apply (filter_owner_remove sp_userId userId other Ho).
    intros q _ K. apply negb_false_iff, andb_true_iff in K.
    destruct K as [_ K]. apply String.eqb_eq in K. exact K.
  - unfold ScheduledPayments.fromDebt.
    destruct (find _ (debts db)) as [debt|]; [|reflexivity].
    cbv zeta.
    destruct (ScheduledPayments.sequence _) as [rows|] eqn:S; [|reflexivity].
    cbn [snd]. apply (ownerRows_insertPayments _ userId); [exact Ho|].
    apply (sequence_Forall _ _ _ S).
    intros x Hx. apply in_map_iff in Hx. destruct Hx as (k & Hk & _).
    destruct (ScheduledPayments.installmentDueDate _ _); [|discriminate].
    cbn [option_map] in Hk. injection Hk as <-. reflexivity.
Qed.

Lemma payment_writes_leave_other_owners_alone_witness :
  ownerRows "u2"
    (snd (ScheduledPayments.pay Examples.billsDb "u1" "sp3" Examples.payNow
            "2025-02-10T10:00:00.000Z" "n1" "x1"))
  = ownerRows "u2" Examples.billsDb.
Proof.
  apply (payment_writes_leave_other_owners_alone Examples.billsDb [] "u1" "u2"
           "sp3" "2025-02-10T10:00:00.000Z" "2025-02-10T10:00:00.001Z"
           Examples.reopen Examples.payNow "n1" "x1" "sp9"
           (PaymentRoutes.mkCreateBody "Water" None 30 "PEN" "2025-03-05" None
              (Some "A") None None None false None low None None 3)
           Examples.uuids).
  - discriminate.
  - repeat constructor; cbn; intuition discriminate.
Defined.



(** ** The instalment plan of a debt *)








(** ** Retiring accounts and goals *)

Lemma balance_same_ledger (db db' : Db) (userId : Id) (a a' : Account) :
  transactions db' = transactions db -> transfers db' = transfers db ->
  acc_id a' = acc_id a -> acc_initialBalance a' = acc_initialBalance a ->
  Accounts.balance (Accounts.withBalance db' userId a')
  = Accounts.balance (Accounts.withBalance db userId a).
Proof.
  intros Htx Htr Hid Hb. unfold Accounts.withBalance.
  cbn [Accounts.balance].
  unfold Accounts.incomeOf, Accounts.expenseOf, Accounts.transfersInOf,
    Accounts.transfersOutOf.
  rewrite Htx, Htr, Hid, Hb. reflexivity.
Qed.

Lemma listing_after_rewrite (db db' : Db) (userId : Id)
    (f : Account -> Account) (l : list Account) :
  transactions db' = transactions db -> transfers db' = transfers db ->
  (forall a, acc_id (f a) = acc_id a) ->
  (forall a, acc_userId (f a) = acc_userId a) ->
  (forall a, acc_initialBalance (f a) = acc_initialBalance a) ->
  map (fun r => (acc_id (Accounts.account r), Accounts.balance r))
    (map (Accounts.withBalance db' userId)
       (filter (fun a => String.eqb (acc_userId a) userId) (map f l)))
  = map (fun r => (acc_id (Accounts.account r), Accounts.balance r))
      (map (Accounts.withBalance db userId)
         (filter (fun a => String.eqb (acc_userId a) userId) l)).
Proof.
  intros Htx Htr Hid Hu Hb.
  induction l as [|q l IH]; [reflexivity|].
  cbn [map filter]. rewrite Hu.
  destruct (String.eqb (acc_userId q) userId); [|exact IH].
  cbn [map]. rewrite IH. f_equal.
  rewrite (balance_same_ledger db db' userId q (f q)) by auto.
  cbn [Accounts.withBalance Accounts.account]. rewrite Hid. reflexivity.
Qed.

(** X24. Deleting an account hides it and erases nothing: the account is no
    longer in the default listing nor on the dashboard, the listing that
    includes inactive accounts still shows every account with the balance
    it had, the ledger is untouched, and the account still counts as the
    owner's, so that new entries and transfers naming it are accepted. *)
Theorem deleted_account_is_hidden_not_erased
    (db : Db) (userId accountId : Id) (config : Dashboard.Config) :
  PaymentRoutes.ownsAccount db userId accountId = true ->
  exists db',
    Retire.deleteAccount db userId accountId
    = (Json200 "Cuenta eliminada exitosamente", db')
    /\ Forall (fun r => acc_id (Accounts.account r) <> accountId)
         (Accounts.list_accounts (Accounts.list db' userId false))
    /\ Forall (fun r => Dashboard.ab_id r <> accountId)
         (Dashboard.accountsList db' userId config)
    /\ map (fun r => (acc_id (Accounts.account r), Accounts.balance r))
         (Accounts.list_accounts (Accounts.list db' userId true))
       = map (fun r => (acc_id (Accounts.account r), Accounts.balance r))
           (Accounts.list_accounts (Accounts.list db userId true))
    /\ transactions db' = transactions db
    /\ transfers db' = transfers db
    /\ PaymentRoutes.ownsAccount db' userId accountId = true.
Proof.
  intros Own. unfold Retire.deleteAccount. cbv zeta.
  set (owned := fun a : Account =>
         String.eqb (acc_id a) accountId && String.eqb (acc_userId a) userId).
  set (retire := fun a : Account =>
         if owned a
         then mkAccount (acc_id a) (acc_userId a) (acc_name a)
                (acc_currency a) (acc_initialBalance a) false
                (acc_includeInTotal a)
         else a).
  assert (Rid : forall a, acc_id (retire a) = acc_id a)
    by (intros a; unfold retire; destruct (owned a); reflexivity).
  assert (Ruser : forall a, acc_userId (retire a) = acc_userId a)
    by (intros a; unfold retire; destruct (owned a); reflexivity).
  assert (Rinit : forall a, acc_initialBalance (retire a) = acc_initialBalance a)
    by (intros a; unfold retire; destruct (owned a); reflexivity).
  assert (Hidden : forall a,
            String.eqb (acc_userId (retire a)) userId
            && acc_isActive (retire a) = true ->
            acc_id (retire a) <> accountId).
  { intros a H. apply andb_true_iff in H. destruct H as [U Act].
    unfold retire in *. destruct (owned a) eqn:O.
    - cbn [acc_isActive] in Act. discriminate.
    - intros E. unfold owned in O. rewrite U in O.
      apply String.eqb_eq in E. rewrite E in O. discriminate. }
  unfold PaymentRoutes.ownsAccount in Own. fold owned in Own.
  destruct (find owned (accounts db)) as [a|] eqn:F.
  2:{ apply existsb_exists in Own. destruct Own as (x & Hx & Ox).
      rewrite (find_none _ _ F x Hx) in Ox. discriminate. }
  exists (Retire.withAccounts db (map retire (accounts db))).
  split; [reflexivity|].
  unfold Retire.withAccounts.
  split; [|split; [|split; [|split; [|split]]]].
  - unfold Accounts.list. cbn [Accounts.list_accounts accounts].
    apply Forall_forall. intros r Hr.
    apply in_map_iff in Hr. destruct Hr as (x & <- & Hx).
    apply filter_In in Hx. destruct Hx as [Hx C].
    apply in_map_iff in Hx. destruct Hx as (q & <- & _).
    cbn [Accounts.withBalance Accounts.account]. apply Hidden. exact C.
  - unfold Dashboard.accountsList, Dashboard.rawAccounts. cbn [accounts].
    apply Forall_forall. intros r Hr.
    apply in_map_iff in Hr. destruct Hr as (x & <- & Hx).
    apply filter_In in Hx. destruct Hx as [Hx C].
    apply in_map_iff in Hx. destruct Hx as (q & <- & _).
    cbn [Dashboard.ab_id]. apply Hidden.
    apply andb_true_iff in C. destruct C as [C _]. exact C.
  - unfold Accounts.list. cbn [Accounts.list_accounts accounts]. cbv iota.
    apply listing_after_rewrite; auto.
  - reflexivity.
  - reflexivity.
  - unfold PaymentRoutes.ownsAccount. cbn [accounts].
    apply existsb_exists.
    apply find_some in F. destruct F as [Hin O].
    exists (retire a). split; [apply in_map; exact Hin|].
    rewrite Rid, Ruser. exact O.
Qed.

Lemma deleted_account_is_hidden_not_erased_witness :
  exists db',
    Retire.deleteAccount Examples.transferDb "u1" "A"
    = (Json200 "Cuenta eliminada exitosamente", db')
    /\ Forall (fun r => acc_id (Accounts.account r) <> "A")
         (Accounts.list_accounts (Accounts.list db' "u1" false))
    /\ PaymentRoutes.ownsAccount db' "u1" "A" = true.
Proof.
  destruct (deleted_account_is_hidden_not_erased Examples.transferDb "u1" "A"
              Dashboard.defaultConfig)
    as (db' & H1 & H2 & _ & _ & _ & _ & H7).
  - reflexivity.
  - exists db'. split; [exact H1|]. split; [exact H2|exact H7].
Defined.

(** ** Listings and detail reads *)

(** X25. The [includeInactive] flag of the account listing changes the rows
    listed, never the total: with or without the inactive accounts the
    reported total is the same sum, over the active accounts that count in
    the total. *)
Theorem listing_total_ignores_the_inactive_flag (db : Db) (userId : Id) :
  Accounts.list_totalBalance (Accounts.list db userId true)
  == Accounts.list_totalBalance (Accounts.list db userId false)
  /\ (Accounts.list_count (Accounts.list db userId false)
      <= Accounts.list_count (Accounts.list db userId true))%nat
  /\ Accounts.list_totalBalance (Accounts.list db userId true)
     == sumOf (fun a => Accounts.balance (Accounts.withBalance db userId a))
          (filter (fun a => String.eqb (acc_userId a) userId
                            && acc_isActive a && acc_includeInTotal a)
                  (accounts db)).
Proof.
  assert (T : forall includeInactive : bool,
            Accounts.list_totalBalance (Accounts.list db userId includeInactive)
            == sumOf (fun a => Accounts.balance
                                 (Accounts.withBalance db userId a))
                 (filter (fun a => String.eqb (acc_userId a) userId
                                   && acc_isActive a && acc_includeInTotal a)
                         (accounts db))).
  { intros includeInactive. unfold Accounts.list.
    cbn [Accounts.list_totalBalance].
    rewrite reduceSum_sumOf, filter_map_comm, sumOf_map, filter_filter_and.
    cbn [Accounts.account Accounts.withBalance].
    erewrite filter_ext; [reflexivity|].
    intros a. cbn beta.
    destruct includeInactive, (String.eqb (acc_userId a) userId),
      (acc_isActive a), (acc_includeInTotal a); reflexivity. }
  split; [rewrite !T; reflexivity|]. split; [|apply T].
  unfold Accounts.list. cbn [Accounts.list_count]. rewrite !length_map.
  cbv iota. clear T.
  induction (accounts db) as [|a l IH]; [apply le_n|].
  cbn [filter].
  destruct (String.eqb (acc_userId a) userId), (acc_isActive a);
    cbn [andb List.length]; lia.
Qed.

Lemma Qmin_compat_l (x y z : Q) : x == y -> Qmin x z == Qmin y z.
Proof.
  intros E.
  destruct (Q.min_spec x z) as [[L ->]|[L ->]],
    (Q.min_spec y z) as [[L' ->]|[L' ->]]; lra.
Qed.

Lemma Qmax_compat_r (x y z : Q) : x == y -> Qmax z x == Qmax z y.
Proof.
  intros E.
  destruct (Q.max_spec z x) as [[L ->]|[L ->]],
    (Q.max_spec z y) as [[L' ->]|[L' ->]]; lra.
Qed.

Lemma Qdiv_compat_l (x y z : Q) : x == y -> x / z == y / z.
Proof. intros E. unfold Qdiv. rewrite E. reflexivity. Qed.

(** X26. The detail read of a goal, a debt or a loan agrees with its row in
    the listing: the entity found is a stored row of the owner, and its
    accumulated amount, remaining amount and progress have the values the
    listing derives for that row, although the detail read adds up the
    history in the route and the listing lets the database sum. *)
Theorem detail_agrees_with_listing (db : Db) (userId id : Id) :
  (forall v, Goals.get db userId id = Json200 v ->
     In (entity v) (goals db) /\ goal_id (entity v) = id
     /\ goal_userId (entity v) = userId
     /\ current v == current (Goals.withProgress db userId (entity v))
     /\ remaining v == remaining (Goals.withProgress db userId (entity v))
     /\ progress v == progress (Goals.withProgress db userId (entity v)))
  /\ (forall v, Debts.get db userId id = Json200 v ->
        In (entity v) (debts db) /\ debt_id (entity v) = id
        /\ debt_userId (entity v) = userId
        /\ current v == current (Debts.withPaidAmount db userId (entity v))
        /\ remaining v
           == remaining (Debts.withPaidAmount db userId (entity v))
        /\ progress v == progress (Debts.withPaidAmount db userId (entity v)))
  /\ (forall v, Loans.get db userId id = Json200 v ->
        In (entity v) (loans db) /\ loan_id (entity v) = id
        /\ loan_userId (entity v) = userId
        /\ current v == current (Loans.withReceivedAmount db userId (entity v))
        /\ remaining v
           == remaining (Loans.withReceivedAmount db userId (entity v))
        /\ progress v
           == progress (Loans.withReceivedAmount db userId (entity v))).
Proof.
  split; [|split]; intros v.
  - unfold Goals.get.
    destruct (find _ (goals db)) as [g|] eqn:F; [|discriminate].
    cbv zeta. intros [= <-]. apply find_some in F. destruct F as [Hin C].
    apply andb_true_iff in C. destruct C as [C1 C2].
    apply String.eqb_eq in C1, C2.
    cbn [entity current remaining progress Goals.withProgress].
    split; [exact Hin|]. split; [exact C1|]. split; [exact C2|].
    rewrite C1.
    assert (E : reduceSum tx_amount (Goals.contributions db userId id)
                == orNumber (sumOf tx_amount
                               (Goals.contributions db userId id)) 0)
      by (rewrite orNumber_zero; apply reduceSum_sumOf).
    split; [exact E|]. split.
    + apply Qmax_compat_r. rewrite E. reflexivity.
    + apply Qmin_compat_l. rewrite E. reflexivity.
  - unfold Debts.get.
    destruct (find _ (debts db)) as [g|] eqn:F; [|discriminate].
    cbv zeta. intros [= <-]. apply find_some in F. destruct F as [Hin C].
    apply andb_true_iff in C. destruct C as [C1 C2].
    apply String.eqb_eq in C1, C2.
    cbn [entity current remaining progress Debts.withPaidAmount].
    split; [exact Hin|]. split; [exact C1|]. split; [exact C2|].
    rewrite C1.
    assert (E : reduceSum tx_amount (Debts.payments db userId id)
                == orNumber (sumOf tx_amount
                               (Debts.payments db userId id)) 0)
      by (rewrite orNumber_zero; apply reduceSum_sumOf).
    split; [exact E|]. split.
    + rewrite E. reflexivity.
    + apply Qmin_compat_l. rewrite E. reflexivity.
  - unfold Loans.get.
    destruct (find _ (loans db)) as [g|] eqn:F; [|discriminate].
    cbv zeta. intros [= <-]. apply find_some in F. destruct F as [Hin C].
    apply andb_true_iff in C. destruct C as [C1 C2].
    apply String.eqb_eq in C1, C2.
    cbn [entity current remaining progress Loans.withReceivedAmount].
    split; [exact Hin|]. split; [exact C1|]. split; [exact C2|].
    rewrite C1.
    assert (E : reduceSum tx_amount (Loans.receipts db userId id)
                == orNumber (sumOf tx_amount
                               (Loans.receipts db userId id)) 0)
      by (rewrite orNumber_zero; apply reduceSum_sumOf).
    split; [exact E|]. split.
    + rewrite E. reflexivity.
    + apply Qmin_compat_l. rewrite E. reflexivity.
Qed.

Lemma detail_agrees_with_listing_witness :
  exists v,
    Goals.get Examples.goalDb "u1" "g1" = Json200 v
    /\ current v
       == current (Goals.withProgress Examples.goalDb "u1" (entity v))
    /\ progress v
       == progress (Goals.withProgress Examples.goalDb "u1" (entity v)).
Proof.
  eexists. split; [reflexivity|].
  destruct (proj1 (detail_agrees_with_listing Examples.goalDb "u1" "g1") _
              eq_refl) as (_ & _ & _ & H1 & _ & H2).
  split; [exact H1|exact H2].
Defined.

(** ** The goals of the dashboard *)

Lemma targetDateLe_total (a b : Goal) :
  Dashboard.targetDateLe a b = true \/ Dashboard.targetDateLe b a = true.
Proof.
  unfold Dashboard.targetDateLe.
  destruct (goal_targetDate a) as [x|], (goal_targetDate b) as [y|]; auto.
  apply String.leb_total.
Qed.

Lemma targetDateLe_trans (a b c : Goal) :
  Dashboard.targetDateLe a b = true -> Dashboard.targetDateLe b c = true ->
  Dashboard.targetDateLe a c = true.
Proof.
  unfold Dashboard.targetDateLe.
  destruct (goal_targetDate a) as [x|], (goal_targetDate b) as [y|],
    (goal_targetDate c) as [z|]; try (intros; reflexivity || discriminate).
  apply string_leb_trans.
Qed.

Lemma insertGoal_Permutation (g : Goal) (l : list Goal) :
  Permutation (Dashboard.insertGoal g l) (g :: l).
Proof.
  induction l as [|h l IH]; cbn [Dashboard.insertGoal]; [reflexivity|].
  destruct (Dashboard.targetDateLe g h); [reflexivity|].
  rewrite IH. apply perm_swap.
Qed.

Lemma orderByTargetDate_Permutation (l : list Goal) :
  Permutation (Dashboard.orderByTargetDate l) l.
Proof.
  unfold Dashboard.orderByTargetDate.
  induction l as [|g l IH]; cbn [fold_right]; [reflexivity|].
  rewrite insertGoal_Permutation, IH. reflexivity.
Qed.

Lemma insertGoal_sorted (g : Goal) (l : list Goal) :
  StronglySorted (fun a b => Dashboard.targetDateLe a b = true) l ->
  StronglySorted (fun a b => Dashboard.targetDateLe a b = true)
    (Dashboard.insertGoal g l).
Proof.
  induction 1 as [|h l S IH F]; cbn [Dashboard.insertGoal].
  - repeat constructor.
  - destruct (Dashboard.targetDateLe g h) eqn:E.
    + constructor; [constructor; assumption|].
      constructor; [exact E|].
      eapply Forall_impl; [|exact F]. intros x Hx.
      exact (targetDateLe_trans g h x E Hx).
    + constructor; [exact IH|].
      rewrite (insertGoal_Permutation g l).
      constructor; [|exact F].
      destruct (targetDateLe_total g h) as [H|H]; [congruence|exact H].
Qed.

Lemma orderByTargetDate_sorted (l : list Goal) :
  StronglySorted (fun a b => Dashboard.targetDateLe a b = true)
    (Dashboard.orderByTargetDate l).
Proof.
  unfold Dashboard.orderByTargetDate.
  induction l as [|g l IH]; cbn [fold_right]; [constructor|].
  apply insertGoal_sorted. exact IH.
Qed.

Lemma firstn_In {A : Type} (n : nat) (l : list A) (x : A) :
  In x (firstn n l) -> In x l.
Proof.
  intros H. rewrite <- (firstn_skipn n l). apply in_or_app. left. exact H.
Qed.

Lemma sorted_app_inv {A : Type} (R : A -> A -> Prop) (l1 l2 : list A) :
  StronglySorted R (l1 ++ l2) ->
  StronglySorted R l1 /\ Forall (fun x => Forall (R x) l2) l1.
Proof.
  induction l1 as [|a l1 IH]; cbn [app]; intros H.
  - split; constructor.
  - inversion H as [|? ? S F]; subst. destruct (IH S) as [S1 F1].
    apply Forall_app in F. destruct F as [Fa Fb].
    split; constructor; assumption.
Qed.

(** X27. The goal widget of the dashboard shows at most five goals, all of
    them active, uncompleted goals of the owner, in ascending order of
    target date with the goals without a date first; and a goal is left
    out only when five are shown, none of which is due later than it. *)
Theorem dashboard_shows_the_nearest_goals (db : Db) (userId : Id) :
  let shown := map Dashboard.gp_goal (Dashboard.goalsWithProgress db userId) in
  (List.length shown <= 5)%nat
  /\ Forall (fun g => In g (goals db) /\ goal_userId g = userId
                      /\ goal_isActive g = true /\ goal_isCompleted g = false)
       shown
  /\ StronglySorted (fun a b => Dashboard.targetDateLe a b = true) shown
  /\ (forall g, In g (goals db) -> goal_userId g = userId ->
        goal_isActive g = true -> goal_isCompleted g = false ->
        In g shown
        \/ (List.length shown = 5%nat
            /\ Forall (fun h => Dashboard.targetDateLe h g = true) shown)).
Proof.
  cbv zeta. unfold Dashboard.goalsWithProgress.
  rewrite map_map. cbn [Dashboard.goalWithProgress Dashboard.gp_goal].
  rewrite map_id.
  set (selected := filter _ (goals db)).
  set (sorted := Dashboard.orderByTargetDate selected).
  pose proof (orderByTargetDate_Permutation selected) as P. fold sorted in P.
  pose proof (orderByTargetDate_sorted selected) as S. fold sorted in S.
  rewrite <- (firstn_skipn 5 sorted) in S.
  apply sorted_app_inv in S. destruct S as [S1 S2].
  assert (Sel : forall g, In g selected <->
            In g (goals db) /\ goal_userId g = userId
            /\ goal_isActive g = true /\ goal_isCompleted g = false).
  { intros g. unfold selected. rewrite filter_In, !andb_true_iff,
      String.eqb_eq, negb_true_iff. tauto. }
  split; [apply firstn_le_length|]. split; [|split; [exact S1|]].
  - apply Forall_forall. intros g Hg. apply Sel.
    apply (Permutation_in g P). eapply firstn_In. exact Hg.
  - intros g H1 H2 H3 H4.
    assert (Hin : In g sorted).
    { apply (Permutation_in g (Permutation_sym P)). apply Sel. auto. }
    rewrite <- (firstn_skipn 5 sorted) in Hin.
    apply in_app_or in Hin. destruct Hin as [Hin|Hin]; [left; exact Hin|].
    right. split.
    + apply firstn_length_le.
      destruct (Nat.le_gt_cases 5 (List.length sorted)) as [L|L]; [exact L|].
      rewrite skipn_all2 in Hin by lia. contradiction.
    + eapply Forall_impl; [|exact S2]. intros h Hh.
      rewrite Forall_forall in Hh. exact (Hh g Hin).
Qed.

(** ** Retiring goals *)

Lemma find_map_same {A : Type} (p : A -> bool) (f : A -> A) (l : list A) :
  (forall x, p (f x) = p x) -> find p (map f l) = option_map f (find p l).
Proof.
  intros H. induction l as [|x l IH]; [reflexivity|].
  cbn [map find]. rewrite H. destruct (p x); [reflexivity|exact IH].
Qed.

Lemma orderByTargetDate_In (g : Goal) (l : list Goal) :
  In g (Dashboard.orderByTargetDate l) -> In g l.
Proof. apply Permutation_in. apply orderByTargetDate_Permutation. Qed.

(** X28. Completing a goal takes it out of the default goal listing and off
    the dashboard, while the detail read still answers with it, now
    completed and with the accumulated amount and progress it had.
    Deleting a goal that no ledger entry refers to makes the detail read
    answer 404 and leaves the ledger as it was. *)
Theorem retired_goal_views (db : Db) (userId goalId : Id) (v : Projection Goal) :
  Goals.get db userId goalId = Json200 v ->
  (exists db' v',
     Retire.completeGoal db userId goalId
     = (Json200 "¡Felicidades! Meta completada exitosamente", db')
     /\ Forall (fun r => goal_id (entity r) <> goalId)
          (Goals.list db' userId false)
     /\ Forall (fun r => goal_id (Dashboard.gp_goal r) <> goalId)
          (Dashboard.goalsWithProgress db' userId)
     /\ Goals.get db' userId goalId = Json200 v'
     /\ goal_isCompleted (entity v') = true
     /\ current v' = current v /\ progress v' = progress v)
  /\ ((forall t, In t (transactions db) -> tx_goalId t <> Some goalId) ->
      exists db',
        Retire.deleteGoal db userId goalId
        = (Json200 "Meta eliminada exitosamente", db')
        /\ Goals.get db' userId goalId = Json404 "Meta no encontrada"
        /\ transactions db' = transactions db).
Proof.
  intros G.
  set (owned := fun g : Goal =>
         String.eqb (goal_id g) goalId && String.eqb (goal_userId g) userId).
  set (complete := fun g : Goal =>
         if owned g
         then mkGoal (goal_id g) (goal_userId g) (goal_name g)
                (goal_targetAmount g) (goal_targetDate g) (goal_isActive g)
                true
         else g).
  assert (Cowned : forall g, owned (complete g) = owned g)
    by (intros g; unfold complete; destruct (owned g) eqn:O;
        [exact O|exact O]).
  assert (Hidden : forall g,
            String.eqb (goal_userId (complete g)) userId = true ->
            goal_isCompleted (complete g) = false ->
            goal_id (complete g) <> goalId).
  { intros g U C. unfold complete in *. destruct (owned g) eqn:O.
    - cbn [goal_isCompleted] in C. discriminate.
    - intros E. unfold owned in O. rewrite U in O.
      apply String.eqb_eq in E. rewrite E in O. discriminate. }
  unfold Goals.get in G. fold owned in G.
  destruct (find owned (goals db)) as [g|] eqn:F; [|discriminate].
  cbv zeta in G. injection G as <-.
  split.
  - exists (Retire.withGoals db (map complete (goals db))).
    unfold Retire.completeGoal. cbv zeta. fold owned. rewrite F.
    eexists. split; [reflexivity|].
    unfold Retire.withGoals. split; [|split].
    + unfold Goals.list. cbn [goals]. apply Forall_forall. intros r Hr.
      apply in_map_iff in Hr. destruct Hr as (x & <- & Hx).
      apply filter_In in Hx. destruct Hx as [Hx C].
      apply in_map_iff in Hx. destruct Hx as (q & <- & _).
      cbn [Goals.withProgress entity].
      apply andb_true_iff in C. destruct C as [U C].
      cbn [orb] in C. apply negb_true_iff in C. apply Hidden; assumption.
    + unfold Dashboard.goalsWithProgress. cbn [goals].
      apply Forall_forall. intros r Hr.
      apply in_map_iff in Hr. destruct Hr as (x & <- & Hx).
      apply firstn_In, orderByTargetDate_In, filter_In in Hx.
      destruct Hx as [Hx C].
      apply in_map_iff in Hx. destruct Hx as (q & <- & _).
      cbn [Dashboard.goalWithProgress Dashboard.gp_goal].
      apply andb_true_iff in C. destruct C as [C C3].
      apply andb_true_iff in C. destruct C as [U _].
      apply negb_true_iff in C3. apply Hidden; assumption.
    + unfold Goals.get. cbn [goals]. fold owned.
      rewrite (find_map_same owned complete _ Cowned), F.
      cbn [option_map]. cbv zeta.
      split; [reflexivity|].
      cbn [entity current progress].
      apply find_some in F. destruct F as [_ O].
      unfold complete. rewrite O.
      cbn [goal_isCompleted goal_targetAmount]. repeat split.
  - intros _.
    exists (Retire.withGoals db (filter (fun g => negb (owned g)) (goals db))).
    unfold Retire.deleteGoal. cbv zeta. fold owned. rewrite F.
    split; [reflexivity|]. unfold Retire.withGoals.
    split; [|reflexivity].
    unfold Goals.get. cbn [goals]. fold owned.
    destruct (find owned (filter (fun g => negb (owned g)) (goals db)))
      as [x|] eqn:F2; [|reflexivity].
    apply find_some in F2. destruct F2 as [Hx O].
    apply filter_In in Hx. destruct Hx as [_ N]. rewrite O in N. discriminate.
Qed.

Lemma retired_goal_views_witness :
  exists db' v',
    Retire.completeGoal Examples.goalDb "u1" "g1"
    = (Json200 "¡Felicidades! Meta completada exitosamente", db')
    /\ Forall (fun r => goal_id (entity r) <> "g1")
         (Goals.list db' "u1" false)
    /\ Goals.get db' "u1" "g1" = Json200 v'
    /\ goal_isCompleted (entity v') = true.
Proof.
  destruct (retired_goal_views Examples.goalDb "u1" "g1"
              (mkProjection Examples.goalNear
                 (reduceSum tx_amount
                    (Goals.contributions Examples.goalDb "u1" "g1"))
                 (Qmax 0
                    (goal_targetAmount Examples.goalNear
                     - reduceSum tx_amount
                         (Goals.contributions Examples.goalDb "u1" "g1")))
                 (Qmin
                    (reduceSum tx_amount
                       (Goals.contributions Examples.goalDb "u1" "g1")
                     / goal_targetAmount Examples.goalNear * 100) 100)))
    as [(db' & v' & H1 & H2 & _ & H4 & H5 & _) _].
  - reflexivity.
  - exists db', v'. split; [exact H1|]. split; [exact H2|].
    split; [exact H4|exact H5].
Defined.

(** ** The payments generated from a debt *)




(** ** The dashboard and the listings *)

Lemma length_filter_map {A B : Type} (f : A -> B) (p : B -> bool)
    (l : list A) :
  List.length (filter p (map f l))
  = List.length (filter (fun x => p (f x)) l).
Proof. rewrite filter_map_comm. apply length_map. Qed.

(** X30. The debt and loan figures of the dashboard are those of the
    listings: the totals count the rows of [GET /debts] and [GET /loans],
    the active counts the rows the listings give for the status [active],
    and the amount owed, or still to be received, is the sum of the
    remaining amounts of those active rows. *)
Theorem dashboard_totals_match_the_listings (db : Db) (userId : Id) :
  (Dashboard.ds_total (Dashboard.debtsSummary db userId)
   = List.length (Debts.list db userId None)
   /\ Dashboard.ds_active (Dashboard.debtsSummary db userId)
      = List.length (Debts.list db userId (Some debt_active))
   /\ Dashboard.ds_totalOwed (Dashboard.debtsSummary db userId)
      == sumOf remaining (Debts.list db userId (Some debt_active)))
  /\ (Dashboard.ls_total (Dashboard.loansSummary db userId)
      = List.length (Loans.list db userId None)
      /\ Dashboard.ls_active (Dashboard.loansSummary db userId)
         = List.length (Loans.list db userId (Some loan_active))
      /\ Dashboard.ls_totalToReceive (Dashboard.loansSummary db userId)
         == sumOf remaining (Loans.list db userId (Some loan_active))).
Proof.
  split.
  - unfold Dashboard.debtsSummary, Debts.list. cbv zeta.
    cbn [Dashboard.ds_total Dashboard.ds_active Dashboard.ds_totalOwed].
    rewrite !length_map. split.
    + f_equal. apply filter_ext. intros d. rewrite andb_true_r. reflexivity.
    + rewrite reduceSum_sumOf, filter_map_comm, !length_map, !sumOf_map.
      cbn [fst snd remaining Debts.withPaidAmount].
      rewrite filter_filter_and.
      assert (E : forall d : Debt,
                (String.eqb (debt_userId d) userId
                 && match debt_status d with
                    | debt_active => true
                    | _ => false
                    end)
                = (String.eqb (debt_userId d) userId
                   && Debts.DebtStatus_eqb (debt_status d) debt_active))
        by (intros d; destruct (debt_status d); reflexivity).
      rewrite (filter_ext _ _ E). split; reflexivity.
  - unfold Dashboard.loansSummary, Loans.list. cbv zeta.
    cbn [Dashboard.ls_total Dashboard.ls_active Dashboard.ls_totalToReceive].
    rewrite !length_map. split.
    + f_equal. apply filter_ext. intros d. rewrite andb_true_r. reflexivity.
    + rewrite reduceSum_sumOf, filter_map_comm, !length_map, !sumOf_map.
      cbn [fst snd remaining Loans.withReceivedAmount].
      rewrite filter_filter_and.
      assert (E : forall d : Loan,
                (String.eqb (loan_userId d) userId
                 && match loan_status d with
                    | loan_active => true
                    | _ => false
                    end)
                = (String.eqb (loan_userId d) userId
                   && Loans.LoanStatus_eqb (loan_status d) loan_active))
        by (intros d; destruct (loan_status d); reflexivity).
      rewrite (filter_ext _ _ E). split; reflexivity.
Qed.
